(** * Delivery-Box-Reporter-LoRa: the measurement, report-decision and
      sleep-scheduling core of [src/main.cpp], embedded in Rocq.

    The firmware runs on an ESP8266: [int] is a 32-bit signed integer and
    [unsigned long] a 32-bit unsigned one.  Integers are modelled as [Z] with
    the wrap-around written out.  The globals live in a [World] record that is
    threaded through a small outcome monad; the hardware (millisecond timer,
    range sensor, supply-voltage ADC, LoRa modem) is a record of oracles
    indexed by call counters, so that every call of [millis()] may return a
    value of its own.  Busy-waits take fuel.

    Left out, because they do not touch the modelled state: what is printed
    on the serial console, what is drawn on the OLED display ([show],
    [makeDot]), the LED and the power pins.  The serial console is idle
    ([Serial.available()] is false), so [checkForCommand] does nothing, and
    the initialisation of the display, the sensor and the modem succeeds.

    Beside that core: the start-up of a sensor that may fail
    ([initSensor_retrying]) and the configuration console with input on it
    ([incomingData], [getConfigCommand], [processCommand],
    [checkForCommand_serial]). *)

From Stdlib Require Import ZArith List Bool Lia.
From Stdlib Require Ascii String.
Import ListNotations.
Import Ascii.AsciiSyntax String.StringSyntax.
Delimit Scope char_scope with char.
Delimit Scope string_scope with string.
Local Open Scope Z_scope.

(** ** Machine arithmetic *)

(** Value of an [unsigned long] (32 bits) after wrap-around. *)
Definition wrap32 (z : Z) : Z := z mod 2 ^ 32.

(** Value of a [uint16_t] after wrap-around. *)
Definition wrap16 (z : Z) : Z := z mod 2 ^ 16.

(** ** Constants of [delivery_reporter_lora.h] *)

Definition VALID_SETTINGS_FLAG : Z := 0xDAB0.
Definition DEFAULT_SLEEP_TIME : Z := 0.
Definition DEFAULT_LORA_TARGET_ADDRESS : Z := 1.
Definition DEFAULT_LORA_ADDRESS : Z := 3.
Definition DEFAULT_LORA_NETWORK_ID : Z := 18.
Definition DEFAULT_LORA_BAND : Z := 915000000.
Definition DEFAULT_LORA_POWER : Z := 22.
Definition DEFAULT_LORA_SPREADING_FACTOR : Z := 8.
Definition DEFAULT_LORA_BANDWIDTH : Z := 7.
Definition DEFAULT_LORA_CODING_RATE : Z := 1.
Definition DEFAULT_LORA_PREAMBLE : Z := 12.
Definition DEFAULT_LORA_BAUD_RATE : Z := 115200.
Definition PUBLISH_DELAY : Z := 400.
Definition FULL_BATTERY_COUNT : Z := 3686.
Definition FULL_BATTERY_VOLTS : Z := 412.
Definition ONE_HOUR : Z := 3600000.
Definition SAMPLE_COUNT : nat := 5.

(** ** Data model *)

(** The [conf] struct kept in EEPROM. *)
Record conf : Type := mkConf {
  validConfig : Z;
  mindistance : Z;
  maxdistance : Z;
  sleeptime : Z;
  debug : bool;
  displayenabled : bool;
  invertdisplay : bool;
  loRaTargetAddress : Z;
  loRaAddress : Z;
  loRaNetworkID : Z;
  loRaBand : Z;
  loRaSpreadingFactor : Z;
  loRaBandwidth : Z;
  loRaCodingRate : Z;
  loRaPreamble : Z;
  loRaBaudRate : Z;
  loRaPower : Z
}.

(** The [MY_RTC] struct kept in battery-backed RTC memory. *)
Record MY_RTC : Type := mkRtc {
  nextHealthReportTime : Z;
  rtc : Z;
  wasPresent : bool;
  presentReported : bool;
  absentReported : bool;
  rssi : Z
}.

(** The member initialisers of [MY_RTC]. *)
Definition MY_RTC_init : MY_RTC :=
  {| nextHealthReportTime := 0; rtc := 0; wasPresent := false;
     presentReported := false; absentReported := false; rssi := -99 |}.

Definition set_nextHealthReportTime (v : Z) (r : MY_RTC) : MY_RTC :=
  {| nextHealthReportTime := v; rtc := rtc r; wasPresent := wasPresent r;
     presentReported := presentReported r; absentReported := absentReported r;
     rssi := rssi r |}.

Definition set_rtc (v : Z) (r : MY_RTC) : MY_RTC :=
  {| nextHealthReportTime := nextHealthReportTime r; rtc := v;
     wasPresent := wasPresent r; presentReported := presentReported r;
     absentReported := absentReported r; rssi := rssi r |}.

Definition set_wasPresent (v : bool) (r : MY_RTC) : MY_RTC :=
  {| nextHealthReportTime := nextHealthReportTime r; rtc := rtc r;
     wasPresent := v; presentReported := presentReported r;
     absentReported := absentReported r; rssi := rssi r |}.

Definition set_presentReported (v : bool) (r : MY_RTC) : MY_RTC :=
  {| nextHealthReportTime := nextHealthReportTime r; rtc := rtc r;
     wasPresent := wasPresent r; presentReported := v;
     absentReported := absentReported r; rssi := rssi r |}.

Definition set_absentReported (v : bool) (r : MY_RTC) : MY_RTC :=
  {| nextHealthReportTime := nextHealthReportTime r; rtc := rtc r;
     wasPresent := wasPresent r; presentReported := presentReported r;
     absentReported := v; rssi := rssi r |}.

(** The JSON document handed to the modem.  [battery] is the voltage in
    hundredths of a volt (the integer [vcc] of [convertToVoltage]); the
    firmware divides it by 100.0 when it fills the document. *)
Record ReportRecord : Type := mkReport {
  r_distance : Z;
  r_battery : Z;
  r_isPresent : bool
}.

(** What the device does to the outside world, in order. *)
Inductive Event : Type :=
| EvRange (raw : Z)                                    (* one sensor reading *)
| EvSend (target : Z) (msg : ReportRecord) (ok : bool) (* one lora.send *)
| EvSaveRTC (saved : MY_RTC)                           (* system_rtc_mem_write *)
| EvDeepSleep (usecs : Z)                              (* ESP.deepSleep *)
| EvRestart.                                           (* ESP.restart *)

(** The hardware, as oracles.  [millis_at k n] is what the [n]-th call of
    [millis()] returns during the [k]-th power-up; the other oracles are
    indexed by the number of earlier calls. *)
Record Env : Type := mkEnv {
  millis_at : nat -> nat -> Z;
  range_at : nat -> Z;
  vcc_at : nat -> Z;
  send_at : nat -> bool
}.

(** The globals of [main.cpp], the RTC memory, the oracle cursors and the
    trace of effects.  [settings] stands for the EEPROM image as well: every
    modelled write to it is followed by [saveSettings], and every boot reloads
    it with [EEPROM.get]. *)
Record World : Type := mkWorld {
  settings : conf;
  settingsAreValid : bool;
  doneTimestamp : Z;
  isPresent : bool;
  distance : Z;
  myRtc : MY_RTC;
  rtcmem : MY_RTC;
  nwake : nat;
  nmillis : nat;
  nrange : nat;
  nvcc : nat;
  nsend : nat;
  trace : list Event
}.

Definition set_settings (v : conf) (w : World) : World :=
  mkWorld v (settingsAreValid w) (doneTimestamp w) (isPresent w) (distance w)
          (myRtc w) (rtcmem w) (nwake w) (nmillis w) (nrange w) (nvcc w)
          (nsend w) (trace w).

Definition set_settingsAreValid (v : bool) (w : World) : World :=
  mkWorld (settings w) v (doneTimestamp w) (isPresent w) (distance w)
          (myRtc w) (rtcmem w) (nwake w) (nmillis w) (nrange w) (nvcc w)
          (nsend w) (trace w).

Definition set_doneTimestamp (v : Z) (w : World) : World :=
  mkWorld (settings w) (settingsAreValid w) v (isPresent w) (distance w)
          (myRtc w) (rtcmem w) (nwake w) (nmillis w) (nrange w) (nvcc w)
          (nsend w) (trace w).

Definition set_isPresent (v : bool) (w : World) : World :=
  mkWorld (settings w) (settingsAreValid w) (doneTimestamp w) v (distance w)
          (myRtc w) (rtcmem w) (nwake w) (nmillis w) (nrange w) (nvcc w)
          (nsend w) (trace w).

Definition set_distance (v : Z) (w : World) : World :=
  mkWorld (settings w) (settingsAreValid w) (doneTimestamp w) (isPresent w) v
          (myRtc w) (rtcmem w) (nwake w) (nmillis w) (nrange w) (nvcc w)
          (nsend w) (trace w).

Definition set_myRtc (v : MY_RTC) (w : World) : World :=
  mkWorld (settings w) (settingsAreValid w) (doneTimestamp w) (isPresent w)
          (distance w) v (rtcmem w) (nwake w) (nmillis w) (nrange w) (nvcc w)
          (nsend w) (trace w).

Definition set_rtcmem (v : MY_RTC) (w : World) : World :=
  mkWorld (settings w) (settingsAreValid w) (doneTimestamp w) (isPresent w)
          (distance w) (myRtc w) v (nwake w) (nmillis w) (nrange w) (nvcc w)
          (nsend w) (trace w).

Definition set_nmillis (v : nat) (w : World) : World :=
  mkWorld (settings w) (settingsAreValid w) (doneTimestamp w) (isPresent w)
          (distance w) (myRtc w) (rtcmem w) (nwake w) v (nrange w) (nvcc w)
          (nsend w) (trace w).

Definition set_nrange (v : nat) (w : World) : World :=
  mkWorld (settings w) (settingsAreValid w) (doneTimestamp w) (isPresent w)
          (distance w) (myRtc w) (rtcmem w) (nwake w) (nmillis w) v (nvcc w)
          (nsend w) (trace w).

Definition set_nvcc (v : nat) (w : World) : World :=
  mkWorld (settings w) (settingsAreValid w) (doneTimestamp w) (isPresent w)
          (distance w) (myRtc w) (rtcmem w) (nwake w) (nmillis w) (nrange w) v
          (nsend w) (trace w).

Definition set_nsend (v : nat) (w : World) : World :=
  mkWorld (settings w) (settingsAreValid w) (doneTimestamp w) (isPresent w)
          (distance w) (myRtc w) (rtcmem w) (nwake w) (nmillis w) (nrange w)
          (nvcc w) v (trace w).

Definition emit (e : Event) (w : World) : World :=
  mkWorld (settings w) (settingsAreValid w) (doneTimestamp w) (isPresent w)
          (distance w) (myRtc w) (rtcmem w) (nwake w) (nmillis w) (nrange w)
          (nvcc w) (nsend w) (trace w ++ [e]).

(** ** The outcome monad

    A call either returns ([Done]), stops the processor for good
    ([Stopped]: deep sleep or restart, the last event of the trace says
    which), or is still busy-waiting when the fuel runs out ([Timeout]). *)
Inductive outcome (A : Type) : Type :=
| Done (a : A) (w : World)
| Stopped (w : World)
| Timeout.
Arguments Done {A} a w.
Arguments Stopped {A} w.
Arguments Timeout {A}.

Definition M (A : Type) : Type := World -> outcome A.

Definition ret {A : Type} (a : A) : M A := fun w => Done a w.

Definition bind {A B : Type} (m : M A) (k : A -> M B) : M B :=
  fun w => match m w with
           | Done a w' => k a w'
           | Stopped w' => Stopped w'
           | Timeout => Timeout
           end.

Definition gets {A : Type} (f : World -> A) : M A := fun w => Done (f w) w.
Definition modify (f : World -> World) : M unit := fun w => Done tt (f w).
Definition stop {A : Type} : M A := fun w => Stopped w.

Declare Scope fw_scope.
Delimit Scope fw_scope with fw.
Notation "x <- m ;; k" := (bind m (fun x => k))
  (at level 61, m at next level, right associativity) : fw_scope.
Notation "m ;; k" := (bind m (fun _ => k))
  (at level 61, right associativity) : fw_scope.
Local Open Scope fw_scope.

(** C's [for (i = start; i < start + count; i++) s = body i s]. *)
Fixpoint for_ {St : Type} (count : nat) (i : nat) (body : nat -> St -> St)
         (s : St) : St :=
  match count with
  | O => s
  | S c => for_ c (S i) body (body i s)
  end.

(** The second half of [measure]: the most common value of [vals[0..n-1]].
    The outer loop stops at [n-2]; the inner one counts the later copies of
    the candidate. *)
Definition dominant (n : nat) (vals : list Z) : Z :=
  fst (for_ (n - 1) 0
         (fun i (acc : Z * Z) =>
            let (answer, answerCount) := acc in
            let candidate := nth i vals 0 in
            let candidateCount :=
              for_ (n - (i + 1)) (i + 1)
                   (fun j c => if candidate =? nth j vals 0 then c + 1 else c) 1 in
            if candidateCount >? answerCount
            then (candidate, candidateCount)
            else (answer, answerCount))
         (0, 0)).

(** Arduino's [map(x, 0, FULL_BATTERY_COUNT, 0, FULL_BATTERY_VOLTS)]. *)
Definition convertToVoltage (raw : Z) : Z :=
  Z.quot ((raw - 0) * (FULL_BATTERY_VOLTS - 0)) (FULL_BATTERY_COUNT - 0) + 0.

(** [initializeSettings]: every field but [debug] goes back to its default. *)
Definition initializeSettings (c : conf) : conf :=
  {| validConfig := 0; mindistance := 0; maxdistance := 400;
     sleeptime := DEFAULT_SLEEP_TIME; debug := debug c;
     displayenabled := true; invertdisplay := false;
     loRaTargetAddress := DEFAULT_LORA_TARGET_ADDRESS;
     loRaAddress := DEFAULT_LORA_ADDRESS;
     loRaNetworkID := DEFAULT_LORA_NETWORK_ID;
     loRaBand := DEFAULT_LORA_BAND;
     loRaSpreadingFactor := DEFAULT_LORA_SPREADING_FACTOR;
     loRaBandwidth := DEFAULT_LORA_BANDWIDTH;
     loRaCodingRate := DEFAULT_LORA_CODING_RATE;
     loRaPreamble := DEFAULT_LORA_PREAMBLE;
     loRaBaudRate := DEFAULT_LORA_BAUD_RATE;
     loRaPower := DEFAULT_LORA_POWER |}.

Definition set_validConfig (v : Z) (c : conf) : conf :=
  {| validConfig := v; mindistance := mindistance c;
     maxdistance := maxdistance c; sleeptime := sleeptime c; debug := debug c;
     displayenabled := displayenabled c; invertdisplay := invertdisplay c;
     loRaTargetAddress := loRaTargetAddress c; loRaAddress := loRaAddress c;
     loRaNetworkID := loRaNetworkID c; loRaBand := loRaBand c;
     loRaSpreadingFactor := loRaSpreadingFactor c;
     loRaBandwidth := loRaBandwidth c; loRaCodingRate := loRaCodingRate c;
     loRaPreamble := loRaPreamble c; loRaBaudRate := loRaBaudRate c;
     loRaPower := loRaPower c |}.

(** ** The firmware *)

Section Firmware.

Variable env : Env.

(** *** Hardware primitives *)

Definition millis : M Z := fun w =>
  Done (wrap32 (millis_at env (nwake w) (nmillis w)))
       (set_nmillis (S (nmillis w)) w).

(** [delay] only lets time pass, and time is read from the timer oracle. *)
Definition delay (ms : Z) : M unit := ret tt.

(** [sensor.readRangeSingleMillimeters()], a [uint16_t]. *)
Definition readRangeSingleMillimeters : M Z := fun w =>
  let raw := wrap16 (range_at env (nrange w)) in
  Done raw (emit (EvRange raw) (set_nrange (S (nrange w)) w)).

(** [ESP.getVcc()], a [uint16_t]. *)
Definition getVcc : M Z := fun w =>
  Done (wrap16 (vcc_at env (nvcc w))) (set_nvcc (S (nvcc w)) w).

(** [lora.send(address, json)]. *)
Definition lora_send (target : Z) (msg : ReportRecord) : M bool := fun w =>
  let ok := send_at env (nsend w) in
  Done ok (emit (EvSend target msg ok) (set_nsend (S (nsend w)) w)).

(** [ESP.deepSleep]: the processor stops until the wake-up reset. *)
Definition deepSleep (usecs : Z) : M unit :=
  modify (emit (EvDeepSleep usecs)) ;; stop.

(** [ESP.restart]. *)
Definition restart : M unit :=
  modify (emit EvRestart) ;; stop.

(** The serial console is idle: [Serial.available()] is false. *)
Definition checkForCommand : M unit := ret tt.

(** *** [myDelay], [myMillis] *)

Fixpoint myDelay_loop (fuel : nat) (doneTime : Z) : M unit :=
  match fuel with
  | O => fun _ => Timeout
  | S f =>
      t <- millis ;;
      if t <? doneTime
      then checkForCommand ;; delay 10 ;; myDelay_loop f doneTime
      else ret tt
  end.

Definition myDelay (fuel : nat) (ms : Z) : M unit :=
  t <- millis ;;
  myDelay_loop fuel (wrap32 (t + ms)).

Definition myMillis : M Z :=
  t <- millis ;;
  r <- gets (fun w => rtc (myRtc w)) ;;
  ret (wrap32 (t + r)).

(** *** [getDistance], [measure] *)

Definition getDistance : M Z :=
  d <- readRangeSingleMillimeters ;;
  modify (set_distance d) ;;
  ret (if d =? 0 then -1 else d).

(** The first loop of [measure]: [n] samples, in order. *)
Fixpoint sample (n : nat) : M (list Z) :=
  match n with
  | O => ret []
  | S k =>
      v <- getDistance ;;
      delay 50 ;;
      vs <- sample k ;;
      ret (v :: vs)
  end.

Definition measure : M Z :=
  vals <- sample SAMPLE_COUNT ;;
  ret (dominant SAMPLE_COUNT vals).

(** The presence test used by [setup] and [loop]:
    [distance>settings.mindistance && distance<settings.maxdistance]. *)
Definition classify (w : World) : bool :=
  (distance w >? mindistance (settings w))
  && (distance w <? maxdistance (settings w)).

(** *** [readBattery], [publish], [report] *)

Definition readBattery : M Z := getVcc.

Definition publish (msg : ReportRecord) : M bool :=
  target <- gets (fun w => loRaTargetAddress (settings w)) ;;
  lora_send target msg.

(** Both branches on the result of [publish] only print a line. *)
Definition report : M unit :=
  d <- gets distance ;;
  raw <- readBattery ;;
  p <- gets isPresent ;;
  ok <- publish (mkReport d (convertToVoltage raw) p) ;;
  if ok then ret tt else ret tt.

(** *** [sendOrNot] *)

Definition upd_rtc (f : MY_RTC -> MY_RTC) : M unit :=
  modify (fun w => set_myRtc (f (myRtc w)) w).

Definition sendOrNot (fuel : nat) : M unit :=
  now <- myMillis ;;
  r <- gets myRtc ;;
  p <- gets isPresent ;;
  if (now >? nextHealthReportTime r)
     || ((negb (wasPresent r) && negb p) && negb (absentReported r))
     || ((wasPresent r && p) && negb (presentReported r))
  then
    report ;;
    (if p
     then upd_rtc (set_presentReported true) ;;
          upd_rtc (set_absentReported false)
     else upd_rtc (set_absentReported true) ;;
          upd_rtc (set_presentReported false)) ;;
    t <- millis ;;
    modify (set_doneTimestamp t) ;;
    now2 <- myMillis ;;
    next <- gets (fun w => nextHealthReportTime (myRtc w)) ;;
    (if now2 >? next
     then t2 <- millis ;; upd_rtc (set_rtc t2)
     else ret tt) ;;
    now3 <- myMillis ;;
    upd_rtc (set_nextHealthReportTime (wrap32 (now3 + ONE_HOUR))) ;;
    myDelay fuel 5000
  else ret tt.

(** *** [saveRTC], [loadSettings], [saveSettings], [initSettings] *)

Definition saveRTC : M unit :=
  modify (fun w => emit (EvSaveRTC (myRtc w)) (set_rtcmem (myRtc w) w)).

Definition loadSettings : M unit :=
  modify (fun w =>
    set_settingsAreValid (validConfig (settings w) =? VALID_SETTINGS_FLAG) w).

(** [EEPROM.commit()] is taken to succeed. *)
Definition saveSettings : M bool :=
  modify (fun w =>
    set_settingsAreValid true
      (set_settings (set_validConfig VALID_SETTINGS_FLAG (settings w)) w)) ;;
  ret true.

Definition initSettings : M unit :=
  modify (fun w => set_myRtc (rtcmem w) w) ;;   (* system_rtc_mem_read *)
  loadSettings ;;
  maxd <- gets (fun w => maxdistance (settings w)) ;;
  if maxd <=? 0
  then modify (fun w => set_settings (initializeSettings (settings w)) w) ;;
       saveSettings ;;
       delay 2000 ;;
       restart
  else ret tt.

(** *** [loop] *)

(** The branch of [loop] that saves the clock and goes to sleep. *)
Definition goToSleep : M unit :=
  now1 <- myMillis ;;
  next <- gets (fun w => nextHealthReportTime (myRtc w)) ;;
  let nextReportSecs := wrap32 (next - now1) / 1000 in
  now2 <- myMillis ;;
  (if wrap32 (next - now2) >? ONE_HOUR
   then now3 <- myMillis ;; upd_rtc (set_nextHealthReportTime now3)
   else ret tt) ;;
  now4 <- myMillis ;;
  st <- gets (fun w => sleeptime (settings w)) ;;
  (* the int product is converted to unsigned long before the sum, so the
     stored value is the same modulo 2^32 however the product wraps *)
  upd_rtc (set_rtc (wrap32 (now4 + st * 1000))) ;;
  p <- gets isPresent ;;
  upd_rtc (set_wasPresent p) ;;
  saveRTC ;;
  let goodnight := Z.min (wrap32 st) nextReportSecs in
  deepSleep (wrap32 (goodnight * 1000000)).

Definition loop (fuel : nat) : M unit :=
  checkForCommand ;;
  valid <- gets settingsAreValid ;;
  st <- gets (fun w => sleeptime (settings w)) ;;
  if valid && (st =? 0)
  then
    d <- measure ;;
    modify (set_distance d) ;;
    modify (fun w => set_isPresent (classify w) w) ;;
    report ;;
    myDelay fuel 1000
  else if valid
  then
    t <- millis ;;
    dt <- gets doneTimestamp ;;
    if wrap32 (t - dt) >? PUBLISH_DELAY
    then goToSleep
    else ret tt
  else ret tt.

(** *** [setup] *)

(** [display.begin] is taken to succeed. *)
Definition initDisplay (fuel : nat) : M unit :=
  de <- gets (fun w => displayenabled (settings w)) ;;
  if de then myDelay fuel 1000 else ret tt.

(** [sensor.init()] is taken to succeed at the first attempt. *)
Definition initSensor : M unit := ret tt.

(** The modem is configured over its own serial line. *)
Definition configureLoRa : M unit := ret tt.

(** [setup] from the initialisation of the peripherals to the battery
    reading that precedes [sendOrNot]. *)
Definition setup_measure (fuel : nat) : M unit :=
  initDisplay fuel ;;
  initSensor ;;
  configureLoRa ;;
  d <- measure ;;
  modify (set_distance d) ;;
  modify (fun w => set_isPresent (classify w) w) ;;
  analog <- readBattery ;;
  ret tt.

(** [setup] after [sendOrNot]. *)
Definition setup_tail (fuel : nat) : M unit :=
  de <- gets (fun w => displayenabled (settings w)) ;;
  if de then myDelay fuel 3000 else ret tt.

Definition setup (fuel : nat) : M unit :=
  initSettings ;;
  valid <- gets settingsAreValid ;;
  if valid
  then setup_measure fuel ;; sendOrNot fuel ;; setup_tail fuel
  else ret tt.

(** *** The Arduino core: [setup] once, then [loop] again and again *)

Fixpoint loop_forever (fuel : nat) (rounds : nat) : M unit :=
  match rounds with
  | O => fun _ => Timeout
  | S k => loop fuel ;; loop_forever fuel k
  end.

Definition arduino_main (fuel : nat) : M unit :=
  setup fuel ;; loop_forever fuel fuel.

(** A reset (power-up or wake-up from deep sleep): the globals get their
    initialisers, the timer restarts, RTC memory and EEPROM are kept. *)
Definition power_on (w : World) : World :=
  mkWorld (settings w) false 0 false 0 MY_RTC_init (rtcmem w)
          (S (nwake w)) O (nrange w) (nvcc w) (nsend w) (trace w).

(** One wake cycle: reset, [setup], [loop] until the processor stops. *)
Definition wake_cycle (fuel : nat) (w : World) : outcome unit :=
  arduino_main fuel (power_on w).

(** *** Observing wake cycles *)

(** What [myMillis()>myRtc.nextHealthReportTime] evaluates to at [w]. *)
Definition heartbeatDue (w : World) : bool :=
  wrap32 (wrap32 (millis_at env (nwake w) (nmillis w)) + rtc (myRtc w))
  >? nextHealthReportTime (myRtc w).

(** Per wake cycle: the presence found, whether the heartbeat was due when
    [sendOrNot] was entered, and whether a report was sent. *)
Record Obs : Type := mkObs {
  o_present : bool;
  o_due : bool;
  o_sent : bool
}.

(** [wake_cycle], cut at the entry of [sendOrNot] to take the observation.
    It returns the world in which the processor went to sleep. *)
Definition observe_cycle (fuel : nat) (w : World) : option (Obs * World) :=
  match initSettings (power_on w) with
  | Done _ w0 =>
      if settingsAreValid w0 then
        match setup_measure fuel w0 with
        | Done _ w1 =>
            match (sendOrNot fuel ;; setup_tail fuel ;;
                   loop_forever fuel fuel) w1 with
            | Stopped w2 =>
                Some (mkObs (isPresent w1) (heartbeatDue w1)
                            (negb (Nat.eqb (nsend w2) (nsend w1))), w2)
            | _ => None
            end
        | _ => None
        end
      else None
  | _ => None
  end.

Fixpoint run_cycles (fuel : nat) (n : nat) (w : World)
  : option (list Obs * World) :=
  match n with
  | O => Some ([], w)
  | S k =>
      match observe_cycle fuel w with
      | Some (o, w1) =>
          match run_cycles fuel k w1 with
          | Some (os, w2) => Some (o :: os, w2)
          | None => None
          end
      | None => None
      end
  end.

End Firmware.

(** ** Specification-side definitions

    What the properties talk about (occurrence counts, first positions, the
    readings of one measurement), closed forms of the worlds the firmware
    functions produce, and a few concrete scenarios. *)

(** Number of occurrences of [v] in [l]. *)
Definition occurrences (v : Z) (l : list Z) : nat := count_occ Z.eq_dec l v.

(** Position of the first occurrence of [v] in [l]. *)
Fixpoint first_index (v : Z) (l : list Z) : nat :=
  match l with
  | [] => O
  | x :: r => if x =? v then O else S (first_index v r)
  end.

(** The inner loop of [measure] as a recursion on the samples that follow
    the candidate; [c] is [candidateCount]. *)
Fixpoint later_copies (candidate : Z) (rest : list Z) (c : Z) : Z :=
  match rest with
  | [] => c
  | x :: r => later_copies candidate r (if candidate =? x then c + 1 else c)
  end.

(** The outer loop of [measure] as a recursion on the samples still to be
    tried; [acc] is [(answer, answerCount)].  The last sample is never a
    candidate. *)
Fixpoint vote (l : list Z) (acc : Z * Z) : Z * Z :=
  match l with
  | [] => acc
  | x :: rest =>
      match rest with
      | [] => acc
      | _ :: _ =>
          let c := later_copies x rest 1 in
          vote rest (if c >? snd acc then (x, c) else acc)
      end
  end.

(** The body of the outer loop of [dominant]. *)
Definition vote_body (n : nat) (vals : list Z) (i : nat) (acc : Z * Z) : Z * Z :=
  let (answer, answerCount) := acc in
  let candidate := nth i vals 0 in
  let candidateCount :=
    for_ (n - (i + 1)) (i + 1)
         (fun j c => if candidate =? nth j vals 0 then c + 1 else c) 1 in
  if candidateCount >? answerCount
  then (candidate, candidateCount)
  else (answer, answerCount).

(** The next [n] readings of the range sensor, from oracle index [start]. *)
Fixpoint raw_samples (env : Env) (n : nat) (start : nat) : list Z :=
  match n with
  | O => []
  | S k => wrap16 (range_at env start) :: raw_samples env k (S start)
  end.

(** What [getDistance] returns for a raw reading: [distance?distance:-1]. *)
Definition voted_value (raw : Z) : Z := if raw =? 0 then -1 else raw.

(** The world after the sampling loop of [measure] has run [n] times. *)
Definition sampled (env : Env) (n : nat) (w : World) : World :=
  mkWorld (settings w) (settingsAreValid w) (doneTimestamp w) (isPresent w)
          (last (raw_samples env n (nrange w)) (distance w))
          (myRtc w) (rtcmem w) (nwake w) (nmillis w) (n + nrange w) (nvcc w)
          (nsend w) (trace w ++ map EvRange (raw_samples env n (nrange w))).

(** The busy-wait of [myDelay] on the timer alone: the index of the first
    unread timer value once the wait is over, if it is over within [fuel]
    polls. *)
Fixpoint polls (clock : nat -> Z) (fuel : nat) (doneTime : Z) (n : nat) : option nat :=
  match fuel with
  | O => None
  | S f => if wrap32 (clock n) <? doneTime
           then polls clock f doneTime (S n)
           else Some (S n)
  end.

(** [myDelay ms] entered when the next timer read of wake [k] has index [n]. *)
Definition delay_end (env : Env) (k fuel : nat) (ms : Z) (n : nat) : option nat :=
  polls (millis_at env k) fuel (wrap32 (wrap32 (millis_at env k n) + ms)) (S n).

(** [myDelay ms] entered at timer index [n] of wake [k] returns within [fuel]
    polls. *)
Definition returns_within (env : Env) (k fuel : nat) (ms : Z) (n : nat) : bool :=
  match delay_end env k fuel ms n with Some _ => true | None => false end.

(** The transmission [report] makes at [w]. *)
Definition the_report (env : Env) (w : World) : Event :=
  EvSend (loRaTargetAddress (settings w))
         (mkReport (distance w) (convertToVoltage (wrap16 (vcc_at env (nvcc w))))
                   (isPresent w))
         (send_at env (nsend w)).

(** The world after [report]. *)
Definition reported (env : Env) (w : World) : World :=
  emit (the_report env w) (set_nsend (S (nsend w)) (set_nvcc (S (nvcc w)) w)).

(** What [myMillis()] returns at the [i]-th timer read after [w] when the
    clock offset is [offset]. *)
Definition logical (env : Env) (w : World) (i : nat) (offset : Z) : Z :=
  wrap32 (wrap32 (millis_at env (nwake w) (i + nmillis w)) + offset).

(** The condition of the [if] in [sendOrNot], evaluated at [w]. *)
Definition decision (env : Env) (w : World) : bool :=
  (logical env w 0 (rtc (myRtc w)) >? nextHealthReportTime (myRtc w))
  || ((negb (wasPresent (myRtc w)) && negb (isPresent w))
      && negb (absentReported (myRtc w)))
  || ((wasPresent (myRtc w) && isPresent w)
      && negb (presentReported (myRtc w))).

(** The report-sent flags as [sendOrNot] sets them for presence [p]. *)
Definition marked (p : bool) (r : MY_RTC) : MY_RTC :=
  if p then set_absentReported false (set_presentReported true r)
  else set_presentReported false (set_absentReported true r).

(** The world in which [sendOrNot] enters its final [myDelay(5000)] when it
    reports. *)
Definition decided (env : Env) (w : World) : World :=
  let r1 := marked (isPresent w) (myRtc w) in
  let due2 := logical env w 2 (rtc r1) >? nextHealthReportTime r1 in
  let r2 := if due2
            then set_rtc (wrap32 (millis_at env (nwake w) (3 + nmillis w))) r1
            else r1 in
  let i3 := if due2 then 4%nat else 3%nat in
  let r3 := set_nextHealthReportTime
              (wrap32 (logical env w i3 (rtc r2) + ONE_HOUR)) r2 in
  mkWorld (settings w) (settingsAreValid w)
          (wrap32 (millis_at env (nwake w) (1 + nmillis w)))
          (isPresent w) (distance w) r3 (rtcmem w) (nwake w)
          (S i3 + nmillis w) (nrange w) (S (nvcc w)) (S (nsend w))
          (trace w ++ [the_report env w]).

(** Reduce projections of updated records. *)
Ltac proj :=
  cbn [settings settingsAreValid doneTimestamp isPresent distance myRtc rtcmem
       nwake nmillis nrange nvcc nsend trace
       set_settings set_settingsAreValid set_doneTimestamp set_isPresent
       set_distance set_myRtc set_rtcmem set_nmillis set_nrange set_nvcc
       set_nsend emit
       nextHealthReportTime rtc wasPresent presentReported absentReported rssi
       set_nextHealthReportTime set_rtc set_wasPresent set_presentReported
       set_absentReported Nat.add].

(** Expand record updates down to constructors. *)
Ltac norm :=
  cbv [set_settings set_settingsAreValid set_doneTimestamp set_isPresent
       set_distance set_myRtc set_rtcmem set_nmillis set_nrange set_nvcc
       set_nsend emit
       set_nextHealthReportTime set_rtc set_wasPresent set_presentReported
       set_absentReported];
  cbn [settings settingsAreValid doneTimestamp isPresent distance myRtc rtcmem
       nwake nmillis nrange nvcc nsend trace
       nextHealthReportTime rtc wasPresent presentReported absentReported rssi
       Nat.add].

(** Run the straight-line part of a monadic program. *)
Ltac exec :=
  cbv [bind myMillis millis gets ret modify upd_rtc report readBattery getVcc
       publish lora_send saveRTC deepSleep restart stop delay checkForCommand
       loadSettings saveSettings initSensor configureLoRa];
  proj.

(** [goodnight], the seconds [goToSleep] asks for, entered at [w]. *)
Definition planned_sleep (env : Env) (w : World) : Z :=
  Z.min (wrap32 (sleeptime (settings w)))
        (wrap32 (nextHealthReportTime (myRtc w)
                 - logical env w 0 (rtc (myRtc w))) / 1000).

(** The test [myRtc.nextHealthReportTime-myMillis()>ONE_HOUR] of [goToSleep]. *)
Definition bogus (env : Env) (w : World) : bool :=
  wrap32 (nextHealthReportTime (myRtc w) - logical env w 1 (rtc (myRtc w)))
  >? ONE_HOUR.

(** The [MY_RTC] that [goToSleep] writes to RTC memory. *)
Definition saved_rtc (env : Env) (w : World) : MY_RTC :=
  let r := myRtc w in
  let r1 := if bogus env w
            then set_nextHealthReportTime (logical env w 2 (rtc r)) r
            else r in
  let i4 := if bogus env w then 3%nat else 2%nat in
  set_wasPresent (isPresent w)
    (set_rtc (wrap32 (logical env w i4 (rtc r) + sleeptime (settings w) * 1000))
             r1).

(** The world in which [goToSleep] stops the processor. *)
Definition asleep (env : Env) (w : World) : World :=
  mkWorld (settings w) (settingsAreValid w) (doneTimestamp w) (isPresent w)
          (distance w) (saved_rtc env w) (saved_rtc env w) (nwake w)
          ((if bogus env w then 4 else 3) + nmillis w)%nat
          (nrange w) (nvcc w) (nsend w)
          (trace w ++ [EvSaveRTC (saved_rtc env w);
                       EvDeepSleep (wrap32 (planned_sleep env w * 1000000))]).

(** The world after [distance=measure()] and the presence test. *)
Definition measured (env : Env) (w : World) : World :=
  let s := sampled env SAMPLE_COUNT w in
  let d := dominant SAMPLE_COUNT
             (map voted_value (raw_samples env SAMPLE_COUNT (nrange w))) in
  set_isPresent (classify (set_distance d s)) (set_distance d s).

(** The world after [initSettings] when it does not restart. *)
Definition woken (w : World) : World :=
  set_settingsAreValid (validConfig (settings w) =? VALID_SETTINGS_FLAG)
    (set_myRtc (rtcmem w) w).

(** The world [sendOrNot] leaves, up to the timer index. *)
Definition after_decision (env : Env) (w : World) : World :=
  if decision env w then decided env w else w.

(** [millis()-doneTimestamp] as [loop] evaluates it at [w]. *)
Definition since_report (env : Env) (w : World) : Z :=
  wrap32 (wrap32 (millis_at env (nwake w) (nmillis w)) - doneTimestamp w).

(** A valid configuration: detection band 0..400 mm, display on, sleep
    interval [st] seconds. *)
Definition demo_conf (st : Z) : conf :=
  mkConf VALID_SETTINGS_FLAG 0 400 st false true false 1 3 18 915000000 8 7 1 12
         115200 22.

(** RTC memory with the heartbeat deadline at [next], no clock offset, both
    report-sent flags clear and previous presence [was]. *)
Definition demo_rtc (next : Z) (was : bool) : MY_RTC :=
  mkRtc next 0 was false false (-99).

(** A world with configuration [demo_conf st] whose [myRtc] and RTC memory
    both hold [r]. *)
Definition demo_world (st : Z) (r : MY_RTC) : World :=
  mkWorld (demo_conf st) true 0 false 0 r r 0 0 0 0 0 [].

(** A timer that always reads [t]. *)
Definition steady (t : Z) : nat -> nat -> Z := fun _ _ => t.

(** A timer that advances 2000 ms per read and restarts at every wake-up. *)
Definition ticking : nat -> nat -> Z := fun _ n => 2000 * Z.of_nat (S n).

(** A box that is empty for ten readings (two measurements) and then holds a
    parcel at 200 mm. *)
Definition box_sensor : nat -> Z :=
  fun n => if (n <? 10)%nat then 500 else 200.

(** Hardware with the given timer and sensor, a supply reading of 3000 and a
    modem whose every transmission has result [ok]. *)
Definition demo_env (clock : nat -> nat -> Z) (sensor : nat -> Z) (ok : bool) : Env :=
  mkEnv clock sensor (fun _ => 3000) (fun _ => ok).

(** ** The sensor start-up and the configuration console

    [initSensor] with a sensor that may refuse to start, and the serial
    console with input on it: [incomingData], [getConfigCommand],
    [processCommand] and [checkForCommand].  The console globals form a record
    of their own; [atoi] is a parameter. *)

(** [MAX_HARDWARE_FAILURES] of [delivery_reporter_lora.h]. *)
Definition MAX_HARDWARE_FAILURES : Z := 20.

(** The [while (++retry)] loop of [initSensor].  [retry] is a [uint8];
    [sensor_init k] is the result of the [k]-th call of [sensor.init()] since
    the reset; [rounds] bounds the iterations (255 are possible before
    [++retry] wraps to zero).  [ESP.reset()], like [ESP.restart()], reboots
    the chip and does not return. *)
Fixpoint initSensor_while (env : Env) (sensor_init : nat -> bool)
         (fuel rounds : nat) (retry : Z) (attempt : nat) : M unit :=
  match rounds with
  | O => fun _ => Timeout
  | S k =>
      let retry := (retry + 1) mod 256 in
      if retry =? 0 then ret tt
      else if sensor_init attempt then ret tt
      else
        let retry := if retry =? 1 then 1 else retry in
        bind (myDelay env fuel 5000) (fun _ =>
        bind (if retry >=? MAX_HARDWARE_FAILURES then restart else ret tt)
             (fun _ =>
        initSensor_while env sensor_init fuel k retry (S attempt)))
  end.

(** [initSensor] with a sensor that may fail to initialise. *)
Definition initSensor_retrying (env : Env) (sensor_init : nat -> bool)
           (fuel : nat) : M unit :=
  initSensor_while env sensor_init fuel 256 0 0.

(** [k] is the first attempt at which the sensor initialises. *)
Definition first_success (sensor_init : nat -> bool) (k : nat) : Prop :=
  sensor_init k = true /\ forall i, (i < k)%nat -> sensor_init i = false.

(** The report-sent flag that belongs to presence [p]. *)
Definition flag_of (p : bool) (r : MY_RTC) : bool :=
  if p then presentReported r else absentReported r.

(** RTC memory of a device that has seen presence [p] twice and reported
    it: nothing more to say while [p] lasts. *)
Definition settled (p : bool) (r : MY_RTC) : Prop :=
  wasPresent r = p /\ flag_of p r = true /\ flag_of (negb p) r = false.

(** No two consecutive cycles differ from [p]; [prev] is the presence before
    the first one. *)
Fixpoint isolated (p : bool) (prev : bool) (l : list bool) : bool :=
  match l with
  | [] => true
  | q :: rest =>
      negb (negb (Bool.eqb prev p) && negb (Bool.eqb q p))
      && isolated p q rest
  end.

(** Number of reports in a run of observed cycles. *)
Definition reports (obs : list Obs) : nat :=
  List.length (filter o_sent obs).

(** Assignments to the fields of [settings]. *)
Definition set_mindistance (v : Z) (c : conf) : conf :=
  mkConf (validConfig c) v (maxdistance c) (sleeptime c) (debug c)
        (displayenabled c) (invertdisplay c) (loRaTargetAddress c)
        (loRaAddress c) (loRaNetworkID c) (loRaBand c) (loRaSpreadingFactor c)
        (loRaBandwidth c) (loRaCodingRate c) (loRaPreamble c) (loRaBaudRate c)
        (loRaPower c).

Definition set_maxdistance (v : Z) (c : conf) : conf :=
  mkConf (validConfig c) (mindistance c) v (sleeptime c) (debug c)
        (displayenabled c) (invertdisplay c) (loRaTargetAddress c)
        (loRaAddress c) (loRaNetworkID c) (loRaBand c) (loRaSpreadingFactor c)
        (loRaBandwidth c) (loRaCodingRate c) (loRaPreamble c) (loRaBaudRate c)
        (loRaPower c).

Definition set_sleeptime (v : Z) (c : conf) : conf :=
  mkConf (validConfig c) (mindistance c) (maxdistance c) v (debug c)
        (displayenabled c) (invertdisplay c) (loRaTargetAddress c)
        (loRaAddress c) (loRaNetworkID c) (loRaBand c) (loRaSpreadingFactor c)
        (loRaBandwidth c) (loRaCodingRate c) (loRaPreamble c) (loRaBaudRate c)
        (loRaPower c).

Definition set_debug (v : bool) (c : conf) : conf :=
  mkConf (validConfig c) (mindistance c) (maxdistance c) (sleeptime c) v
        (displayenabled c) (invertdisplay c) (loRaTargetAddress c)
        (loRaAddress c) (loRaNetworkID c) (loRaBand c) (loRaSpreadingFactor c)
        (loRaBandwidth c) (loRaCodingRate c) (loRaPreamble c) (loRaBaudRate c)
        (loRaPower c).

Definition set_displayenabled (v : bool) (c : conf) : conf :=
  mkConf (validConfig c) (mindistance c) (maxdistance c) (sleeptime c) (debug
        c) v (invertdisplay c) (loRaTargetAddress c) (loRaAddress c)
        (loRaNetworkID c) (loRaBand c) (loRaSpreadingFactor c) (loRaBandwidth
        c) (loRaCodingRate c) (loRaPreamble c) (loRaBaudRate c) (loRaPower c).

Definition set_invertdisplay (v : bool) (c : conf) : conf :=
  mkConf (validConfig c) (mindistance c) (maxdistance c) (sleeptime c) (debug
        c) (displayenabled c) v (loRaTargetAddress c) (loRaAddress c)
        (loRaNetworkID c) (loRaBand c) (loRaSpreadingFactor c) (loRaBandwidth
        c) (loRaCodingRate c) (loRaPreamble c) (loRaBaudRate c) (loRaPower c).

Definition set_loRaTargetAddress (v : Z) (c : conf) : conf :=
  mkConf (validConfig c) (mindistance c) (maxdistance c) (sleeptime c) (debug
        c) (displayenabled c) (invertdisplay c) v (loRaAddress c)
        (loRaNetworkID c) (loRaBand c) (loRaSpreadingFactor c) (loRaBandwidth
        c) (loRaCodingRate c) (loRaPreamble c) (loRaBaudRate c) (loRaPower c).

Definition set_loRaAddress (v : Z) (c : conf) : conf :=
  mkConf (validConfig c) (mindistance c) (maxdistance c) (sleeptime c) (debug
        c) (displayenabled c) (invertdisplay c) (loRaTargetAddress c) v
        (loRaNetworkID c) (loRaBand c) (loRaSpreadingFactor c) (loRaBandwidth
        c) (loRaCodingRate c) (loRaPreamble c) (loRaBaudRate c) (loRaPower c).

Definition set_loRaNetworkID (v : Z) (c : conf) : conf :=
  mkConf (validConfig c) (mindistance c) (maxdistance c) (sleeptime c) (debug
        c) (displayenabled c) (invertdisplay c) (loRaTargetAddress c)
        (loRaAddress c) v (loRaBand c) (loRaSpreadingFactor c) (loRaBandwidth
        c) (loRaCodingRate c) (loRaPreamble c) (loRaBaudRate c) (loRaPower c).

Definition set_loRaBand (v : Z) (c : conf) : conf :=
  mkConf (validConfig c) (mindistance c) (maxdistance c) (sleeptime c) (debug
        c) (displayenabled c) (invertdisplay c) (loRaTargetAddress c)
        (loRaAddress c) (loRaNetworkID c) v (loRaSpreadingFactor c)
        (loRaBandwidth c) (loRaCodingRate c) (loRaPreamble c) (loRaBaudRate c)
        (loRaPower c).

Definition set_loRaSpreadingFactor (v : Z) (c : conf) : conf :=
  mkConf (validConfig c) (mindistance c) (maxdistance c) (sleeptime c) (debug
        c) (displayenabled c) (invertdisplay c) (loRaTargetAddress c)
        (loRaAddress c) (loRaNetworkID c) (loRaBand c) v (loRaBandwidth c)
        (loRaCodingRate c) (loRaPreamble c) (loRaBaudRate c) (loRaPower c).

Definition set_loRaBandwidth (v : Z) (c : conf) : conf :=
  mkConf (validConfig c) (mindistance c) (maxdistance c) (sleeptime c) (debug
        c) (displayenabled c) (invertdisplay c) (loRaTargetAddress c)
        (loRaAddress c) (loRaNetworkID c) (loRaBand c) (loRaSpreadingFactor c)
        v (loRaCodingRate c) (loRaPreamble c) (loRaBaudRate c) (loRaPower c).

Definition set_loRaCodingRate (v : Z) (c : conf) : conf :=
  mkConf (validConfig c) (mindistance c) (maxdistance c) (sleeptime c) (debug
        c) (displayenabled c) (invertdisplay c) (loRaTargetAddress c)
        (loRaAddress c) (loRaNetworkID c) (loRaBand c) (loRaSpreadingFactor c)
        (loRaBandwidth c) v (loRaPreamble c) (loRaBaudRate c) (loRaPower c).

Definition set_loRaPreamble (v : Z) (c : conf) : conf :=
  mkConf (validConfig c) (mindistance c) (maxdistance c) (sleeptime c) (debug
        c) (displayenabled c) (invertdisplay c) (loRaTargetAddress c)
        (loRaAddress c) (loRaNetworkID c) (loRaBand c) (loRaSpreadingFactor c)
        (loRaBandwidth c) (loRaCodingRate c) v (loRaBaudRate c) (loRaPower c).

Definition set_loRaBaudRate (v : Z) (c : conf) : conf :=
  mkConf (validConfig c) (mindistance c) (maxdistance c) (sleeptime c) (debug
        c) (displayenabled c) (invertdisplay c) (loRaTargetAddress c)
        (loRaAddress c) (loRaNetworkID c) (loRaBand c) (loRaSpreadingFactor c)
        (loRaBandwidth c) (loRaCodingRate c) (loRaPreamble c) v (loRaPower c).

Definition set_loRaPower (v : Z) (c : conf) : conf :=
  mkConf (validConfig c) (mindistance c) (maxdistance c) (sleeptime c) (debug
        c) (displayenabled c) (invertdisplay c) (loRaTargetAddress c)
        (loRaAddress c) (loRaNetworkID c) (loRaBand c) (loRaSpreadingFactor c)
        (loRaBandwidth c) (loRaCodingRate c) (loRaPreamble c) (loRaBaudRate c)
        v.

(** The globals [commandString] and [commandComplete]. *)
Record Console : Type := mkConsole {
  commandString : String.string;
  commandComplete : bool
}.

(** [incomingData]: [burst] is what [Serial.read()] delivers while
    [Serial.available()] holds.  A newline sets the flag and is dropped;
    every other character is appended, also after a newline. *)
Fixpoint incomingData (burst : list Ascii.ascii) (c : Console) : Console :=
  match burst with
  | [] => c
  | inChar :: rest =>
      incomingData rest
        (if Ascii.eqb inChar "010"%char
         then mkConsole (commandString c) true
         else mkConsole
                (String.append (commandString c)
                               (String.String inChar String.EmptyString))
                (commandComplete c))
  end.

(** [getConfigCommand]: a complete line is handed over and the buffer is
    cleared. *)
Definition getConfigCommand (c : Console) : String.string * Console :=
  if commandComplete c
  then (commandString c, mkConsole String.EmptyString false)
  else (String.EmptyString, c).

(** C's [strtok], step one: skip the delimiters in front. *)
Fixpoint skip_delims (delim : Ascii.ascii) (s : String.string) : String.string :=
  match s with
  | String.EmptyString => String.EmptyString
  | String.String c r =>
      if Ascii.eqb c delim then skip_delims delim r else s
  end.

(** C's [strtok], step two: the token up to the next delimiter, and the
    text behind that delimiter when there is one. *)
Fixpoint take_token (delim : Ascii.ascii) (s : String.string)
  : String.string * option String.string :=
  match s with
  | String.EmptyString => (String.EmptyString, None)
  | String.String c r =>
      if Ascii.eqb c delim then (String.EmptyString, Some r)
      else let (t, rest) := take_token delim r in (String.String c t, rest)
  end.

(** [strtok(str, delim)] for a one-character [delim]; the saved position is
    [None] once the end of the text has been reached.  A token is never
    empty. *)
Definition strtok (delim : Ascii.ascii) (saved : option String.string)
  : option String.string * option String.string :=
  match saved with
  | None => (None, None)
  | Some s =>
      match skip_delims delim s with
      | String.EmptyString => (None, None)
      | String.String c r => 
          let (t, rest) := take_token delim (String.String c r) in
          (Some t, rest)
      end
  end.

(** [if (strlen(val)>0 && val[strlen(val)-1]==13) val[strlen(val)-1]=0]. *)
Fixpoint strip_cr (val : String.string) : String.string :=
  match val with
  | String.EmptyString => String.EmptyString
  | String.String c String.EmptyString =>
      if Ascii.eqb c "013"%char then String.EmptyString else val
  | String.String c r => String.String c (strip_cr r)
  end.

(** The head of [processCommand]: [nme] and [val] as the chain of
    comparisons sees them. *)
Definition command_tokens (cmd : String.string)
  : option String.string * option String.string :=
  let (nme, saved) := strtok "="%char (Some cmd) in
  let val := match nme with
             | Some _ => fst (strtok "="%char saved)
             | None => None
             end in
  (nme, option_map strip_cr val).

(** [settings.field=...] in the world. *)
Definition set_conf (f : conf -> conf) : M unit :=
  modify (fun w => set_settings (f (settings w)) w).

(** One branch of [processCommand] that stores a setting. *)
Definition store (f : conf -> conf) : M bool :=
  bind (set_conf f) (fun _ => bind saveSettings (fun _ => ret true)).

(** The same for the settings of the modem, which is reconfigured first. *)
Definition store_lora (f : conf -> conf) : M bool :=
  bind (set_conf f) (fun _ =>
  bind configureLoRa (fun _ => bind saveSettings (fun _ => ret true))).

(** [processCommand].  [atoi] is the C library function; the value it
    returns is narrowed to the type of the field it is stored in.  The text
    holds no NUL character.  [showSettings] only prints. *)
Definition processCommand (atoi : String.string -> Z) (cmd : String.string)
  : M bool :=
  match command_tokens cmd with
  | (Some nme, Some val) =>
      if (String.length nme =? 0)%nat || (String.length val =? 0)%nat
      then ret false
      else if String.eqb val "NULL" then ret true
      else if String.eqb nme "mindistance"
      then store (set_mindistance (atoi val))
      else if String.eqb nme "maxdistance"
      then store (set_maxdistance (atoi val))
      else if String.eqb nme "sleeptime"
      then store (set_sleeptime (atoi val))
      else if String.eqb nme "loRaTargetAddress"
      then store (set_loRaTargetAddress (wrap16 (atoi val)))
      else if String.eqb nme "loRaAddress"
      then store_lora (set_loRaAddress (atoi val))
      else if String.eqb nme "loRaBand"
      then store_lora (set_loRaBand (wrap32 (atoi val)))
      else if String.eqb nme "loRaBandwidth"
      then store_lora (set_loRaBandwidth (atoi val mod 256))
      else if String.eqb nme "loRaCodingRate"
      then store_lora (set_loRaCodingRate (atoi val mod 256))
      else if String.eqb nme "loRaNetworkID"
      then store_lora (set_loRaNetworkID (atoi val))
      else if String.eqb nme "loRaSpreadingFactor"
      then store_lora (set_loRaSpreadingFactor (atoi val mod 256))
      else if String.eqb nme "loRaPreamble"
      then store_lora (set_loRaPreamble (atoi val mod 256))
      else if String.eqb nme "loRaBaudRate"
      then store_lora (set_loRaBaudRate (wrap32 (atoi val)))
      else if String.eqb nme "loRaPower"
      then store_lora (set_loRaPower (atoi val mod 256))
      else if String.eqb nme "debug"
      then store (set_debug (atoi val =? 1))
      else if String.eqb nme "factorydefaults" && String.eqb val "yes"
      then bind (set_conf initializeSettings) (fun _ =>
           bind saveSettings (fun _ =>
           bind (delay 2000) (fun _ =>
           bind restart (fun _ => ret true))))
      else if String.eqb nme "displayenabled"
      then store (set_displayenabled (atoi val =? 1))
      else if String.eqb nme "invertdisplay"
      then store (set_invertdisplay (atoi val =? 1))
      else ret false
  | _ => ret false
  end.

(** [checkForCommand] on a console that is not idle: [burst] is what the
    serial port delivers during the call. *)
Definition checkForCommand_serial (atoi : String.string -> Z)
           (burst : list Ascii.ascii) (c : Console) : Console * M unit :=
  match burst with
  | [] => (c, ret tt)
  | _ :: _ =>
      let (cmd, c') := getConfigCommand (incomingData burst c) in
      (c', if (0 <? String.length cmd)%nat
           then bind (processCommand atoi cmd) (fun _ => ret tt)
           else ret tt)
  end.

(** The names [processCommand] knows, apart from [factorydefaults]. *)
Definition setting_names : list String.string :=
  ["mindistance"; "maxdistance"; "sleeptime"; "loRaTargetAddress";
   "loRaAddress"; "loRaBand"; "loRaBandwidth"; "loRaCodingRate";
   "loRaNetworkID"; "loRaSpreadingFactor"; "loRaPreamble"; "loRaBaudRate";
   "loRaPower"; "debug"; "displayenabled"; "invertdisplay"]%string.

(** [c] occurs in [s]. *)
Fixpoint mentions (c : Ascii.ascii) (s : String.string) : bool :=
  match s with
  | String.EmptyString => false
  | String.String d r => Ascii.eqb d c || mentions c r
  end.

(** The value of a run of decimal digits; [acc] is the value read so far. *)
Fixpoint digits (acc : Z) (s : String.string) : Z :=
  match s with
  | String.EmptyString => acc
  | String.String c r =>
      let d := Z.of_nat (Ascii.nat_of_ascii c) - 48 in
      if (0 <=? d) && (d <=? 9) then digits (10 * acc + d) r else acc
  end.

(** [isspace] in the C locale. *)
Definition is_space (c : Ascii.ascii) : bool :=
  let n := Ascii.nat_of_ascii c in
  (n =? 32)%nat || ((9 <=? n)%nat && (n <=? 13)%nat).

(** The text behind its leading white space. *)
Fixpoint skip_spaces (s : String.string) : String.string :=
  match s with
  | String.EmptyString => String.EmptyString
  | String.String c r => if is_space c then skip_spaces r else s
  end.

(** [atoi] on text whose number fits an [int]: white space, an optional
    sign, then decimal digits up to the first other character.  It stands
    for [atoi] in the examples. *)
Definition decimal (s : String.string) : Z :=
  match skip_spaces s with
  | String.EmptyString => 0
  | String.String c r =>
      if Ascii.eqb c "-"%char then - digits 0 r
      else if Ascii.eqb c "+"%char then digits 0 r
      else digits 0 (String.String c r)
  end.

(** The test [inChar == '\n'] of [incomingData]. *)
Definition is_newline (c : Ascii.ascii) : bool := Ascii.eqb c "010"%char.

(** The world after a branch of [processCommand] has stored [f settings]:
    the branch assigns the field, [saveSettings] marks the configuration
    valid and writes it to EEPROM. *)
Definition saved (f : conf -> conf) (w : World) : World :=
  set_settingsAreValid true
    (set_settings (set_validConfig VALID_SETTINGS_FLAG (f (settings w))) w).

(** The line [name=val]. *)
Definition assignment (name val : String.string) : String.string :=
  String.append name (String.String "="%char val).

(** [val] holds no [=], and what is left of it without a carriage return at
    its end is neither empty nor the word [NULL]. *)
Definition usable (val : String.string) : bool :=
  negb (mentions "="%char val)
  && negb (String.eqb (strip_cr val) String.EmptyString)
  && negb (String.eqb (strip_cr val) "NULL").

(** [name] can be the first token of a line: not empty, no [=]. *)
Definition wellformed_name (name : String.string) : bool :=
  negb (String.eqb name String.EmptyString) && negb (mentions "="%char name).

(** Case analysis on every comparison of an [if] chain. *)
Ltac split_chain :=
  repeat match goal with
         | |- context [if ?b then _ else _] => destruct b eqn:?
         end.

(** ** Lemmas about the embedding *)

Lemma inner_loop_later_copies (candidate : Z) :
  forall rest pre c,
    for_ (length rest) (length pre)
         (fun j c => if candidate =? nth j (pre ++ rest) 0 then c + 1 else c) c
    = later_copies candidate rest c.
Proof.
  induction rest as [|y r IH]; intros pre c; simpl; [reflexivity|].
  rewrite nth_middle.
  specialize (IH (pre ++ [y])).
  rewrite length_app, Nat.add_1_r, <- app_assoc in IH. simpl in IH.
  apply IH.
Qed.

Lemma outer_loop_vote :
  forall l pre acc,
    for_ (pred (length l)) (length pre)
         (vote_body (length (pre ++ l)) (pre ++ l)) acc
    = vote l acc.
Proof.
  induction l as [|x rest IH]; intros pre acc; [reflexivity|].
  destruct rest as [|y r]; [reflexivity|].
  change (pred (length (x :: y :: r))) with (S (pred (length (y :: r)))).
  cbn [for_].
  specialize (IH (pre ++ [x])).
  rewrite length_app, Nat.add_1_r, <- app_assoc in IH. simpl app in IH.
  rewrite IH. cbn [vote]. f_equal.
  unfold vote_body. destruct acc as [answer answerCount].
  rewrite nth_middle.
  replace (length (pre ++ x :: y :: r) - (length pre + 1))%nat
    with (length (y :: r)) by (rewrite length_app; simpl; lia).
  pose proof (inner_loop_later_copies x (y :: r) (pre ++ [x]) 1) as Hin.
  rewrite length_app, <- app_assoc in Hin. simpl app in Hin. simpl length in Hin.
  simpl length. rewrite Hin. reflexivity.
Qed.

(** The two nested loops of [measure] compute [vote]. *)
Lemma dominant_vote (l : list Z) :
  dominant (length l) l = fst (vote l (0, 0)).
Proof.
  unfold dominant. f_equal. rewrite Nat.sub_1_r.
  exact (outer_loop_vote l [] (0, 0)).
Qed.

Lemma occurrences_cons (v x : Z) (l : list Z) :
  occurrences v (x :: l) = ((if (x =? v)%Z then 1 else 0) + occurrences v l)%nat.
Proof.
  unfold occurrences. simpl.
  destruct (Z.eq_dec x v), (Z.eqb_spec x v); congruence || reflexivity.
Qed.

Lemma occurrences_app (v : Z) (l1 l2 : list Z) :
  occurrences v (l1 ++ l2) = (occurrences v l1 + occurrences v l2)%nat.
Proof. apply count_occ_app. Qed.

Lemma later_copies_count (candidate : Z) :
  forall rest c,
    later_copies candidate rest c = c + Z.of_nat (occurrences candidate rest).
Proof.
  induction rest as [|x r IH]; intros c; cbn [later_copies];
    [unfold occurrences; simpl; lia|].
  rewrite IH, occurrences_cons, (Z.eqb_sym candidate x).
  destruct (x =? candidate); lia.
Qed.

Lemma later_copies_suffix (x : Z) (rest : list Z) :
  later_copies x rest 1 = Z.of_nat (occurrences x (x :: rest)).
Proof.
  rewrite later_copies_count, occurrences_cons, Z.eqb_refl. lia.
Qed.

(** What [vote] returns: a count at least as large as every count seen, and
    the earliest candidate that reaches it. *)
Lemma vote_spec :
  forall l a c a' c',
    vote l (a, c) = (a', c') ->
    c <= c' /\
    (forall p x rest, l = p ++ x :: rest -> rest <> [] ->
                      Z.of_nat (occurrences x (x :: rest)) <= c') /\
    ((a', c') = (a, c) \/
     exists p x rest,
       l = p ++ x :: rest /\ rest <> [] /\ a' = x /\
       c' = Z.of_nat (occurrences x (x :: rest)) /\ c < c' /\
       forall p1 y r1, p = p1 ++ y :: r1 ->
                       Z.of_nat (occurrences y (y :: r1 ++ x :: rest)) < c').
Proof.
  induction l as [|x rest IH]; intros a c a' c' H.
  - simpl in H. inversion H; subst. split; [lia|]. split; [|now left].
    intros p x rest E. destruct p; discriminate.
  - destruct rest as [|y r].
    + simpl in H. inversion H; subst. split; [lia|]. split; [|now left].
      intros p x0 rest E Hne. destruct p as [|z p]; simpl in E.
      * inversion E; subst. congruence.
      * inversion E. destruct p; discriminate.
    + cbn [vote] in H. rewrite later_copies_suffix in H. cbn [snd] in H.
      set (s := Z.of_nat (occurrences x (x :: y :: r))) in *.
      destruct (s >? c) eqn:Hs.
      * apply Z.gtb_lt in Hs.
        apply IH in H as (H1 & H2 & H3).
        split; [lia|]. split.
        -- intros p x0 rest E Hne. destruct p as [|z p]; simpl in E.
           ++ inversion E; subst. fold s. lia.
           ++ inversion E; subst. eapply H2; eauto.
        -- right. destruct H3 as [H3 | (p & x0 & rest & E & Hne & Ha & Hc & Hlt & Hearlier)].
           ++ inversion H3; subst. exists [], x, (y :: r).
              repeat split; auto; try discriminate.
              intros p1 y0 r1 E. destruct p1; discriminate.
           ++ exists (x :: p), x0, rest. rewrite E.
              repeat split; auto; try lia.
              intros p1 y0 r1 E1. destruct p1 as [|z p1]; simpl in E1.
              ** inversion E1; subst. rewrite <- E. fold s. lia.
              ** inversion E1; subst. eapply Hearlier; eauto.
      * assert (s <= c) by (destruct (Z.gtb_spec s c); [discriminate | lia]).
        apply IH in H as (H1 & H2 & H3).
        split; [lia|]. split.
        -- intros p x0 rest E Hne. destruct p as [|z p]; simpl in E.
           ++ inversion E; subst. fold s. lia.
           ++ inversion E; subst. eapply H2; eauto.
        -- destruct H3 as [H3 | (p & x0 & rest & E & Hne & Ha & Hc & Hlt & Hearlier)];
             [now left | right].
           exists (x :: p), x0, rest. rewrite E.
           repeat split; auto.
           intros p1 y0 r1 E1. destruct p1 as [|z p1]; simpl in E1.
           ** inversion E1; subst. rewrite <- E. fold s. lia.
           ** inversion E1; subst. eapply Hearlier; eauto.
Qed.

Lemma first_split (v : Z) :
  forall l, In v l ->
            exists p r, l = p ++ v :: r /\ ~ In v p /\ first_index v l = length p.
Proof.
  induction l as [|x l IH]; intros Hin; [contradiction|].
  simpl. destruct (Z.eqb_spec x v) as [->|Hne].
  - exists [], l. repeat split; auto.
  - destruct Hin as [->|Hin]; [congruence|].
    destruct (IH Hin) as (p & r & -> & Hp & Hi).
    exists (x :: p), r. repeat split; simpl; auto.
    intros [?|?]; auto.
Qed.

Lemma first_index_app (v : Z) :
  forall p r, ~ In v p -> first_index v (p ++ v :: r) = length p.
Proof.
  induction p as [|x p IH]; intros r Hp; simpl.
  - now rewrite Z.eqb_refl.
  - destruct (Z.eqb_spec x v) as [->|Hne]; [exfalso; apply Hp; now left|].
    rewrite IH; auto. intros ?; apply Hp; now right.
Qed.

(** On two samples or more, [dominant] returns a value with the highest
    number of occurrences, the one that occurs first among those. *)
Theorem dominant_plurality (vals : list Z) :
  (2 <= length vals)%nat ->
  let r := dominant (length vals) vals in
  In r vals /\
  (forall v, (occurrences v vals <= occurrences r vals)%nat) /\
  (forall v, v <> r -> occurrences v vals = occurrences r vals ->
             (first_index r vals < first_index v vals)%nat).
Proof.
  intros Hlen r. subst r. rewrite dominant_vote.
  destruct (vote vals (0, 0)) as [a' c'] eqn:E. cbn [fst].
  apply vote_spec in E as (H1 & H2 & H3).
  assert (Hpos : 1 <= c').
  { destruct vals as [|x [|y l]]; simpl in Hlen; try lia.
    specialize (H2 [] x (y :: l) eq_refl ltac:(discriminate)).
    rewrite occurrences_cons, Z.eqb_refl in H2. lia. }
  destruct H3 as [H3 | (p & x & rest & Ev & Hne & Ha & Hc & _ & Hearlier)];
    [inversion H3; lia|]. subst a'.
  assert (Hmax : forall v, Z.of_nat (occurrences v vals) <= c').
  { intros v. destruct (in_dec Z.eq_dec v vals) as [Hin|Hnin].
    - destruct (first_split v vals Hin) as (pv & rv & Epv & Hpv & _).
      rewrite Epv at 1. rewrite occurrences_app.
      apply (count_occ_not_In Z.eq_dec) in Hpv. unfold occurrences at 1. rewrite Hpv.
      destruct rv as [|z rv].
      + rewrite occurrences_cons, Z.eqb_refl. unfold occurrences; simpl. lia.
      + cbn [plus]. eapply H2; eauto. discriminate.
    - apply (count_occ_not_In Z.eq_dec) in Hnin. unfold occurrences. rewrite Hnin. lia. }
  assert (Hx : Z.of_nat (occurrences x vals) = c' /\ occurrences x p = O).
  { pose proof (Hmax x) as Hm. rewrite Ev in Hm at 1. rewrite occurrences_app in Hm.
    rewrite Ev at 1. rewrite occurrences_app. lia. }
  destruct Hx as [Hxc Hxp].
  split; [rewrite Ev; apply in_elt|]. split.
  - intros v. specialize (Hmax v). lia.
  - intros v Hvx Hocc.
    assert (Hin : In v vals).
    { apply (count_occ_In Z.eq_dec). fold (occurrences v vals). lia. }
    destruct (first_split v vals Hin) as (pv & rv & Epv & Hpv & Hiv).
    rewrite Hiv. rewrite Ev at 1. rewrite first_index_app
      by (apply (count_occ_not_In Z.eq_dec); exact Hxp).
    assert (Eq : p ++ x :: rest = pv ++ v :: rv) by congruence.
    apply app_eq_app in Eq as [l [[Ep El] | [Ep El]]].
    + destruct l as [|z l]; simpl in El; inversion El; subst; [congruence|].
      exfalso.
      specialize (Hearlier pv z l eq_refl).
      assert (occurrences z (pv ++ z :: l ++ x :: rest)
              = occurrences z (z :: l ++ x :: rest)) as Hz.
      { rewrite occurrences_app.
        apply (count_occ_not_In Z.eq_dec) in Hpv. unfold occurrences at 1.
        rewrite Hpv. reflexivity. }
      rewrite <- app_assoc in Hocc, Hxc. cbn [app] in Hocc, Hxc. lia.
    + destruct l as [|z l]; simpl in El; inversion El; subst; [congruence|].
      rewrite length_app. simpl. lia.
Qed.

Lemma last_cons_default (x d : Z) (l : list Z) : last (x :: l) d = last l x.
Proof.
  revert x d. induction l as [|y l IH]; intros x d; [reflexivity|].
  change (last (x :: y :: l) d) with (last (y :: l) d).
  rewrite (IH y d), (IH y x). reflexivity.
Qed.

(** The sampling loop in closed form. *)
Lemma sample_spec (env : Env) :
  forall n w,
    sample env n w
    = Done (map voted_value (raw_samples env n (nrange w))) (sampled env n w).
Proof.
  induction n as [|n IH]; intros w.
  - unfold sampled. cbn. rewrite app_nil_r. destruct w; reflexivity.
  - cbn [sample]. unfold bind at 1. unfold getDistance at 1.
    cbv [bind readRangeSingleMillimeters modify ret delay].
    rewrite IH. cbn [nrange set_distance emit set_nrange].
    f_equal. unfold sampled.
    cbn [settings settingsAreValid doneTimestamp isPresent distance myRtc rtcmem
         nwake nmillis nrange nvcc nsend trace set_distance emit set_nrange
         raw_samples map].
    rewrite last_cons_default, <- app_assoc, Nat.add_succ_r. reflexivity.
Qed.

(** [measure] in closed form. *)
Lemma measure_spec (env : Env) (w : World) :
  measure env w
  = Done (dominant SAMPLE_COUNT
            (map voted_value (raw_samples env SAMPLE_COUNT (nrange w))))
         (sampled env SAMPLE_COUNT w).
Proof.
  unfold measure, bind. rewrite sample_spec. reflexivity.
Qed.

Lemma myDelay_loop_spec (env : Env) :
  forall fuel doneTime w,
    myDelay_loop env fuel doneTime w
    = match polls (millis_at env (nwake w)) fuel doneTime (nmillis w) with
      | Some n' => Done tt (set_nmillis n' w)
      | None => Timeout
      end.
Proof.
  induction fuel as [|f IH]; intros doneTime w; [reflexivity|].
  cbn [myDelay_loop polls]. exec.
  destruct (wrap32 (millis_at env (nwake w) (nmillis w)) <? doneTime).
  - rewrite IH. proj. destruct (polls _ _ _ _); reflexivity.
  - reflexivity.
Qed.

(** [myDelay] only moves the timer index, by what [delay_end] says. *)
Lemma myDelay_spec (env : Env) (fuel : nat) (ms : Z) (w : World) :
  myDelay env fuel ms w
  = match delay_end env (nwake w) fuel ms (nmillis w) with
    | Some n' => Done tt (set_nmillis n' w)
    | None => Timeout
    end.
Proof.
  unfold myDelay, delay_end. exec. rewrite myDelay_loop_spec. proj.
  destruct (polls _ _ _ _); reflexivity.
Qed.

(** When the timer first reaches [doneTime] at its [j]-th value from [n],
    [j + 1] polls end the wait there. *)
Lemma polls_reached (clock : nat -> Z) (doneTime : Z) :
  forall j n,
    (forall i, (i < j)%nat -> wrap32 (clock (n + i)%nat) < doneTime) ->
    doneTime <= wrap32 (clock (n + j)%nat) ->
    polls clock (S j) doneTime n = Some (S (n + j)).
Proof.
  induction j as [|j IH]; intros n Hbefore Hat.
  - cbn [polls]. rewrite Nat.add_0_r in *.
    destruct (Z.ltb_spec (wrap32 (clock n)) doneTime); [lia | reflexivity].
  - change (polls clock (S (S j)) doneTime n)
      with (if wrap32 (clock n) <? doneTime
            then polls clock (S j) doneTime (S n)
            else Some (S n)).
    pose proof (Hbefore O ltac:(lia)) as H0. rewrite Nat.add_0_r in H0.
    destruct (Z.ltb_spec (wrap32 (clock n)) doneTime); [|lia].
    rewrite IH.
    + rewrite Nat.add_succ_r. reflexivity.
    + intros i Hi. specialize (Hbefore (S i) ltac:(lia)).
      rewrite Nat.add_succ_r in Hbefore. exact Hbefore.
    + rewrite Nat.add_succ_r in Hat. exact Hat.
Qed.

(** A wait that ends within some fuel ends the same way with more. *)
Lemma polls_more_fuel (clock : nat -> Z) (doneTime : Z) :
  forall fuel n k,
    polls clock fuel doneTime n = Some k ->
    forall fuel', (fuel <= fuel')%nat -> polls clock fuel' doneTime n = Some k.
Proof.
  induction fuel as [|f IH]; intros n k H fuel' Hle; [discriminate|].
  destruct fuel' as [|f']; [lia|].
  cbn [polls] in H |- *.
  destruct (wrap32 (clock n) <? doneTime); [|exact H].
  apply (IH _ _ H). lia.
Qed.

(** [myDelay] returns as soon as the timer reaches the end of the delay:
    any fuel above the number of polls this takes is enough. *)
Lemma myDelay_enough_fuel (env : Env) (ms : Z) (w : World) (j : nat) :
  let clock := millis_at env (nwake w) in
  let doneTime := wrap32 (wrap32 (clock (nmillis w)) + ms) in
  (forall i, (i < j)%nat -> wrap32 (clock (S (nmillis w) + i)%nat) < doneTime) ->
  doneTime <= wrap32 (clock (S (nmillis w) + j)%nat) ->
  forall fuel, (j < fuel)%nat ->
    myDelay env fuel ms w = Done tt (set_nmillis (S (S (nmillis w) + j)) w).
Proof.
  intros clock doneTime Hbefore Hat fuel Hfuel.
  rewrite myDelay_spec. unfold delay_end. fold clock doneTime.
  rewrite (polls_more_fuel clock doneTime (S j) (S (nmillis w))
             (S (S (nmillis w) + j))); [reflexivity | | lia].
  apply polls_reached; assumption.
Qed.

(** [report] in closed form: the result of [publish] changes nothing. *)
Lemma report_spec (env : Env) (w : World) :
  report env w = Done tt (reported env w).
Proof.
  unfold reported, the_report. exec. destruct (send_at env (nsend w)); reflexivity.
Qed.

(** [sendOrNot] in closed form. *)
Lemma sendOrNot_spec (env : Env) (fuel : nat) (w : World) :
  sendOrNot env fuel w
  = if decision env w
    then myDelay env fuel 5000 (decided env w)
    else Done tt (set_nmillis (S (nmillis w)) w).
Proof.
  unfold sendOrNot, decision, logical. 
  cbv [bind myMillis millis gets ret]. proj.
  match goal with |- (if ?c then _ else _) _ = _ => destruct c end;
    [|reflexivity].
  cbv beta. rewrite report_spec.
  unfold decided, marked, logical, reported.
  unfold the_report. exec. norm.
  destruct (isPresent w); norm;
    match goal with |- context [if ?c then _ else _] => destruct c end;
    reflexivity.
Qed.

(** The sleep branch of [loop] in closed form. *)
Lemma goToSleep_spec (env : Env) (w : World) :
  goToSleep env w = Stopped (asleep env w).
Proof.
  unfold goToSleep, asleep, saved_rtc, planned_sleep, bogus, logical.
  exec. norm.
  match goal with |- context [if ?c then _ else _] => destruct c end;
    norm; rewrite <- app_assoc; reflexivity.
Qed.

(** [loop] in closed form. *)
Lemma loop_spec (env : Env) (fuel : nat) (w : World) :
  loop env fuel w
  = if settingsAreValid w && (sleeptime (settings w) =? 0)
    then myDelay env fuel 1000 (reported env (measured env w))
    else if settingsAreValid w
         then if wrap32 (wrap32 (millis_at env (nwake w) (nmillis w))
                         - doneTimestamp w) >? PUBLISH_DELAY
              then Stopped (asleep env (set_nmillis (S (nmillis w)) w))
              else Done tt (set_nmillis (S (nmillis w)) w)
         else Done tt w.
Proof.
  unfold loop. cbv [bind checkForCommand ret gets]. 
  destruct (settingsAreValid w && (sleeptime (settings w) =? 0)).
  - rewrite measure_spec. cbv [modify]. rewrite report_spec. reflexivity.
  - destruct (settingsAreValid w); [|reflexivity].
    cbv [millis]. proj.
    match goal with |- context [if ?c then _ else _] => destruct c end;
      [apply goToSleep_spec | reflexivity].
Qed.

(** [initSettings] in closed form. *)
Lemma initSettings_spec (w : World) :
  initSettings w
  = if maxdistance (settings w) <=? 0
    then Stopped (emit EvRestart
           (set_settingsAreValid true
              (set_settings
                 (set_validConfig VALID_SETTINGS_FLAG
                    (initializeSettings (settings w)))
                 (woken w))))
    else Done tt (woken w).
Proof.
  unfold initSettings, woken. exec.
  destruct (maxdistance (settings w) <=? 0); reflexivity.
Qed.

Lemma myDelay_cases (env : Env) (fuel : nat) (ms : Z) (w : World) :
  (exists n, myDelay env fuel ms w = Done tt (set_nmillis n w))
  \/ myDelay env fuel ms w = Timeout.
Proof.
  rewrite myDelay_spec. destruct (delay_end _ _ _ _ _); eauto.
Qed.

Lemma set_nmillis_same (w : World) : set_nmillis (nmillis w) w = w.
Proof. destruct w; reflexivity. Qed.

Lemma setup_tail_cases (env : Env) (fuel : nat) (w : World) :
  (exists n, setup_tail env fuel w = Done tt (set_nmillis n w))
  \/ setup_tail env fuel w = Timeout.
Proof.
  unfold setup_tail. cbv [bind gets].
  destruct (displayenabled (settings w)).
  - apply myDelay_cases.
  - left. exists (nmillis w). rewrite set_nmillis_same. reflexivity.
Qed.

Lemma setup_measure_cases (env : Env) (fuel : nat) (w : World) :
  (exists n, setup_measure env fuel w
             = Done tt (set_nvcc (S (nvcc w)) (measured env (set_nmillis n w))))
  \/ setup_measure env fuel w = Timeout.
Proof.
  unfold setup_measure, initDisplay.
  cbv [bind gets initSensor configureLoRa ret].
  destruct (displayenabled (settings w)).
  - destruct (myDelay_cases env fuel 1000 w) as [[n Hn] | Hn]; rewrite Hn.
    + left. exists n. cbv beta iota. rewrite measure_spec. reflexivity.
    + now right.
  - left. exists (nmillis w). rewrite set_nmillis_same, measure_spec.
    reflexivity.
Qed.

(** The processor only stops from the sleep branch of [loop]: with valid
    settings and a sleep interval that is not zero. *)
Lemma loop_forever_stopped (env : Env) (fuel : nat) :
  forall rounds w w',
    loop_forever env fuel rounds w = Stopped w' ->
    settingsAreValid w = true /\
    sleeptime (settings w) <> 0 /\
    exists n, w' = asleep env (set_nmillis n w).
Proof.
  induction rounds as [|k IH]; intros w w' H; [discriminate|].
  cbn [loop_forever] in H. unfold bind in H. rewrite loop_spec in H.
  destruct (settingsAreValid w) eqn:Hv; cbn [andb] in H.
  - destruct (sleeptime (settings w) =? 0) eqn:Hs.
    + exfalso.
      destruct (myDelay_cases env fuel 1000 (reported env (measured env w)))
        as [[n Hn] | Hn]; rewrite Hn in H; [|discriminate].
      apply IH in H as [_ [Hne _]]. apply Z.eqb_eq in Hs. apply Hne. exact Hs.
    + apply Z.eqb_neq in Hs. split; [reflexivity|]. split; [exact Hs|].
      destruct (wrap32 _ >? PUBLISH_DELAY).
      * inversion H. eauto.
      * apply IH in H as [_ [_ [n Hn]]]. exists n. exact Hn.
  - apply IH in H as [Hvalid _]. congruence.
Qed.

Lemma cycle_tail_stopped (env : Env) (fuel : nat) (w w' : World) :
  bind (sendOrNot env fuel)
       (fun _ => bind (setup_tail env fuel)
                      (fun _ => loop_forever env fuel fuel)) w = Stopped w' ->
  sleeptime (settings w) <> 0 /\
  exists n, w' = asleep env (set_nmillis n (after_decision env w)).
Proof.
  unfold bind at 1. rewrite sendOrNot_spec. unfold after_decision.
  assert (Htail : forall x,
    bind (setup_tail env fuel) (fun _ => loop_forever env fuel fuel) x
    = Stopped w' ->
    sleeptime (settings x) <> 0 /\ exists n, w' = asleep env (set_nmillis n x)).
  { intros x. unfold bind.
    destruct (setup_tail_cases env fuel x) as [[n Hn] | Hn]; rewrite Hn;
      [|discriminate].
    intros H. apply loop_forever_stopped in H as [_ [Hs [m Hm]]].
    split; [exact Hs|]. exists m. exact Hm. }
  destruct (decision env w).
  - destruct (myDelay_cases env fuel 5000 (decided env w)) as [[n Hn] | Hn];
      rewrite Hn; [|discriminate].
    intros H. apply Htail in H as [Hs [m Hm]]. split; [exact Hs|].
    exists m. exact Hm.
  - intros H. apply Htail in H as [Hs [m Hm]]. split; [exact Hs|].
    exists m. exact Hm.
Qed.

Lemma saved_rtc_flags (env : Env) (w : World) :
  presentReported (saved_rtc env w) = presentReported (myRtc w) /\
  absentReported (saved_rtc env w) = absentReported (myRtc w) /\
  wasPresent (saved_rtc env w) = isPresent w.
Proof.
  unfold saved_rtc. destruct (bogus env w); repeat split; reflexivity.
Qed.

Lemma decided_flags (env : Env) (w : World) :
  presentReported (myRtc (decided env w)) = isPresent w /\
  absentReported (myRtc (decided env w)) = negb (isPresent w) /\
  wasPresent (myRtc (decided env w)) = wasPresent (myRtc w).
Proof.
  unfold decided, marked. proj.
  destruct (isPresent w);
    match goal with |- context [if ?c then _ else _] => destruct c end;
    repeat split; reflexivity.
Qed.

(** One wake cycle that ends in deep sleep: when it reports, and what it
    leaves in RTC memory. *)
Lemma observe_cycle_spec (env : Env) (fuel : nat) (w w' : World) (o : Obs) :
  observe_cycle env fuel w = Some (o, w') ->
  let r := rtcmem w in
  o_sent o
  = (o_due o
     || ((negb (wasPresent r) && negb (o_present o)) && negb (absentReported r))
     || ((wasPresent r && o_present o) && negb (presentReported r))) /\
  wasPresent (rtcmem w') = o_present o /\
  presentReported (rtcmem w')
  = (if o_sent o then o_present o else presentReported r) /\
  absentReported (rtcmem w')
  = (if o_sent o then negb (o_present o) else absentReported r).
Proof.
  unfold observe_cycle. rewrite initSettings_spec.
  destruct (maxdistance (settings (power_on w)) <=? 0); [discriminate|].
  destruct (settingsAreValid (woken (power_on w))); [|discriminate].
  destruct (setup_measure_cases env fuel (woken (power_on w)))
    as [[n Hn] | Hn]; rewrite Hn; [|discriminate].
  set (w1 := set_nvcc _ (measured env (set_nmillis n (woken (power_on w))))).
  assert (Hr : myRtc w1 = rtcmem w) by reflexivity.
  clearbody w1. clear Hn.
  destruct (bind _ _ w1) as [| w2 |] eqn:Ht; try discriminate.
  apply cycle_tail_stopped in Ht as [_ [m Hm]]. subst w2.
  intros H. inversion H; subst o w'. clear H. cbn [o_sent o_due o_present].
  rewrite <- Hr.
  destruct (saved_rtc_flags env (set_nmillis m (after_decision env w1)))
    as (Fp & Fa & Fw).
  change (rtcmem (asleep env (set_nmillis m (after_decision env w1))))
    with (saved_rtc env (set_nmillis m (after_decision env w1))).
  rewrite Fp, Fa, Fw.
  change (nsend (asleep env (set_nmillis m (after_decision env w1))))
    with (nsend (after_decision env w1)).
  change (myRtc (set_nmillis m (after_decision env w1)))
    with (myRtc (after_decision env w1)).
  change (isPresent (set_nmillis m (after_decision env w1)))
    with (isPresent (after_decision env w1)).
  change (heartbeatDue env w1
          || negb (wasPresent (myRtc w1)) && negb (isPresent w1)
             && negb (absentReported (myRtc w1))
          || wasPresent (myRtc w1) && isPresent w1
             && negb (presentReported (myRtc w1)))
    with (decision env w1).
  unfold after_decision.
  destruct (decision env w1).
  - destruct (decided_flags env w1) as (Dp & Da & _). rewrite Dp, Da.
    change (nsend (decided env w1)) with (S (nsend w1)).
    change (isPresent (decided env w1)) with (isPresent w1).
    assert (Hneq : Nat.eqb (S (nsend w1)) (nsend w1) = false)
      by (apply Nat.eqb_neq; lia).
    rewrite Hneq. repeat split; reflexivity.
  - rewrite Nat.eqb_refl. repeat split; reflexivity.
Qed.

(** [observe_cycle] follows [wake_cycle]. *)
Lemma observe_cycle_run (env : Env) (fuel : nat) (w w' : World) (o : Obs) :
  observe_cycle env fuel w = Some (o, w') ->
  wake_cycle env fuel w = Stopped w'.
Proof.
  unfold observe_cycle. intros H.
  destruct (initSettings (power_on w)) as [[] w0| |] eqn:E0; try discriminate.
  destruct (settingsAreValid w0) eqn:Ev; try discriminate.
  destruct (setup_measure env fuel w0) as [[] w1| |] eqn:E1; try discriminate.
  destruct (bind _ _ w1) as [| w2 |] eqn:E2; try discriminate.
  inversion H; subst w2. clear H.
  unfold wake_cycle, arduino_main, setup, bind. rewrite E0.
  cbv [gets]. rewrite Ev, E1.
  revert E2. unfold bind.
  destruct (sendOrNot env fuel w1) as [[] w2| |]; try discriminate;
    [|intros E; exact E].
  destruct (setup_tail env fuel w2) as [[] w3| |]; intros E; exact E.
Qed.

Lemma sendOrNot_cases (env : Env) (fuel : nat) (w : World) :
  (exists n, sendOrNot env fuel w
             = Done tt (set_nmillis n (after_decision env w)))
  \/ sendOrNot env fuel w = Timeout.
Proof.
  rewrite sendOrNot_spec. unfold after_decision.
  destruct (decision env w).
  - apply myDelay_cases.
  - left. eauto.
Qed.

(** A wake cycle that stops the processor either restarted after a factory
    reset, leaving RTC memory alone, or is an observed cycle. *)
Lemma wake_cycle_cases (env : Env) (fuel : nat) (w w' : World) :
  wake_cycle env fuel w = Stopped w' ->
  rtcmem w' = rtcmem w \/ exists o, observe_cycle env fuel w = Some (o, w').
Proof.
  unfold observe_cycle, wake_cycle, arduino_main, setup. intros H.
  unfold bind in H. rewrite initSettings_spec in H |- *.
  destruct (maxdistance (settings (power_on w)) <=? 0).
  - inversion H. left. reflexivity.
  - cbv [gets] in H. destruct (settingsAreValid (woken (power_on w))) eqn:Hv.
    + right.
      destruct (setup_measure_cases env fuel (woken (power_on w)))
        as [[n Hn] | Hn]; rewrite Hn in H |- *; [|discriminate].
      match goal with |- context [bind ?a ?b ?x] =>
        assert (E : bind a b x = Stopped w') end.
      { unfold bind.
        destruct (sendOrNot env fuel _) as [[] w2| |]; try discriminate;
          [|exact H].
        destruct (setup_tail env fuel w2) as [[] w3| |]; exact H. }
      rewrite E. eauto.
    + unfold ret in H.
      apply loop_forever_stopped in H as [Hvalid _]. congruence.
Qed.

Lemma returns_within_Done (env : Env) (fuel : nat) (ms : Z) (w : World) :
  returns_within env (nwake w) fuel ms (nmillis w) = true ->
  exists n, myDelay env fuel ms w = Done tt (set_nmillis n w).
Proof.
  unfold returns_within. rewrite myDelay_spec.
  destruct (delay_end _ _ _ _ _); [eauto | discriminate].
Qed.

Lemma decided_nmillis (env : Env) (w : World) :
  nmillis (decided env w) = (4 + nmillis w)%nat
  \/ nmillis (decided env w) = (5 + nmillis w)%nat.
Proof.
  unfold decided. proj.
  match goal with |- context [if ?c then _ else _] => destruct c end; auto.
Qed.

Lemma sendOrNot_reports (env : Env) (fuel : nat) (w : World) :
  decision env w = true ->
  returns_within env (nwake w) fuel 5000 (4 + nmillis w) = true ->
  returns_within env (nwake w) fuel 5000 (5 + nmillis w) = true ->
  exists n, sendOrNot env fuel w = Done tt (set_nmillis n (decided env w)).
Proof.
  intros Hd H4 H5. rewrite sendOrNot_spec, Hd.
  apply returns_within_Done.
  change (nwake (decided env w)) with (nwake w).
  destruct (decided_nmillis env w) as [E | E]; rewrite E; assumption.
Qed.

(** The condition of [sendOrNot], as a proposition. *)
Lemma decision_iff (env : Env) (w : World) :
  decision env w = true <->
  (logical env w 0 (rtc (myRtc w)) > nextHealthReportTime (myRtc w)
   \/ (wasPresent (myRtc w) = false /\ isPresent w = false
       /\ absentReported (myRtc w) = false)
   \/ (wasPresent (myRtc w) = true /\ isPresent w = true
       /\ presentReported (myRtc w) = false)).
Proof.
  unfold decision.
  destruct (Z.gtb_spec (logical env w 0 (rtc (myRtc w)))
                       (nextHealthReportTime (myRtc w))) as [Hgt | Hle];
    destruct (wasPresent (myRtc w)), (isPresent w),
             (absentReported (myRtc w)), (presentReported (myRtc w));
    cbn; split; intros H; try reflexivity; try discriminate;
    try (left; lia); try (right; left; now auto); try (right; right; now auto);
    destruct H as [H | [(H1 & H2 & H3) | (H1 & H2 & H3)]];
    try discriminate; try lia.
Qed.

(** In sleep mode, once the publish delay is over, [loop] goes to sleep. *)
Lemma loop_sleeps (env : Env) (fuel : nat) (w : World) :
  settingsAreValid w = true ->
  sleeptime (settings w) <> 0 ->
  since_report env w > PUBLISH_DELAY ->
  loop env fuel w = Stopped (asleep env (set_nmillis (S (nmillis w)) w)).
Proof.
  intros Hv Hs Hd. rewrite loop_spec, Hv. apply Z.eqb_neq in Hs. rewrite Hs.
  cbn [andb]. unfold since_report in Hd.
  destruct (Z.gtb_spec (wrap32 (wrap32 (millis_at env (nwake w) (nmillis w))
                                - doneTimestamp w)) PUBLISH_DELAY);
    [reflexivity | lia].
Qed.

(** In continuous mode [loop] measures, reports and waits. *)
Lemma loop_continuous (env : Env) (fuel : nat) (w : World) :
  settingsAreValid w = true ->
  sleeptime (settings w) = 0 ->
  loop env fuel w = myDelay env fuel 1000 (reported env (measured env w)).
Proof.
  intros Hv Hs. rewrite loop_spec, Hv, Hs. reflexivity.
Qed.

(** The clock that [loop] saves before deep sleep is the [myMillis()] reading
    plus the configured interval, whatever the number of seconds slept. *)
Lemma loop_saves_clock (env : Env) (fuel : nat) (w : World) :
  settingsAreValid w = true ->
  sleeptime (settings w) <> 0 ->
  since_report env w > PUBLISH_DELAY ->
  exists w' i,
    loop env fuel w = Stopped w' /\
    (i = 3%nat \/ i = 4%nat) /\
    rtc (rtcmem w')
    = wrap32 (logical env w i (rtc (myRtc w)) + sleeptime (settings w) * 1000).
Proof.
  intros Hv Hs Hd.
  exists (asleep env (set_nmillis (S (nmillis w)) w)).
  exists (if bogus env (set_nmillis (S (nmillis w)) w) then 4%nat else 3%nat).
  split; [apply loop_sleeps; assumption|].
  cbn [rtcmem asleep]. unfold saved_rtc.
  destruct (bogus env (set_nmillis (S (nmillis w)) w)); split; auto.
Qed.

(** A wake cycle keeps the report-sent flags of RTC memory from being both
    true. *)
Lemma cycle_keeps_exclusive (env : Env) (fuel : nat) (w w' : World) :
  presentReported (rtcmem w) && absentReported (rtcmem w) = false ->
  wake_cycle env fuel w = Stopped w' ->
  presentReported (rtcmem w') && absentReported (rtcmem w') = false.
Proof.
  intros Hinv H. apply wake_cycle_cases in H as [E | [o Ho]].
  - rewrite E. exact Hinv.
  - apply observe_cycle_spec in Ho as (_ & _ & Hp & Ha).
    rewrite Hp, Ha. destruct (o_sent o); [|exact Hinv].
    destruct (o_present o); reflexivity.
Qed.

Lemma raw_samples_length (env : Env) :
  forall n start, length (raw_samples env n start) = n.
Proof.
  induction n as [|n IH]; intros start; cbn [raw_samples length];
    [reflexivity | now rewrite IH].
Qed.

Lemma raw_samples_nonneg (env : Env) :
  forall n start, Forall (fun x => 0 <= x) (raw_samples env n start).
Proof.
  induction n as [|n IH]; intros start; cbn [raw_samples]; constructor.
  - apply Z.mod_pos_bound. lia.
  - apply IH.
Qed.

Lemma failures_counted (raws : list Z) :
  Forall (fun x => 0 <= x) raws ->
  occurrences (-1) (map voted_value raws) = occurrences 0 raws.
Proof.
  induction 1 as [|x l Hx _ IH]; [reflexivity|].
  cbn [map]. rewrite !occurrences_cons, IH. unfold voted_value.
  destruct (Z.eqb_spec x 0) as [->|Hne]; [reflexivity|].
  destruct (Z.eqb_spec x (-1)); [lia | reflexivity].
Qed.

Lemma occurrences_two (v1 v2 : Z) (l : list Z) :
  v1 <> v2 -> (occurrences v1 l + occurrences v2 l <= length l)%nat.
Proof.
  intros Hne. induction l as [|x l IH]; [cbn; lia|].
  rewrite !occurrences_cons. cbn [length].
  destruct (Z.eqb_spec x v1), (Z.eqb_spec x v2); subst; try congruence; lia.
Qed.

Lemma measure_result (env : Env) (w : World) :
  let raws := raw_samples env SAMPLE_COUNT (nrange w) in
  exists w',
    measure env w = Done (dominant SAMPLE_COUNT (map voted_value raws)) w' /\
    nrange w' = (SAMPLE_COUNT + nrange w)%nat /\
    trace w' = trace w ++ map EvRange raws.
Proof.
  intros raws. eexists. split; [apply measure_spec|]. split; reflexivity.
Qed.

(** The vote of [measure] on the five samples it takes. *)
Lemma samples_plurality (env : Env) (start : nat) :
  let vals := map voted_value (raw_samples env SAMPLE_COUNT start) in
  let r := dominant SAMPLE_COUNT vals in
  length vals = SAMPLE_COUNT /\
  In r vals /\
  (forall v, (occurrences v vals <= occurrences r vals)%nat) /\
  (forall v, v <> r -> occurrences v vals = occurrences r vals ->
             (first_index r vals < first_index v vals)%nat).
Proof.
  intros vals r.
  assert (Hlen : length vals = SAMPLE_COUNT).
  { unfold vals. rewrite length_map. apply raw_samples_length. }
  split; [exact Hlen|].
  pose proof (dominant_plurality vals) as Hplur.
  rewrite Hlen in Hplur. apply Hplur. unfold SAMPLE_COUNT. lia.
Qed.

(** A wait that does not return is one the timer does not end within the
    fuel. *)
Lemma myDelay_outcome (env : Env) (fuel : nat) (ms : Z) (w : World) :
  (exists n, myDelay env fuel ms w = Done tt (set_nmillis n w))
  \/ (myDelay env fuel ms w = Timeout
      /\ returns_within env (nwake w) fuel ms (nmillis w) = false).
Proof.
  unfold returns_within. rewrite myDelay_spec.
  destruct (delay_end _ _ _ _ _); eauto.
Qed.

(** [setup] with a valid configuration: the world in which it calls
    [sendOrNot], and the world it returns. *)
Lemma setup_outcome (env : Env) (fuel : nat) (w : World) :
  validConfig (settings w) = VALID_SETTINGS_FLAG ->
  0 < maxdistance (settings w) ->
  (exists n1 n2,
      let w1 := set_nvcc (S (nvcc w))
                  (measured env (set_nmillis n1 (woken (power_on w)))) in
      setup env fuel (power_on w)
      = Done tt (set_nmillis n2 (after_decision env w1)))
  \/ (setup env fuel (power_on w) = Timeout
      /\ exists ms n, returns_within env (S (nwake w)) fuel ms n = false).
Proof.
  intros Hflag Hmax.
  assert (Hv : settingsAreValid (woken (power_on w)) = true).
  { unfold woken. cbn. apply Z.eqb_eq. exact Hflag. }
  unfold setup, bind. rewrite initSettings_spec.
  change (maxdistance (settings (power_on w))) with (maxdistance (settings w)).
  destruct (Z.leb_spec (maxdistance (settings w)) 0) as [Hle | _]; [lia|].
  cbv [gets]. rewrite Hv.
  set (w0 := woken (power_on w)).
  assert (Hk : forall n, nwake (set_nmillis n w0) = S (nwake w)) by reflexivity.
  (* setup_measure *)
  assert (Hm : (exists n1, setup_measure env fuel w0
                           = Done tt (set_nvcc (S (nvcc w))
                                        (measured env (set_nmillis n1 w0))))
               \/ (setup_measure env fuel w0 = Timeout
                   /\ exists ms n,
                        returns_within env (S (nwake w)) fuel ms n = false)).
  { unfold setup_measure, initDisplay.
    cbv [bind gets initSensor configureLoRa ret].
    destruct (displayenabled (settings w0)).
    - destruct (myDelay_outcome env fuel 1000 w0) as [[n Hn] | [Hn Hr]];
        rewrite Hn.
      + left. exists n. cbv beta iota. rewrite measure_spec. reflexivity.
      + right. split; [reflexivity|]. eauto.
    - left. exists (nmillis w0). rewrite set_nmillis_same, measure_spec.
      reflexivity. }
  destruct Hm as [[n1 Hn1] | [Ht Hr]]; rewrite ?Hn1, ?Ht; [|right; auto].
  set (w1 := set_nvcc (S (nvcc w)) (measured env (set_nmillis n1 w0))).
  assert (Hk1 : nwake w1 = S (nwake w)) by reflexivity.
  (* sendOrNot *)
  assert (Hs : (exists n, sendOrNot env fuel w1
                          = Done tt (set_nmillis n (after_decision env w1)))
               \/ (sendOrNot env fuel w1 = Timeout
                   /\ exists ms n,
                        returns_within env (S (nwake w)) fuel ms n = false)).
  { rewrite sendOrNot_spec. unfold after_decision.
    destruct (decision env w1).
    - destruct (myDelay_outcome env fuel 5000 (decided env w1))
        as [[n Hn] | [Hn Hr]]; [left; eauto|].
      right. split; [exact Hn|]. eauto.
    - left. eauto. }
  destruct Hs as [[n Hn] | [Ht Hr]]; rewrite ?Hn, ?Ht; [|right; auto].
  (* the closing wait *)
  unfold setup_tail. cbv [bind gets].
  destruct (displayenabled (settings (set_nmillis n (after_decision env w1)))).
  - destruct (myDelay_outcome env fuel 3000
                (set_nmillis n (after_decision env w1)))
      as [[n2 Hn2] | [Hn2 Hr]]; rewrite Hn2.
    + left. exists n1, n2. reflexivity.
    + right. split; [reflexivity|].
      exists 3000, (nmillis (set_nmillis n (after_decision env w1))).
      rewrite <- Hr. f_equal.
      unfold after_decision. destruct (decision env w1); reflexivity.
  - left. exists n1, n. reflexivity.
Qed.

(** ** The properties of the specification *)

(** C1, in the form that holds of the firmware.  [sendOrNot], once its
    closing [myDelay(5000)] returns, has transmitted exactly one report if
    the heartbeat is due ([myMillis()] above [nextHealthReportTime]), or the
    previous and the current presence are both false and no absent report
    was sent, or both are true and no present report was sent; otherwise it
    has transmitted nothing.  Over five wake
    cycles that find presence false, false, true, true, true, with the
    heartbeat never due and both report-sent flags clear in RTC memory at the
    start, the reports fall on the 2nd and the 4th cycle when the stored
    previous presence starts true, and on the 1st and the 4th when it starts
    false. *)
Theorem C1_report_decision :
  (forall env fuel w,
      returns_within env (nwake w) fuel 5000 (4 + nmillis w) = true ->
      returns_within env (nwake w) fuel 5000 (5 + nmillis w) = true ->
      let r := myRtc w in
      let due :=
        logical env w 0 (rtc r) > nextHealthReportTime r
        \/ (wasPresent r = false /\ isPresent w = false
            /\ absentReported r = false)
        \/ (wasPresent r = true /\ isPresent w = true
            /\ presentReported r = false) in
      exists w', sendOrNot env fuel w = Done tt w' /\
                 (due -> trace w' = trace w ++ [the_report env w]) /\
                 (~ due -> trace w' = trace w))
  /\
  (forall env fuel w obs w',
      presentReported (rtcmem w) = false ->
      absentReported (rtcmem w) = false ->
      run_cycles env fuel 5 w = Some (obs, w') ->
      map o_present obs = [false; false; true; true; true] ->
      map o_due obs = [false; false; false; false; false] ->
      (wasPresent (rtcmem w) = true ->
       map o_sent obs = [false; true; false; true; false]) /\
      (wasPresent (rtcmem w) = false ->
       map o_sent obs = [true; false; false; true; false])).
Proof.
  split.
  - intros env fuel w H4 H5 r due. subst r due.
    destruct (decision env w) eqn:Hd.
    + destruct (sendOrNot_reports env fuel w Hd H4 H5) as [n Hn].
      eexists. split; [exact Hn|]. split; [reflexivity|].
      intros Hnot. exfalso. apply Hnot. apply decision_iff. exact Hd.
    + rewrite sendOrNot_spec, Hd. eexists. split; [reflexivity|].
      split; [|reflexivity].
      intros Hdue. apply decision_iff in Hdue. congruence.
  - intros env fuel w obs w' Hp Ha Hrun Hpres Hdue.
    cbn [run_cycles] in Hrun.
    destruct (observe_cycle env fuel w) as [[o1 w1]|] eqn:E1; [|discriminate].
    destruct (observe_cycle env fuel w1) as [[o2 w2]|] eqn:E2; [|discriminate].
    destruct (observe_cycle env fuel w2) as [[o3 w3]|] eqn:E3; [|discriminate].
    destruct (observe_cycle env fuel w3) as [[o4 w4]|] eqn:E4; [|discriminate].
    destruct (observe_cycle env fuel w4) as [[o5 w5]|] eqn:E5; [|discriminate].
    inversion Hrun; subst obs w'. clear Hrun.
    cbn [map] in Hpres, Hdue |- *.
    inversion Hpres as [[P1 P2 P3 P4 P5]]. inversion Hdue as [[D1 D2 D3 D4 D5]].
    apply observe_cycle_spec in E1 as (S1 & W1 & Q1 & A1).
    apply observe_cycle_spec in E2 as (S2 & W2 & Q2 & A2).
    apply observe_cycle_spec in E3 as (S3 & W3 & Q3 & A3).
    apply observe_cycle_spec in E4 as (S4 & W4 & Q4 & A4).
    apply observe_cycle_spec in E5 as (S5 & W5 & Q5 & A5).
    rewrite P1, D1, Hp, Ha in *. rewrite P2, D2 in *. rewrite P3, D3 in *.
    rewrite P4, D4 in *. rewrite P5, D5 in *.
    split; intros Hw; rewrite Hw in *; cbn in S1; rewrite S1 in *;
      rewrite W1, Q1, A1 in *; cbn in S2; rewrite S2 in *;
      rewrite W2, Q2, A2 in *; cbn in S3; rewrite S3 in *;
      rewrite W3, Q3, A3 in *; cbn in S4; rewrite S4 in *;
      rewrite W4, Q4, A4 in *; cbn in S5; rewrite S5 in *;
      reflexivity.
Qed.

(** C1, in the form that holds of the firmware, on a device that sleeps
    60 s, starts with previous presence true and finds the box empty twice,
    then full. *)
Lemma C1_report_decision_witness :
  let env := demo_env ticking box_sensor true in
  let w := demo_world 60 (demo_rtc 3600000 true) in
  (exists w', sendOrNot env 10 w = Done tt w' /\ trace w' = trace w) /\
  exists obs w',
    run_cycles env 10 5 w = Some (obs, w') /\
    map o_sent obs = [false; true; false; true; false].
Proof.
  intros env w. split.
  - destruct (proj1 C1_report_decision env 10%nat w) as (w' & Hs & _ & Hno);
      [reflexivity | reflexivity |].
    exists w'. split; [exact Hs|]. apply Hno.
    intros [H | [(H & _) | (_ & H & _)]]; vm_compute in H; discriminate.
  - destruct (run_cycles env 10 5 w) as [[obs w']|] eqn:Hrun;
      [|vm_compute in Hrun; discriminate].
    exists obs, w'. split; [reflexivity|].
    assert (Hp : map o_present obs = [false; false; true; true; true])
      by (vm_compute in Hrun; inversion Hrun; reflexivity).
    assert (Hd : map o_due obs = [false; false; false; false; false])
      by (vm_compute in Hrun; inversion Hrun; reflexivity).
    exact (proj1 (proj2 C1_report_decision env 10%nat w obs w'
                        eq_refl eq_refl Hrun Hp Hd) eq_refl).
Defined.

(** C1 as the specification states it fails from the member initialiser of
    [wasPresent]: with previous presence false, both flags clear and the
    heartbeat never due, the sequence false, false, true, true, true is
    reported on the 1st and the 4th cycle. *)
Lemma C1_counterexample :
  let env := demo_env ticking box_sensor true in
  let w := demo_world 60 (demo_rtc 3600000 false) in
  presentReported (rtcmem w) = false /\
  absentReported (rtcmem w) = false /\
  exists obs w',
    run_cycles env 10 5 w = Some (obs, w') /\
    map o_present obs = [false; false; true; true; true] /\
    map o_due obs = [false; false; false; false; false] /\
    map o_sent obs = [true; false; false; true; false] /\
    map o_sent obs <> [false; true; false; true; false].
Proof.
  cbv zeta. split; [reflexivity|]. split; [reflexivity|].
  eexists. eexists. split; [vm_compute; reflexivity|].
  repeat split. discriminate.
Qed.

(** C2, in the form that holds of the firmware.  When [loop] reaches its
    sleep branch and [nextHealthReportTime - myMillis()], in unsigned 32-bit
    arithmetic, exceeds [ONE_HOUR] (the deadline is more than an hour ahead
    of logical time, or already behind it), the deadline becomes the current
    [myMillis()] reading, with no period added, and is saved to RTC memory in
    that form; otherwise the deadline is saved as it was. *)
Theorem C2_bogus_deadline_reset (env : Env) (fuel : nat) (w : World) :
  settingsAreValid w = true ->
  sleeptime (settings w) <> 0 ->
  since_report env w > PUBLISH_DELAY ->
  let next := nextHealthReportTime (myRtc w) in
  let offset := rtc (myRtc w) in
  exists w',
    loop env fuel w = Stopped w' /\
    rtcmem w' = myRtc w' /\
    (wrap32 (next - logical env w 2 offset) > ONE_HOUR ->
     nextHealthReportTime (rtcmem w') = logical env w 3 offset /\
     wrap32 (nextHealthReportTime (rtcmem w') - logical env w 3 offset) = 0) /\
    (wrap32 (next - logical env w 2 offset) <= ONE_HOUR ->
     nextHealthReportTime (rtcmem w') = next).
Proof.
  intros Hv Hs Hd next offset. subst next offset.
  eexists. split; [apply loop_sleeps; assumption|].
  split; [reflexivity|].
  cbn [rtcmem asleep]. unfold saved_rtc, bogus.
  change (myRtc (set_nmillis (S (nmillis w)) w)) with (myRtc w).
  change (logical env (set_nmillis (S (nmillis w)) w) 1 (rtc (myRtc w)))
    with (logical env w 2 (rtc (myRtc w))).
  change (logical env (set_nmillis (S (nmillis w)) w) 2 (rtc (myRtc w)))
    with (logical env w 3 (rtc (myRtc w))).
  destruct (Z.gtb_spec
              (wrap32 (nextHealthReportTime (myRtc w)
                       - logical env w 2 (rtc (myRtc w)))) ONE_HOUR).
  - split; [|lia]. intros _. cbn. split; [reflexivity|].
    rewrite Z.sub_diag. reflexivity.
  - split; [lia|]. intros _. reflexivity.
Qed.

(** C2, in the form that holds of the firmware, with the deadline 10 000 s
    ahead of a clock that reads 1000 ms. *)
Lemma C2_bogus_deadline_reset_witness :
  let env := demo_env (steady 1000) box_sensor true in
  let w := demo_world 300 (demo_rtc 10000000 false) in
  exists w', loop env 1 w = Stopped w' /\
             nextHealthReportTime (rtcmem w') = 1000.
Proof.
  intros env w.
  destruct (C2_bogus_deadline_reset env 1%nat w) as (w' & Hl & _ & Hfix & _);
    [reflexivity | discriminate | reflexivity |].
  exists w'. split; [exact Hl|].
  destruct Hfix as [Hn _]; [reflexivity | exact Hn].
Defined.

(** C2 as the specification states it fails: a deadline more than an hour
    ahead is not moved to the current logical time plus [ONE_HOUR]. *)
Lemma C2_counterexample :
  let env := demo_env (steady 1000) box_sensor true in
  let w := demo_world 300 (demo_rtc 10000000 false) in
  let now := logical env w 2 (rtc (myRtc w)) in
  nextHealthReportTime (myRtc w) > now + ONE_HOUR /\
  exists w', loop env 1 w = Stopped w' /\
             nextHealthReportTime (rtcmem w') <> now + ONE_HOUR.
Proof.
  cbv zeta. split; [reflexivity|].
  eexists. split; [vm_compute; reflexivity|].
  vm_compute. discriminate.
Qed.

(** C3, in the form that holds of the firmware.  The number of seconds
    [loop] sleeps is the smaller of [(unsigned long) sleeptime] and
    [((nextHealthReportTime - myMillis()) mod 2^32) / 1000].  For an interval
    in range and [now <= deadline] this is
    [min(sleeptime, max(0, (deadline - now) / 1000))]: 200 s for an interval
    of 300 s with the deadline 200 000 ms ahead, and 0 s when the deadline is
    [now].  When the deadline is behind [now] the subtraction wraps around
    and the result is [min(sleeptime, (2^32 - (now - deadline)) / 1000)]. *)
Theorem C3_sleep_duration (env : Env) (fuel : nat) (w : World) :
  settingsAreValid w = true ->
  sleeptime (settings w) <> 0 ->
  since_report env w > PUBLISH_DELAY ->
  let st := sleeptime (settings w) in
  let next := nextHealthReportTime (myRtc w) in
  let now := logical env w 1 (rtc (myRtc w)) in
  exists w' secs,
    loop env fuel w = Stopped w' /\
    trace w' = trace w ++ [EvSaveRTC (rtcmem w');
                           EvDeepSleep (wrap32 (secs * 1000000))] /\
    secs = Z.min (wrap32 st) (wrap32 (next - now) / 1000) /\
    (0 <= st < 2 ^ 32 -> next < 2 ^ 32 -> now <= next ->
     secs = Z.min st (Z.max 0 ((next - now) / 1000))) /\
    (0 <= st < 2 ^ 32 -> 0 <= next -> next < now ->
     secs = Z.min st ((2 ^ 32 - (now - next)) / 1000)) /\
    (st = 300 -> next = now + 200000 -> next < 2 ^ 32 -> secs = 200) /\
    (next = now -> secs = 0).
Proof.
  intros Hv Hs Hd st next now.
  exists (asleep env (set_nmillis (S (nmillis w)) w)).
  exists (Z.min (wrap32 st) (wrap32 (next - now) / 1000)).
  split; [apply loop_sleeps; assumption|].
  split; [reflexivity|]. split; [reflexivity|].
  assert (Hnow : 0 <= now < 2 ^ 32) by (apply Z.mod_pos_bound; lia).
  assert (Hst : 0 <= wrap32 st < 2 ^ 32) by (apply Z.mod_pos_bound; lia).
  repeat split.
  - intros Hst' Hn Hle. unfold wrap32.
    rewrite (Z.mod_small st), (Z.mod_small (next - now)) by lia.
    rewrite Z.max_r; [reflexivity|]. apply Z.div_pos; lia.
  - intros Hst' Hn Hlt. unfold wrap32.
    rewrite (Z.mod_small st) by lia.
    replace ((next - now) mod 2 ^ 32) with (2 ^ 32 - (now - next));
      [reflexivity|].
    apply Z.mod_unique_pos with (q := -1); lia.
  - intros E1 E2 Hn. unfold wrap32. rewrite E1, E2.
    replace (now + 200000 - now) with 200000 by lia. reflexivity.
  - intros E. rewrite E, Z.sub_diag. unfold wrap32 at 2.
    change (0 mod 2 ^ 32 / 1000) with 0. lia.
Qed.

(** C3, in the form that holds of the firmware: interval 300 s, deadline
    200 000 ms ahead, 200 s of sleep. *)
Lemma C3_sleep_duration_witness :
  let env := demo_env (steady 10000) box_sensor true in
  let w := demo_world 300 (demo_rtc 210000 false) in
  exists w', loop env 1 w = Stopped w' /\
             trace w' = [EvSaveRTC (rtcmem w'); EvDeepSleep 200000000].
Proof.
  intros env w.
  destruct (C3_sleep_duration env 1%nat w)
    as (w' & secs & Hl & Ht & _ & _ & _ & H200 & _);
    [reflexivity | discriminate | reflexivity |].
  exists w'. split; [exact Hl|].
  rewrite Ht, H200; reflexivity.
Defined.

(** C3 as the specification states it fails when the deadline is in the
    past: with an interval of 300 s and the deadline 1000 ms behind, the
    formula of the specification gives 0 s and the firmware sleeps 300 s. *)
Lemma C3_counterexample :
  let env := demo_env (steady 5000) box_sensor true in
  let w := demo_world 300 (demo_rtc 4000 false) in
  let now := logical env w 1 (rtc (myRtc w)) in
  let next := nextHealthReportTime (myRtc w) in
  next <= now /\
  Z.min (sleeptime (settings w)) (Z.max 0 ((next - now) / 1000)) = 0 /\
  exists w', loop env 1 w = Stopped w' /\
             last (trace w') EvRestart = EvDeepSleep (300 * 1000000).
Proof.
  cbv zeta. split; [vm_compute; discriminate|]. split; [reflexivity|].
  eexists. split; vm_compute; reflexivity.
Qed.

(** C4, in the form that holds of the firmware.  A call of [sendOrNot] that
    reports leaves [presentReported] equal to the current presence and
    [absentReported] equal to its negation: exactly one of them is true, and
    setting one clears the other.  A wake cycle that ends in deep sleep
    leaves the two flags in RTC memory like this when it reported, and as it
    found them there when it did not.  So a wake cycle that starts with RTC
    memory where they are not both true ends with RTC memory where they are
    not both true.  RTC memory is read at every start and never initialised
    by the firmware: nothing holds of the flags it finds at the first
    start. *)
Theorem C4_report_flags_exclusive :
  (forall env fuel w,
      decision env w = true ->
      returns_within env (nwake w) fuel 5000 (4 + nmillis w) = true ->
      returns_within env (nwake w) fuel 5000 (5 + nmillis w) = true ->
      exists w',
        sendOrNot env fuel w = Done tt w' /\
        trace w' = trace w ++ [the_report env w] /\
        presentReported (myRtc w') = isPresent w /\
        absentReported (myRtc w') = negb (isPresent w))
  /\
  (forall env fuel w w' o,
      observe_cycle env fuel w = Some (o, w') ->
      presentReported (rtcmem w')
      = (if o_sent o then o_present o else presentReported (rtcmem w)) /\
      absentReported (rtcmem w')
      = (if o_sent o then negb (o_present o) else absentReported (rtcmem w)))
  /\
  (forall env fuel w w',
      presentReported (rtcmem w) && absentReported (rtcmem w) = false ->
      wake_cycle env fuel w = Stopped w' ->
      presentReported (rtcmem w') && absentReported (rtcmem w') = false).
Proof.
  split; [|split].
  - intros env fuel w Hd H4 H5.
    destruct (sendOrNot_reports env fuel w Hd H4 H5) as [n Hn].
    eexists. split; [exact Hn|]. split; [reflexivity|].
    destruct (decided_flags env w) as (Hp & Ha & _). split; assumption.
  - intros env fuel w w' o Ho.
    apply observe_cycle_spec in Ho as (_ & _ & Hp & Ha). split; assumption.
  - intros env fuel w w'. apply cycle_keeps_exclusive.
Qed.

(** C4 on an empty box whose absence has not been reported yet, and on a
    wake cycle that finds both flags set and the heartbeat due. *)
Lemma C4_report_flags_exclusive_witness :
  let env := demo_env ticking box_sensor true in
  let w := demo_world 60 (demo_rtc 3600000 false) in
  let v := demo_world 60 (mkRtc 0 0 false true true (-99)) in
  (exists w',
    sendOrNot env 10 w = Done tt w' /\
    presentReported (myRtc w') = false /\ absentReported (myRtc w') = true) /\
  (exists o v',
    observe_cycle env 10 v = Some (o, v') /\
    presentReported (rtcmem v') = false /\ absentReported (rtcmem v') = true).
Proof.
  intros env w v. split.
  - destruct (proj1 C4_report_flags_exclusive env 10%nat w)
      as (w' & Hs & _ & Hp & Ha); [reflexivity | reflexivity | reflexivity |].
    exists w'. split; [exact Hs|]. split; [exact Hp | exact Ha].
  - destruct (observe_cycle env 10 v) as [[o v']|] eqn:Hc;
      [|vm_compute in Hc; discriminate].
    exists o, v'. split; [reflexivity|].
    destruct (proj1 (proj2 C4_report_flags_exclusive) env 10%nat v v' o Hc)
      as [Hp Ha].
    assert (Ho : o_sent o = true /\ o_present o = false)
      by (vm_compute in Hc; inversion Hc; split; reflexivity).
    destruct Ho as [Hs Hq]. rewrite Hs, Hq in Hp, Ha.
    split; [exact Hp | exact Ha].
Defined.

(** C4 as the specification states it fails: [initSettings] loads RTC
    memory unchecked, and when it holds both flags set, with a parcel that
    was there before, the wake cycle has nothing to report and writes both
    flags back set. *)
Lemma C4_counterexample :
  let env := demo_env ticking (fun _ => 200) true in
  let w := demo_world 60 (mkRtc 3600000 0 true true true (-99)) in
  exists w',
    wake_cycle env 10 w = Stopped w' /\
    nsend w' = nsend w /\
    presentReported (rtcmem w') = true /\
    absentReported (rtcmem w') = true.
Proof.
  cbv zeta. eexists. split; [vm_compute; reflexivity|].
  repeat split.
Qed.

(** C5, in the form that holds of the firmware.  In sleep mode ([sleeptime]
    not zero), once the publish delay has elapsed, [loop] stores the current
    presence in [wasPresent] and writes it to RTC memory right before deep
    sleep, whatever the report-sent flags are; a wake cycle that ends in deep
    sleep leaves in RTC memory the presence it measured, whether or not it
    reported.  In continuous mode ([sleeptime] zero) an iteration of [loop]
    never sleeps and leaves [myRtc] and RTC memory, hence [wasPresent], as
    they were. *)
Theorem C5_previous_presence_saved :
  (forall env fuel w,
      settingsAreValid w = true ->
      sleeptime (settings w) <> 0 ->
      since_report env w > PUBLISH_DELAY ->
      exists w' usecs,
        loop env fuel w = Stopped w' /\
        wasPresent (rtcmem w') = isPresent w /\
        trace w' = trace w ++ [EvSaveRTC (rtcmem w'); EvDeepSleep usecs])
  /\
  (forall env fuel w o w',
      observe_cycle env fuel w = Some (o, w') ->
      wasPresent (rtcmem w') = o_present o)
  /\
  (forall env fuel w,
      settingsAreValid w = true ->
      sleeptime (settings w) = 0 ->
      match loop env fuel w with
      | Done _ w' => myRtc w' = myRtc w /\ rtcmem w' = rtcmem w
      | Stopped _ => False
      | Timeout => True
      end).
Proof.
  split; [|split].
  - intros env fuel w Hv Hs Hd.
    do 2 eexists. split; [apply loop_sleeps; assumption|].
    split; [|reflexivity].
    cbn [rtcmem asleep].
    destruct (saved_rtc_flags env (set_nmillis (S (nmillis w)) w))
      as (_ & _ & Hw). exact Hw.
  - intros env fuel w o w' H.
    apply observe_cycle_spec in H as (_ & Hw & _). exact Hw.
  - intros env fuel w Hv Hs. rewrite loop_continuous by assumption.
    destruct (myDelay_cases env fuel 1000 (reported env (measured env w)))
      as [[n Hn] | Hn]; rewrite Hn; [split; reflexivity | exact I].
Qed.

(** C5, in the form that holds of the firmware, on a device that sleeps
    300 s. *)
Lemma C5_previous_presence_saved_witness :
  let env := demo_env (steady 10000) box_sensor true in
  let w := demo_world 300 (demo_rtc 210000 false) in
  exists w' usecs,
    loop env 1 w = Stopped w' /\ wasPresent (rtcmem w') = isPresent w /\
    trace w' = trace w ++ [EvSaveRTC (rtcmem w'); EvDeepSleep usecs].
Proof.
  intros env w.
  apply (proj1 C5_previous_presence_saved env 1%nat w);
    [reflexivity | discriminate | reflexivity].
Defined.

(** C5 as the specification states it fails in continuous mode: with a
    parcel in the box and previous presence false, an iteration of [loop]
    finds the parcel and leaves [wasPresent] false, in [myRtc] and in RTC
    memory. *)
Lemma C5_counterexample :
  let env := demo_env ticking (fun _ => 200) true in
  let w := demo_world 0 (demo_rtc 3600000 false) in
  exists w', loop env 10 w = Done tt w' /\
             isPresent w' = true /\
             wasPresent (myRtc w') = false /\
             wasPresent (rtcmem w') = false.
Proof.
  cbv zeta. eexists. split; [vm_compute; reflexivity|].
  repeat split.
Qed.

(** C6.  [measure] takes exactly [SAMPLE_COUNT] = 5 readings and returns a
    value of the sample that no other value out-numbers; any other value with
    the same count first occurs later in the sample.  The readings 100, 100,
    105, 105, 0 give 100, and so do 100, 100, 100, 105, 999.  (A reading of
    zero enters the sample as -1, the failure value of [getDistance].) *)
Theorem C6_measure_plurality (env : Env) (w : World) :
  let raws := raw_samples env SAMPLE_COUNT (nrange w) in
  let vals := map voted_value raws in
  let r := dominant SAMPLE_COUNT vals in
  (exists w',
      measure env w = Done r w' /\
      nrange w' = (SAMPLE_COUNT + nrange w)%nat /\
      trace w' = trace w ++ map EvRange raws) /\
  length vals = SAMPLE_COUNT /\
  In r vals /\
  (forall v, (occurrences v vals <= occurrences r vals)%nat) /\
  (forall v, v <> r -> occurrences v vals = occurrences r vals ->
             (first_index r vals < first_index v vals)%nat) /\
  (raws = [100; 100; 105; 105; 0] -> r = 100) /\
  (raws = [100; 100; 100; 105; 999] -> r = 100).
Proof.
  intros raws vals r.
  destruct (samples_plurality env (nrange w)) as (Hlen & Hin & Hmax & Htie).
  split; [apply measure_result|]. split; [exact Hlen|].
  split; [exact Hin|]. split; [exact Hmax|]. split; [exact Htie|].
  split; intros E; subst r vals; rewrite E; reflexivity.
Qed.

(** C6 on the readings 100, 100, 105, 105, 0. *)
Lemma C6_measure_plurality_witness :
  let env := demo_env ticking
               (fun n => nth n [100; 100; 105; 105; 0] 0) true in
  let w := demo_world 60 (demo_rtc 3600000 false) in
  exists w', measure env w = Done 100 w'.
Proof.
  intros env w.
  destruct (C6_measure_plurality env w)
    as ((w' & Hm & _) & _ & _ & _ & _ & H1 & _).
  exists w'. rewrite <- (H1 eq_refl). exact Hm.
Defined.

(** C7.  A failed reading (zero from the sensor) is kept: [measure] still
    takes its five readings and returns; the sample has five entries, and each
    failed reading stands in it as -1, counted like any other value.  The
    result has the highest count, so three failed readings or more make the
    result -1. *)
Theorem C7_failed_reads_vote (env : Env) (w : World) :
  let raws := raw_samples env SAMPLE_COUNT (nrange w) in
  let vals := map voted_value raws in
  let r := dominant SAMPLE_COUNT vals in
  (exists w',
      measure env w = Done r w' /\
      nrange w' = (SAMPLE_COUNT + nrange w)%nat /\
      trace w' = trace w ++ map EvRange raws) /\
  length vals = SAMPLE_COUNT /\
  occurrences (-1) vals = occurrences 0 raws /\
  (forall v, (occurrences v vals <= occurrences r vals)%nat) /\
  ((3 <= occurrences 0 raws)%nat -> r = -1).
Proof.
  intros raws vals r.
  destruct (samples_plurality env (nrange w)) as (Hlen & _ & Hmax & _).
  fold raws vals r in Hlen, Hmax.
  pose proof (measure_result env w) as Hm.
  assert (Hfail : occurrences (-1) vals = occurrences 0 raws)
    by (apply failures_counted, raw_samples_nonneg).
  split; [exact Hm|]. split; [exact Hlen|]. split; [exact Hfail|].
  split; [exact Hmax|].
  intros H3. destruct (Z.eq_dec r (-1)) as [E | Hne]; [exact E|].
  exfalso.
  pose proof (occurrences_two r (-1) vals Hne) as H2.
  specialize (Hmax (-1)). rewrite Hlen in H2. unfold SAMPLE_COUNT in H2. lia.
Qed.

(** C7 on the readings 0, 100, 0, 100, 0. *)
Lemma C7_failed_reads_vote_witness :
  let env := demo_env ticking (fun n => nth n [0; 100; 0; 100; 0] 7) true in
  let w := demo_world 60 (demo_rtc 3600000 false) in
  exists w', measure env w = Done (-1) w'.
Proof.
  intros env w.
  destruct (C7_failed_reads_vote env w) as ((w' & Hm & _) & _ & _ & _ & H3).
  exists w'. rewrite <- H3; [exact Hm|].
  vm_compute. apply le_n.
Defined.

(** C8, at an input where the firmware departs from it.  With a sleep
    interval of 300 s, the logical time at 10 000 ms and the heartbeat
    deadline 200 s ahead, [loop] asks for 200 s of deep sleep but saves a
    clock advanced by 300 s: [rtc] is 310 000, not 210 000. *)
Theorem C8_saved_clock_at_failing_input :
  let env := demo_env (steady 10000) box_sensor true in
  let w := demo_world 300 (demo_rtc 210000 false) in
  logical env w 3 (rtc (myRtc w)) = 10000 /\
  exists w',
    loop env 1 w = Stopped w' /\
    trace w' = [EvSaveRTC (rtcmem w'); EvDeepSleep (200 * 1000000)] /\
    rtc (rtcmem w') = 10000 + 300 * 1000 /\
    rtc (rtcmem w') <> 10000 + 200 * 1000.
Proof.
  cbv zeta. split; [reflexivity|].
  eexists. split; [vm_compute; reflexivity|].
  repeat split. vm_compute. discriminate.
Qed.



(** C10, in the form that holds of the firmware.  With valid settings and
    [sleeptime] zero, an iteration of [loop] whose closing [myDelay(1000)]
    returns takes the five readings of a measurement, classifies the result
    and transmits one report, whatever the scheduling state is: [myRtc] and
    RTC memory are left as they were, and putting any other values in their
    place changes nothing else in the outcome.  [setup], however, calls
    [sendOrNot] at every start, in this mode as in sleep mode: after a
    measurement of its own it reports exactly when [decision] holds of the
    state loaded from RTC memory, and then sets the report-sent flags and the
    heartbeat deadline in [myRtc]; RTC memory is not written.  [setup] never
    stops the processor, and it returns unless one of its waits does not. *)
Theorem C10_continuous_mode :
  (forall env fuel w,
      settingsAreValid w = true ->
      sleeptime (settings w) = 0 ->
      returns_within env (nwake w) fuel 1000 (nmillis w) = true ->
      let raws := raw_samples env SAMPLE_COUNT (nrange w) in
      let d := dominant SAMPLE_COUNT (map voted_value raws) in
      let p := (d >? mindistance (settings w))
               && (d <? maxdistance (settings w)) in
      exists w',
        loop env fuel w = Done tt w' /\
        distance w' = d /\
        isPresent w' = p /\
        trace w' = trace w ++ map EvRange raws
                     ++ [EvSend (loRaTargetAddress (settings w))
                                (mkReport d
                                   (convertToVoltage
                                      (wrap16 (vcc_at env (nvcc w))))
                                   p)
                                (send_at env (nsend w))] /\
        myRtc w' = myRtc w /\
        rtcmem w' = rtcmem w /\
        forall r m,
          loop env fuel (set_rtcmem m (set_myRtc r w))
          = Done tt (set_rtcmem m (set_myRtc r w')))
  /\
  (forall env fuel w,
      validConfig (settings w) = VALID_SETTINGS_FLAG ->
      0 < maxdistance (settings w) ->
      sleeptime (settings w) = 0 ->
      let raws := raw_samples env SAMPLE_COUNT (nrange w) in
      let d := dominant SAMPLE_COUNT (map voted_value raws) in
      let p := (d >? mindistance (settings w))
               && (d <? maxdistance (settings w)) in
      match setup env fuel (power_on w) with
      | Done _ w' =>
          exists w1,
            myRtc w1 = rtcmem w /\
            settings w1 = settings w /\
            isPresent w1 = p /\
            trace w1 = trace w ++ map EvRange raws /\
            trace w'
            = trace w1 ++ (if decision env w1 then [the_report env w1] else []) /\
            myRtc w' = myRtc (after_decision env w1) /\
            presentReported (myRtc w')
            = (if decision env w1 then p else presentReported (rtcmem w)) /\
            absentReported (myRtc w')
            = (if decision env w1 then negb p else absentReported (rtcmem w)) /\
            rtcmem w' = rtcmem w /\
            sleeptime (settings w') = 0 /\
            settingsAreValid w' = true
      | Stopped _ => False
      | Timeout =>
          exists ms n, returns_within env (S (nwake w)) fuel ms n = false
      end).
Proof.
  split.
  - intros env fuel w Hv Hs Hret raws d p.
    destruct (returns_within_Done env fuel 1000 (reported env (measured env w)) Hret)
      as [n Hn].
    exists (set_nmillis n (reported env (measured env w))).
    split; [rewrite loop_continuous by assumption; exact Hn|].
    split; [reflexivity|]. split; [reflexivity|].
    split; [cbn -[dominant raw_samples]; rewrite <- app_assoc; reflexivity|].
    split; [reflexivity|]. split; [reflexivity|].
    intros r m. rewrite loop_continuous by assumption.
    revert Hn. rewrite !myDelay_spec.
    change (delay_end env
              (nwake (reported env (measured env (set_rtcmem m (set_myRtc r w)))))
              fuel 1000
              (nmillis (reported env (measured env (set_rtcmem m (set_myRtc r w))))))
      with (delay_end env (nwake (reported env (measured env w))) fuel 1000
              (nmillis (reported env (measured env w)))).
    destruct (delay_end env _ fuel 1000 _); intros E; inversion E; reflexivity.
  - intros env fuel w Hflag Hmax Hs raws d p.
    destruct (setup_outcome env fuel w Hflag Hmax)
      as [(n1 & n2 & H) | [H Hr]]; rewrite H; [|exact Hr].
    set (w1 := set_nvcc (S (nvcc w))
                 (measured env (set_nmillis n1 (woken (power_on w))))).
    exists w1.
    assert (Hp : isPresent w1 = p) by reflexivity.
    assert (Hv : settingsAreValid w1 = true)
      by (unfold w1, woken; cbn; apply Z.eqb_eq; exact Hflag).
    split; [reflexivity|]. split; [reflexivity|]. split; [exact Hp|].
    split; [reflexivity|].
    destruct (decided_flags env w1) as (Hdp & Hda & _).
    unfold after_decision. rewrite <- Hp.
    destruct (decision env w1).
    + split; [reflexivity|]. split; [reflexivity|].
      split; [exact Hdp|]. split; [exact Hda|].
      split; [reflexivity|]. split; [exact Hs | exact Hv].
    + split; [cbn [trace set_nmillis]; now rewrite app_nil_r|].
      split; [reflexivity|]. split; [reflexivity|]. split; [reflexivity|].
      split; [reflexivity|]. split; [exact Hs | exact Hv].
Qed.

(** C10 on a box with a parcel at 200 mm: an iteration of [loop], and a
    start. *)
Lemma C10_continuous_mode_witness :
  let env := demo_env ticking (fun _ => 200) true in
  let w := demo_world 0 (demo_rtc 3600000 false) in
  (exists w',
    loop env 10 w = Done tt w' /\
    myRtc w' = myRtc w /\
    trace w' = [EvRange 200; EvRange 200; EvRange 200; EvRange 200; EvRange 200;
                EvSend 1 (mkReport 200 335 true) true]) /\
  (exists w' w1,
    setup env 10 (power_on w) = Done tt w' /\
    isPresent w1 = true /\
    trace w1 = [EvRange 200; EvRange 200; EvRange 200; EvRange 200;
                EvRange 200] /\
    trace w'
    = trace w1 ++ (if decision env w1 then [the_report env w1] else []) /\
    myRtc w' = myRtc (after_decision env w1)).
Proof.
  intros env w. split.
  - destruct (proj1 C10_continuous_mode env 10%nat w)
      as (w' & Hl & _ & _ & Ht & Hr & _);
      [reflexivity | reflexivity | reflexivity |].
    exists w'. split; [exact Hl|]. split; [exact Hr|]. rewrite Ht. reflexivity.
  - pose proof (proj2 C10_continuous_mode env 10%nat w eq_refl eq_refl eq_refl)
      as H.
    cbv zeta in H.
    destruct (setup env 10 (power_on w)) as [[] w'| |] eqn:Hsetup;
      [| vm_compute in Hsetup; discriminate
       | vm_compute in Hsetup; discriminate].
    destruct H as (w1 & _ & _ & Hp1 & Ht1 & Ht & Hm & _).
    exists w', w1. split; [reflexivity|].
    split; [rewrite Hp1; reflexivity|].
    split; [rewrite Ht1; reflexivity|].
    split; [exact Ht | exact Hm].
Defined.

(** C10 as the specification states it fails: in continuous mode, with a
    parcel in the box, a start that finds previous presence true and
    [presentReported] false sends a report, sets [presentReported] and moves
    the heartbeat deadline, and the same start with previous presence false
    sends nothing: [sendOrNot] is run, and the stored state is consulted and
    updated. *)
Lemma C10_counterexample :
  let env := demo_env ticking (fun _ => 200) true in
  let w := demo_world 0 (demo_rtc 3600000 true) in
  let v := demo_world 0 (demo_rtc 3600000 false) in
  sleeptime (settings w) = 0 /\
  sleeptime (settings v) = 0 /\
  (exists w',
      setup env 10 (power_on w) = Done tt w' /\
      nsend w' = S (nsend w) /\
      presentReported (rtcmem w) = false /\
      presentReported (myRtc w') = true /\
      nextHealthReportTime (myRtc w') <> nextHealthReportTime (rtcmem w)) /\
  (exists v',
      setup env 10 (power_on v) = Done tt v' /\
      nsend v' = nsend v).
Proof.
  cbv zeta. split; [reflexivity|]. split; [reflexivity|]. split.
  - eexists. split; [vm_compute; reflexivity|].
    repeat split. vm_compute. discriminate.
  - eexists. split; [vm_compute; reflexivity|]. reflexivity.
Qed.

(** ** Further properties of the firmware *)

(** [decimal] on a few texts. *)
Lemma decimal_examples :
  decimal "300"%string = 300 /\ decimal "-5"%string = -5 /\
  decimal " +12x"%string = 12 /\ decimal "x"%string = 0 /\
  decimal "- 5"%string = 0.
Proof. repeat split. Qed.

(** The retry loop of [initSensor] entered after [a] failed attempts. *)
Lemma initSensor_while_outcome (env : Env) (sensor_init : nat -> bool)
      (fuel : nat) (w0 : World) :
  forall rounds a n,
    (a < 20)%nat ->
    (20 - a <= rounds)%nat ->
    (forall i, (i < a)%nat -> sensor_init i = false) ->
    match initSensor_while env sensor_init fuel rounds (Z.of_nat a) a
                           (set_nmillis n w0) with
    | Done _ w' =>
        (exists k, (k < 20)%nat /\ first_success sensor_init k) /\
        exists n', w' = set_nmillis n' w0
    | Stopped w' =>
        (forall i, (i < 20)%nat -> sensor_init i = false) /\
        exists n', w' = emit EvRestart (set_nmillis n' w0)
    | Timeout =>
        exists n', returns_within env (nwake w0) fuel 5000 n' = false
    end.
Proof.
  induction rounds as [|r IH]; intros a n Ha Hr Hfail; [lia|].
  cbn [initSensor_while].
  assert (E : (Z.of_nat a + 1) mod 256 = Z.of_nat (S a))
    by (rewrite Z.mod_small; lia).
  rewrite E.
  destruct (Z.eqb_spec (Z.of_nat (S a)) 0) as [Hz | _]; [lia|].
  destruct (sensor_init a) eqn:Hs.
  - cbv [ret]. split; [|eauto].
    exists a. split; [exact Ha|]. split; assumption.
  - assert (E1 : (if Z.of_nat (S a) =? 1 then 1 else Z.of_nat (S a))
                 = Z.of_nat (S a))
      by (destruct (Z.eqb_spec (Z.of_nat (S a)) 1); congruence).
    rewrite E1. unfold bind at 1. rewrite myDelay_spec.
    cbn [nwake nmillis set_nmillis].
    destruct (delay_end env (nwake w0) fuel 5000 n) as [n1|] eqn:Hdelay.
    + change (set_nmillis n1 (set_nmillis n w0)) with (set_nmillis n1 w0).
      assert (Hall : forall i, (i < S a)%nat -> sensor_init i = false).
      { intros i Hi. destruct (Nat.eq_dec i a) as [->|]; [exact Hs|].
        apply Hfail. lia. }
      unfold bind at 1.
      destruct (Z.geb_spec (Z.of_nat (S a)) MAX_HARDWARE_FAILURES) as [Hge | Hlt];
        unfold MAX_HARDWARE_FAILURES in *.
      * cbv [restart bind modify stop]. split; [|eauto].
        intros i Hi. apply Hall. lia.
      * cbv [ret]. apply IH; [lia | lia | exact Hall].
    + exists n. unfold returns_within. rewrite Hdelay. reflexivity.
Qed.

(** X1 ([initSensor]).  The sensor start-up returns only when one of the
    first twenty calls of [sensor.init()] succeeds; when all twenty fail it
    resets the chip; in both cases only the timer has been read.  It does not
    finish only if one of its five-second waits does not. *)
Theorem initSensor_retrying_outcome (env : Env) (sensor_init : nat -> bool)
        (fuel : nat) (w : World) :
  match initSensor_retrying env sensor_init fuel w with
  | Done _ w' =>
      (exists k, (k < 20)%nat /\ first_success sensor_init k) /\
      exists n, w' = set_nmillis n w
  | Stopped w' =>
      (forall i, (i < 20)%nat -> sensor_init i = false) /\
      exists n, w' = emit EvRestart (set_nmillis n w)
  | Timeout =>
      exists n, returns_within env (nwake w) fuel 5000 n = false
  end.
Proof.
  unfold initSensor_retrying.
  pose proof (initSensor_while_outcome env sensor_init fuel w 256 0 (nmillis w)
                ltac:(lia) ltac:(lia) ltac:(intros; lia)) as H.
  rewrite set_nmillis_same in H. exact H.
Qed.

(** With a sensor that starts at once, this is the [initSensor] used in
    [setup_measure]. *)
Lemma initSensor_retrying_first_try (env : Env) (sensor_init : nat -> bool)
      (fuel : nat) (w : World) :
  sensor_init O = true ->
  initSensor_retrying env sensor_init fuel w = initSensor w.
Proof.
  intros H. unfold initSensor_retrying.
  change 256%nat with (S 255).
  generalize 255%nat. intros r.
  cbn [initSensor_while]. change ((0 + 1) mod 256 =? 0) with false. cbv iota.
  rewrite H. reflexivity.
Qed.

(** What the timer did when the busy-wait is over. *)
Lemma polls_returned (clock : nat -> Z) (doneTime : Z) :
  forall fuel n k,
    polls clock fuel doneTime n = Some k ->
    exists j, (j < fuel)%nat /\
              (forall i, (i < j)%nat -> wrap32 (clock (n + i)%nat) < doneTime) /\
              doneTime <= wrap32 (clock (n + j)%nat) /\
              k = S (n + j).
Proof.
  induction fuel as [|f IH]; intros n k H; [discriminate|].
  cbn [polls] in H.
  destruct (Z.ltb_spec (wrap32 (clock n)) doneTime) as [Hlt | Hge].
  - apply IH in H as (j & Hj & Hbefore & Hat & Hk).
    exists (S j). split; [lia|]. split; [|split].
    + intros i Hi. destruct i as [|i]; [rewrite Nat.add_0_r; exact Hlt|].
      rewrite Nat.add_succ_r. apply Hbefore. lia.
    + rewrite Nat.add_succ_r. exact Hat.
    + rewrite Nat.add_succ_r. exact Hk.
  - inversion H; subst k. exists O. rewrite Nat.add_0_r.
    split; [lia|]. split; [intros i Hi; lia|]. split; [exact Hge | reflexivity].
Qed.

(** X2 ([myDelay]).  [myDelay(ms)] returns exactly when some timer read
    reaches [doneTime = millis()+ms] (32-bit sum); every read before that one
    was below it, and nothing but the timer index has changed. *)
Theorem myDelay_waits (env : Env) (fuel : nat) (ms : Z) (w w' : World) :
  let clock := millis_at env (nwake w) in
  let doneTime := wrap32 (wrap32 (clock (nmillis w)) + ms) in
  myDelay env fuel ms w = Done tt w' <->
  exists j,
    (j < fuel)%nat /\
    (forall i, (i < j)%nat ->
               wrap32 (clock (S (nmillis w) + i)%nat) < doneTime) /\
    doneTime <= wrap32 (clock (S (nmillis w) + j)%nat) /\
    w' = set_nmillis (S (S (nmillis w) + j)) w.
Proof.
  intros clock doneTime. split.
  - rewrite myDelay_spec. unfold delay_end. fold clock doneTime.
    destruct (polls clock fuel doneTime (S (nmillis w))) as [k|] eqn:Hp;
      [|discriminate].
    intros H. inversion H; subst w'.
    apply polls_returned in Hp as (j & Hj & Hbefore & Hat & Hk).
    exists j. subst k. repeat split; assumption.
  - intros (j & Hj & Hbefore & Hat & Hw). subst w'.
    apply myDelay_enough_fuel; assumption.
Qed.

(** X3 ([myDelay]).  When [millis()+ms] wraps past 2^32 and the timer has not
    wrapped yet at the next read, [myDelay] returns after that single read:
    it does not wait. *)
Theorem myDelay_overflow_returns_at_once
        (env : Env) (fuel : nat) (ms : Z) (w : World) :
  let t0 := wrap32 (millis_at env (nwake w) (nmillis w)) in
  let t1 := wrap32 (millis_at env (nwake w) (S (nmillis w))) in
  0 <= ms < 2 ^ 32 ->
  2 ^ 32 <= t0 + ms ->
  t0 <= t1 ->
  myDelay env (S fuel) ms w = Done tt (set_nmillis (2 + nmillis w) w).
Proof.
  intros t0 t1 Hms Hover Hmono.
  assert (Ht0 : 0 <= t0 < 2 ^ 32) by (apply Z.mod_pos_bound; lia).
  assert (Hd : wrap32 (t0 + ms) = t0 + ms - 2 ^ 32).
  { unfold wrap32 at 1. symmetry.
    apply Z.mod_unique_pos with (q := 1); lia. }
  rewrite (myDelay_enough_fuel env ms w O).
  - rewrite Nat.add_0_r. reflexivity.
  - intros i Hi. lia.
  - rewrite Nat.add_0_r. fold t0 t1. rewrite Hd. lia.
  - lia.
Qed.

(** A five-second wait started 1.3 s before the timer wraps. *)
Lemma myDelay_overflow_returns_at_once_witness :
  let env := demo_env (steady 4294966000) box_sensor true in
  let w := demo_world 60 (demo_rtc 0 false) in
  myDelay env 1 5000 w = Done tt (set_nmillis 2 w).
Proof.
  intros env w.
  apply (myDelay_overflow_returns_at_once env 0%nat 5000 w);
    [split; [discriminate | reflexivity] | discriminate | discriminate].
Defined.

(** One wake cycle with no heartbeat due: when it reports, and the flags it
    leaves. *)
Lemma cycle_not_due (env : Env) (fuel : nat) (w w' : World) (o : Obs) :
  observe_cycle env fuel w = Some (o, w') ->
  o_due o = false ->
  let q := o_present o in
  o_sent o = Bool.eqb (wasPresent (rtcmem w)) q && negb (flag_of q (rtcmem w)) /\
  wasPresent (rtcmem w') = q /\
  flag_of q (rtcmem w') = (o_sent o || flag_of q (rtcmem w)) /\
  flag_of (negb q) (rtcmem w') = (negb (o_sent o) && flag_of (negb q) (rtcmem w)).
Proof.
  intros H Hdue q. subst q.
  apply observe_cycle_spec in H as (Hs & Hw & Hp & Ha).
  rewrite Hdue in Hs. unfold flag_of.
  destruct (o_present o), (o_sent o), (wasPresent (rtcmem w)),
    (presentReported (rtcmem w)), (absentReported (rtcmem w));
    cbn in *; try discriminate; rewrite ?Hp, ?Ha; auto.
Qed.

(** A run of cycles is a first cycle and a run. *)
Lemma run_cycles_cons (env : Env) (fuel n : nat) (w w' : World) (obs : list Obs) :
  run_cycles env fuel (S n) w = Some (obs, w') ->
  exists o w1 rest,
    observe_cycle env fuel w = Some (o, w1) /\
    run_cycles env fuel n w1 = Some (rest, w') /\
    obs = o :: rest.
Proof.
  cbn [run_cycles]. intros H.
  destruct (observe_cycle env fuel w) as [[o w1]|]; [|discriminate].
  destruct (run_cycles env fuel n w1) as [[rest w2]|] eqn:Hr; [|discriminate].
  inversion H; subst. exists o, w1, rest. repeat split; assumption.
Qed.

(** Presence [p] seen before and reported: cycles that see [p] again stay
    silent. *)
Lemma quiet_run (env : Env) (fuel : nat) (p : bool) :
  forall n w obs w',
    wasPresent (rtcmem w) = p ->
    flag_of p (rtcmem w) = true ->
    run_cycles env fuel n w = Some (obs, w') ->
    (forall o, In o obs -> o_present o = p /\ o_due o = false) ->
    (forall o, In o obs -> o_sent o = false) /\
    wasPresent (rtcmem w') = p /\
    flag_of p (rtcmem w') = true /\
    flag_of (negb p) (rtcmem w') = flag_of (negb p) (rtcmem w).
Proof.
  induction n as [|n IH]; intros w obs w' Hw Hf Hrun Hall.
  - inversion Hrun; subst. repeat split; auto. intros o [].
  - apply run_cycles_cons in Hrun as (o & w1 & rest & Ho & Hr & ->).
    destruct (Hall o (or_introl eq_refl)) as [Hp Hd].
    destruct (cycle_not_due env fuel w w1 o Ho Hd) as (Hs & Hw1 & Hf1 & Hn1).
    rewrite Hp in *. rewrite Hw, Hf in Hs.
    rewrite eqb_reflx in Hs. cbn in Hs.
    rewrite Hs, Hf in Hf1. rewrite Hs in Hn1. cbn in Hf1, Hn1.
    destruct (IH w1 rest w' Hw1 Hf1 Hr) as (Hsent & Hw' & Hf' & Hn').
    { intros o' Hin. apply Hall. now right. }
    repeat split; auto; [|congruence].
    intros o' [<- | Hin]; auto.
Qed.

(** X7 ([sendOrNot], [setup], [loop]).  Over any number of wake cycles that
    all measure the same presence and have no heartbeat due, at most one
    report is sent, none after the second cycle, and from the second cycle on
    RTC memory records that presence as reported. *)
Theorem steady_presence_reported_once
        (env : Env) (fuel n : nat) (p : bool) (w w' : World) (obs : list Obs) :
  run_cycles env fuel n w = Some (obs, w') ->
  (forall o, In o obs -> o_present o = p /\ o_due o = false) ->
  (reports obs <= 1)%nat /\
  (forall o, In o (skipn 2 obs) -> o_sent o = false) /\
  ((2 <= n)%nat -> wasPresent (rtcmem w') = p /\ flag_of p (rtcmem w') = true).
Proof.
  intros Hrun Hall.
  assert (Hnone : forall l, (forall o, In o l -> o_sent o = false) ->
                            reports l = O).
  { induction l as [|o l IHl]; intros Hl; [reflexivity|].
    unfold reports in *. cbn. rewrite (Hl o (or_introl eq_refl)).
    apply IHl. intros o' Hin. apply Hl. now right. }
  destruct n as [|n].
  - inversion Hrun; subst. split; [cbn; lia|]. split; [intros o []|lia].
  - apply run_cycles_cons in Hrun as (o1 & w1 & rest & Ho1 & Hr1 & ->).
    destruct (Hall o1 (or_introl eq_refl)) as [Hp1 Hd1].
    destruct (cycle_not_due env fuel w w1 o1 Ho1 Hd1) as (Hs1 & Hw1 & Hf1 & _).
    rewrite Hp1 in *.
    assert (Hrest : forall o, In o rest -> o_present o = p /\ o_due o = false)
      by (intros o Hin; apply Hall; now right).
    destruct (o_sent o1) eqn:Hsent1.
    + cbn in Hf1.
      destruct (quiet_run env fuel p n w1 rest w' Hw1 Hf1 Hr1 Hrest)
        as (Hq & Hw' & Hf' & _).
      split; [|split].
      * unfold reports. cbn [filter]. rewrite Hsent1. cbn [length].
        fold (reports rest). rewrite (Hnone rest Hq). lia.
      * intros o Hin. apply Hq.
        destruct rest as [|o2 rest']; [destruct Hin|]. cbn in Hin. now right.
      * intros _. split; assumption.
    + destruct n as [|n].
      * inversion Hr1; subst. split; [|split].
        -- unfold reports. cbn. rewrite Hsent1. cbn. lia.
        -- intros o [].
        -- lia.
      * apply run_cycles_cons in Hr1 as (o2 & w2 & rest2 & Ho2 & Hr2 & ->).
        destruct (Hrest o2 (or_introl eq_refl)) as [Hp2 Hd2].
        destruct (cycle_not_due env fuel w1 w2 o2 Ho2 Hd2)
          as (Hs2 & Hw2 & Hf2 & _).
        rewrite Hp2 in *.
        assert (Hf2' : flag_of p (rtcmem w2) = true).
        { rewrite Hf2, Hs2, Hw1, eqb_reflx.
          destruct (flag_of p (rtcmem w1)); reflexivity. }
        destruct (quiet_run env fuel p n w2 rest2 w' Hw2 Hf2' Hr2)
          as (Hq & Hw' & Hf' & _).
        { intros o Hin. apply Hrest. now right. }
        split; [|split].
        -- unfold reports. cbn [filter]. rewrite Hsent1.
           destruct (o_sent o2); cbn [length]; fold (reports rest2);
             rewrite (Hnone rest2 Hq); lia.
        -- intros o Hin. apply Hq. exact Hin.
        -- intros _. split; assumption.
Qed.

(** Four cycles with a parcel at 200 mm. *)
Lemma steady_presence_reported_once_witness :
  let env := demo_env ticking (fun _ => 200) true in
  let w := demo_world 60 (demo_rtc 3600000 false) in
  exists obs w',
    run_cycles env 10 4 w = Some (obs, w') /\ (reports obs <= 1)%nat.
Proof.
  intros env w.
  destruct (run_cycles env 10 4 w) as [[obs w']|] eqn:Hrun;
    [|vm_compute in Hrun; discriminate].
  exists obs, w'. split; [reflexivity|].
  refine (proj1 (steady_presence_reported_once env 10 4 true w w' obs Hrun _)).
  vm_compute in Hrun. inversion Hrun; subst obs.
  intros o Hin. cbn in Hin.
  destruct Hin as [<- | [<- | [<- | [<- | []]]]]; split; reflexivity.
Defined.

(** X8 ([sendOrNot], [loop]).  Once presence [p] has been reported, a run of
    cycles in which no two consecutive measurements differ from [p] sends
    nothing and changes neither report-sent flag. *)
Theorem isolated_glitches_never_reported (env : Env) (fuel : nat) (p : bool) :
  forall n prev w obs w',
    wasPresent (rtcmem w) = prev ->
    flag_of p (rtcmem w) = true ->
    run_cycles env fuel n w = Some (obs, w') ->
    (forall o, In o obs -> o_due o = false) ->
    isolated p prev (map o_present obs) = true ->
    (forall o, In o obs -> o_sent o = false) /\
    flag_of p (rtcmem w') = true /\
    flag_of (negb p) (rtcmem w') = flag_of (negb p) (rtcmem w).
Proof.
  induction n as [|n IH]; intros prev w obs w' Hw Hf Hrun Hdue Hiso.
  - inversion Hrun; subst. repeat split; auto. intros o [].
  - apply run_cycles_cons in Hrun as (o & w1 & rest & Ho & Hr & ->).
    pose proof (Hdue o (or_introl eq_refl)) as Hd.
    destruct (cycle_not_due env fuel w w1 o Ho Hd) as (Hs & Hw1 & Hf1 & Hn1).
    cbn [map isolated] in Hiso. apply andb_prop in Hiso as [Hnow Hlater].
    assert (Hsent : o_sent o = false).
    { rewrite Hs, Hw. clear Hs.
      destruct prev, p, (o_present o); cbn in *; try reflexivity;
        try discriminate; rewrite Hf; reflexivity. }
    assert (Hf1' : flag_of p (rtcmem w1) = true).
    { destruct (Bool.eqb_spec (o_present o) p) as [E | E].
      - rewrite <- E. rewrite Hf1, Hsent. rewrite E. rewrite Hf. reflexivity.
      - assert (E' : p = negb (o_present o))
          by (destruct p, (o_present o); cbn; congruence).
        rewrite E'. rewrite Hn1, Hsent. rewrite <- E'. rewrite Hf. reflexivity. }
    assert (Hother : flag_of (negb p) (rtcmem w1) = flag_of (negb p) (rtcmem w)).
    { destruct (Bool.eqb_spec (o_present o) p) as [E | E].
      - rewrite <- E. rewrite Hn1, Hsent. reflexivity.
      - assert (E' : negb p = o_present o)
          by (destruct p, (o_present o); cbn; congruence).
        rewrite E'. rewrite Hf1, Hsent. reflexivity. }
    destruct (IH (o_present o) w1 rest w' Hw1 Hf1' Hr) as (Hq & Hf' & Hn').
    { intros o' Hin. apply Hdue. now right. }
    { exact Hlater. }
    repeat split; auto; [|congruence].
    intros o' [<- | Hin]; auto.
Qed.

(** Parcel, one empty reading, parcel again. *)
Lemma isolated_glitches_never_reported_witness :
  let env := demo_env ticking
               (fun n => if (Nat.div n 5 =? 1)%nat then 500 else 200) true in
  let w := demo_world 60 (mkRtc 3600000 0 true true false (-99)) in
  exists obs w',
    run_cycles env 10 3 w = Some (obs, w') /\
    map o_present obs = [true; false; true] /\
    map o_sent obs = [false; false; false].
Proof.
  intros env w.
  destruct (run_cycles env 10 3 w) as [[obs w']|] eqn:Hrun;
    [|vm_compute in Hrun; discriminate].
  exists obs, w'. split; [reflexivity|].
  assert (Hobs : map o_present obs = [true; false; true]
                 /\ map o_due obs = [false; false; false])
    by (vm_compute in Hrun; inversion Hrun; split; reflexivity).
  destruct Hobs as [Hp Hd]. split; [exact Hp|].
  destruct (isolated_glitches_never_reported env 10 true 3 true w obs w'
              eq_refl eq_refl Hrun) as (Hs & _).
  - intros o Hin.
    destruct obs as [|o1 [|o2 [|o3 [|]]]]; try discriminate Hp.
    cbn in Hd. injection Hd as D1 D2 D3.
    destruct Hin as [<- | [<- | [<- | []]]]; assumption.
  - rewrite Hp. reflexivity.
  - destruct obs as [|o1 [|o2 [|o3 [|]]]]; try discriminate Hp.
    cbn. rewrite (Hs o1), (Hs o2), (Hs o3); cbn; auto.
Defined.

(** X9 ([sendOrNot], [loop]).  From a settled state, the first cycle that
    measures the opposite presence is silent and the second one reports it and
    leaves the state settled on the new presence. *)
Theorem confirmed_change_reported_once
        (env : Env) (fuel : nat) (p : bool) (w w' : World) (o1 o2 : Obs) :
  settled p (rtcmem w) ->
  run_cycles env fuel 2 w = Some ([o1; o2], w') ->
  o_present o1 = negb p -> o_present o2 = negb p ->
  o_due o1 = false -> o_due o2 = false ->
  o_sent o1 = false /\ o_sent o2 = true /\ settled (negb p) (rtcmem w').
Proof.
  intros (Hw & Hf & Hn) Hrun Hp1 Hp2 Hd1 Hd2.
  apply run_cycles_cons in Hrun as (o & w1 & rest & Ho1 & Hr & E).
  inversion E; subst o rest. clear E.
  apply run_cycles_cons in Hr as (o & w2 & rest & Ho2 & Hr & E).
  inversion E; subst o rest. clear E.
  inversion Hr; subst w2. clear Hr.
  destruct (cycle_not_due env fuel w w1 o1 Ho1 Hd1) as (Hs1 & Hw1 & Hf1 & Hn1).
  destruct (cycle_not_due env fuel w1 w' o2 Ho2 Hd2) as (Hs2 & Hw2 & Hf2 & Hn2).
  rewrite Hp1 in *. rewrite Hp2 in *. rewrite negb_involutive in *.
  rewrite Hw in Hs1.
  assert (E1 : o_sent o1 = false) by (rewrite Hs1; destruct p; reflexivity).
  rewrite E1 in *. cbn in Hf1, Hn1. rewrite Hn in Hf1. rewrite Hf in Hn1.
  rewrite Hw1, Hf1, eqb_reflx in Hs2. cbn in Hs2.
  rewrite Hs2 in *. cbn in Hf2, Hn2.
  split; [reflexivity|]. split; [reflexivity|].
  unfold settled. rewrite negb_involutive. auto.
Qed.

(** A parcel that has been taken out. *)
Lemma confirmed_change_reported_once_witness :
  let env := demo_env ticking (fun _ => 500) true in
  let w := demo_world 60 (mkRtc 3600000 0 true true false (-99)) in
  exists o1 o2 w',
    run_cycles env 10 2 w = Some ([o1; o2], w') /\
    o_sent o1 = false /\ o_sent o2 = true /\
    absentReported (rtcmem w') = true /\ presentReported (rtcmem w') = false.
Proof.
  intros env w.
  destruct (run_cycles env 10 2 w) as [[obs w']|] eqn:Hrun;
    [|vm_compute in Hrun; discriminate].
  assert (Hobs : map o_present obs = [false; false]
                 /\ map o_due obs = [false; false])
    by (vm_compute in Hrun; inversion Hrun; split; reflexivity).
  destruct Hobs as [Hp Hd].
  destruct obs as [|o1 [|o2 [|]]]; try discriminate Hp.
  cbn in Hp, Hd. injection Hp as P1 P2. injection Hd as D1 D2.
  exists o1, o2, w'. split; [reflexivity|].
  destruct (confirmed_change_reported_once env 10 true w w' o1 o2)
    as (H1 & H2 & _ & Hfa & Hfp);
    [repeat split; reflexivity | exact Hrun | assumption ..|].
  repeat split; assumption.
Defined.

(** A wake cycle that ends in deep sleep, cut where [sendOrNot] is entered:
    the world [w1] there and the world in which the processor sleeps. *)
Lemma observe_cycle_measured (env : Env) (fuel : nat) (w w' : World) (o : Obs) :
  observe_cycle env fuel w = Some (o, w') ->
  let raws := raw_samples env SAMPLE_COUNT (nrange w) in
  let d := dominant SAMPLE_COUNT (map voted_value raws) in
  exists w1 m,
    trace w1 = trace w ++ map EvRange raws /\
    settings w1 = settings w /\
    isPresent w1
    = (d >? mindistance (settings w)) && (d <? maxdistance (settings w)) /\
    distance w1 = d /\
    o = mkObs (isPresent w1) (heartbeatDue env w1)
              (negb (Nat.eqb (nsend (after_decision env w1)) (nsend w1))) /\
    w' = asleep env (set_nmillis m (after_decision env w1)).
Proof.
  unfold observe_cycle. rewrite initSettings_spec.
  destruct (maxdistance (settings (power_on w)) <=? 0); [discriminate|].
  destruct (settingsAreValid (woken (power_on w))); [|discriminate].
  destruct (setup_measure_cases env fuel (woken (power_on w)))
    as [[n Hn] | Hn]; rewrite Hn; [|discriminate].
  set (w1 := set_nvcc _ (measured env (set_nmillis n (woken (power_on w))))).
  intros H. exists w1.
  destruct (bind _ _ w1) as [| w2 |] eqn:Ht; try discriminate.
  apply cycle_tail_stopped in Ht as [_ [m Hm]]. subst w2.
  exists m. inversion H; subst o w'. clear H.
  repeat split; reflexivity.
Qed.

(** X4 ([setup], [measure], [sendOrNot], [loop]).  A wake cycle that ends in
    deep sleep reads the range sensor exactly [SAMPLE_COUNT] times, sends at
    most one message, to the configured target, carrying the voted distance
    and the presence derived from it, then writes RTC memory once and goes to
    sleep, in this order. *)
Theorem wake_cycle_effects (env : Env) (fuel : nat) (w w' : World) (o : Obs) :
  observe_cycle env fuel w = Some (o, w') ->
  let raws := raw_samples env SAMPLE_COUNT (nrange w) in
  let d := dominant SAMPLE_COUNT (map voted_value raws) in
  exists battery ok usecs,
    trace w'
    = trace w ++ map EvRange raws
        ++ (if o_sent o
            then [EvSend (loRaTargetAddress (settings w))
                         (mkReport d battery (o_present o)) ok]
            else [])
        ++ [EvSaveRTC (rtcmem w'); EvDeepSleep usecs] /\
    o_present o
    = (d >? mindistance (settings w)) && (d <? maxdistance (settings w)).
Proof.
  intros H raws d.
  destruct (observe_cycle_measured env fuel w w' o H)
    as (w1 & m & Ht1 & Hs1 & Hp1 & Hd1 & -> & ->).
  fold raws in Ht1. fold raws d in Hp1. fold raws d in Hd1.
  cbn [o_sent o_due o_present].
  change (trace (asleep env (set_nmillis m (after_decision env w1))))
    with (trace (after_decision env w1)
          ++ [EvSaveRTC (saved_rtc env (set_nmillis m (after_decision env w1)));
              EvDeepSleep
                (wrap32 (planned_sleep env
                           (set_nmillis m (after_decision env w1)) * 1000000))]).
  change (rtcmem (asleep env (set_nmillis m (after_decision env w1))))
    with (saved_rtc env (set_nmillis m (after_decision env w1))).
  unfold after_decision. destruct (decision env w1).
  - change (nsend (decided env w1)) with (S (nsend w1)).
    assert (Hneq : Nat.eqb (S (nsend w1)) (nsend w1) = false)
      by (apply Nat.eqb_neq; lia).
    rewrite Hneq. cbn [negb].
    change (trace (decided env w1)) with (trace w1 ++ [the_report env w1]).
    unfold the_report. rewrite Hs1, Ht1, Hd1.
    do 3 eexists. split; [|exact Hp1].
    rewrite <- !app_assoc. reflexivity.
  - rewrite Nat.eqb_refl. cbn [negb]. rewrite Ht1.
    exists 0, true. eexists. split; [|exact Hp1].
    rewrite <- !app_assoc. reflexivity.
Qed.

(** An empty box at first power-up: five readings, one report, save, sleep. *)
Lemma wake_cycle_effects_witness :
  let env := demo_env ticking (fun _ => 500) true in
  let w := demo_world 60 (demo_rtc 3600000 false) in
  exists o w', observe_cycle env 10 w = Some (o, w') /\
               length (trace w') = 8%nat.
Proof.
  intros env w.
  destruct (observe_cycle env 10 w) as [[o w']|] eqn:Hc;
    [|vm_compute in Hc; discriminate].
  exists o, w'. split; [reflexivity|].
  destruct (wake_cycle_effects env 10 w w' o Hc) as (b & ok & us & Ht & _).
  assert (Hs : o_sent o = true)
    by (vm_compute in Hc; inversion Hc; reflexivity).
  rewrite Ht, Hs. reflexivity.
Defined.

(** A raw reading is a [uint16_t]. *)
Lemma raw_samples_range (env : Env) :
  forall n start,
    Forall (fun x => 0 <= x < 65536) (raw_samples env n start).
Proof.
  induction n as [|n IH]; intros start; cbn [raw_samples]; constructor.
  - apply Z.mod_pos_bound. lia.
  - apply IH.
Qed.

(** Three failed readings out of five decide the vote. *)
Lemma failures_win (env : Env) (start : nat) :
  let raws := raw_samples env SAMPLE_COUNT start in
  (3 <= occurrences 0 raws)%nat ->
  dominant SAMPLE_COUNT (map voted_value raws) = -1.
Proof.
  intros raws H3.
  destruct (samples_plurality env start) as (Hlen & _ & Hmax & _).
  fold raws in Hlen, Hmax.
  set (vals := map voted_value raws) in *.
  set (r := dominant SAMPLE_COUNT vals) in *.
  assert (Hfail : occurrences (-1) vals = occurrences 0 raws)
    by (apply failures_counted, raw_samples_nonneg).
  destruct (Z.eq_dec r (-1)) as [E | Hne]; [exact E|]. exfalso.
  pose proof (occurrences_two r (-1) vals Hne) as H2.
  specialize (Hmax (-1)). rewrite Hlen in H2. unfold SAMPLE_COUNT in H2. lia.
Qed.

(** X5 ([measure], [getDistance]).  [measure] always returns, and what it
    returns is -1 or a distance between 1 and 65535 that the sensor delivered
    in this measurement; 0 is never returned, and -1 only when a reading was
    0. *)
Theorem measure_result_range (env : Env) (w : World) :
  let raws := raw_samples env SAMPLE_COUNT (nrange w) in
  exists r w',
    measure env w = Done r w' /\
    (r = -1 \/ 1 <= r <= 65535) /\
    (r = -1 -> In 0 raws) /\
    (r <> -1 -> In r raws).
Proof.
  intros raws.
  destruct (measure_result env w) as (w' & Hm & _). fold raws in Hm.
  do 2 eexists. split; [exact Hm|].
  destruct (samples_plurality env (nrange w)) as (_ & Hin & _).
  fold raws in Hin. apply in_map_iff in Hin as (raw & Hr & Hraw).
  pose proof (raw_samples_range env SAMPLE_COUNT (nrange w)) as Hrange.
  rewrite Forall_forall in Hrange. specialize (Hrange raw Hraw).
  rewrite <- Hr. unfold voted_value.
  destruct (Z.eqb_spec raw 0) as [-> | Hnz].
  - split; [now left|]. split; [intros _; exact Hraw | congruence].
  - split; [right; lia|]. split; [lia | intros _; exact Hraw].
Qed.

(** X6 ([measure], [loop], [setup]).  When three of the five readings fail
    and [mindistance] is not below -1, [measure] returns -1 and the box counts
    as empty, in a wake cycle as in continuous mode, where the report carries
    distance -1 and presence false. *)
Theorem failed_measurement_is_absent (env : Env) (fuel : nat) (w : World) :
  let raws := raw_samples env SAMPLE_COUNT (nrange w) in
  (3 <= occurrences 0 raws)%nat ->
  -1 <= mindistance (settings w) ->
  (exists w1, measure env w = Done (-1) w1) /\
  (forall o w', observe_cycle env fuel w = Some (o, w') ->
                o_present o = false) /\
  (settingsAreValid w = true ->
   sleeptime (settings w) = 0 ->
   returns_within env (nwake w) fuel 1000 (nmillis w) = true ->
   exists w',
     loop env fuel w = Done tt w' /\
     trace w'
     = trace w ++ map EvRange raws
         ++ [EvSend (loRaTargetAddress (settings w))
                    (mkReport (-1)
                       (convertToVoltage (wrap16 (vcc_at env (nvcc w))))
                       false)
                    (send_at env (nsend w))]).
Proof.
  intros raws H3 Hmin. unfold raws. split; [|split].
  - destruct (measure_result env w) as (w1 & Hm & _).
    rewrite (failures_win env (nrange w) H3) in Hm. now exists w1.
  - intros o w' Hc.
    destruct (observe_cycle_measured env fuel w w' o Hc)
      as (w1 & _ & _ & _ & Hp & _ & -> & _).
    cbn [o_present]. rewrite Hp, (failures_win env (nrange w) H3).
    destruct (Z.gtb_spec (-1) (mindistance (settings w))) as [Hgt | _];
      [lia | reflexivity].
  - intros Hv Hs Hret.
    destruct (returns_within_Done env fuel 1000 (reported env (measured env w)) Hret)
      as [n Hn].
    exists (set_nmillis n (reported env (measured env w))).
    split; [rewrite loop_continuous by assumption; exact Hn|].
    set (d := dominant SAMPLE_COUNT
                (map voted_value (raw_samples env SAMPLE_COUNT (nrange w)))).
    assert (Ht : trace (set_nmillis n (reported env (measured env w)))
                 = (trace w ++ map EvRange (raw_samples env SAMPLE_COUNT (nrange w)))
                     ++ [EvSend (loRaTargetAddress (settings w))
                           (mkReport d
                              (convertToVoltage (wrap16 (vcc_at env (nvcc w))))
                              ((d >? mindistance (settings w))
                               && (d <? maxdistance (settings w))))
                           (send_at env (nsend w))])
      by reflexivity.
    rewrite Ht. unfold d. rewrite (failures_win env (nrange w) H3).
    destruct (Z.gtb_spec (-1) (mindistance (settings w))) as [Hgt | _]; [lia|].
    cbn [andb]. rewrite <- app_assoc. reflexivity.
Qed.

(** A dead sensor in continuous mode. *)
Lemma failed_measurement_is_absent_witness :
  let env := demo_env ticking (fun _ => 0) true in
  let w := demo_world 0 (demo_rtc 3600000 false) in
  exists w',
    loop env 10 w = Done tt w' /\
    last (trace w') EvRestart = EvSend 1 (mkReport (-1) 335 false) true.
Proof.
  intros env w.
  destruct (failed_measurement_is_absent env 10%nat w) as (_ & _ & H);
    [vm_compute; lia | discriminate |].
  destruct H as (w' & Hl & Ht); [reflexivity | reflexivity | reflexivity |].
  exists w'. split; [exact Hl|]. rewrite Ht. reflexivity.
Defined.

(** Without valid settings [loop] never stops the processor. *)
Lemma loop_forever_unconfigured (env : Env) (fuel : nat) (w : World) :
  settingsAreValid w = false ->
  forall rounds, loop_forever env fuel rounds w = Timeout.
Proof.
  intros Hv. induction rounds as [|k IH]; [reflexivity|].
  cbn [loop_forever]. unfold bind. rewrite loop_spec, Hv. cbn [andb].
  exact IH.
Qed.

(** X10 ([loadSettings], [setup], [loop]).  With a configuration whose
    validity flag is wrong (and [maxdistance] positive) [setup] touches no
    hardware: no reading, no message, RTC memory as it was; [loop] then does
    nothing, so the device never sleeps. *)
Theorem unconfigured_device_idles (env : Env) (fuel : nat) (w : World) :
  validConfig (settings w) <> VALID_SETTINGS_FLAG ->
  0 < maxdistance (settings w) ->
  let w1 := woken (power_on w) in
  setup env fuel (power_on w) = Done tt w1 /\
  settingsAreValid w1 = false /\
  trace w1 = trace w /\
  nrange w1 = nrange w /\
  nsend w1 = nsend w /\
  rtcmem w1 = rtcmem w /\
  loop env fuel w1 = Done tt w1 /\
  wake_cycle env fuel w = Timeout.
Proof.
  intros Hflag Hmax w1.
  assert (Hv : settingsAreValid w1 = false).
  { unfold w1, woken. cbn. apply Z.eqb_neq. exact Hflag. }
  assert (Hsetup : setup env fuel (power_on w) = Done tt w1).
  { unfold setup, bind. rewrite initSettings_spec.
    change (maxdistance (settings (power_on w))) with (maxdistance (settings w)).
    destruct (Z.leb_spec (maxdistance (settings w)) 0) as [Hle | _]; [lia|].
    cbv [gets]. fold w1. rewrite Hv. reflexivity. }
  split; [exact Hsetup|]. split; [exact Hv|].
  repeat (split; [reflexivity|]).
  split.
  - rewrite loop_spec, Hv. reflexivity.
  - unfold wake_cycle, arduino_main, bind. rewrite Hsetup.
    apply loop_forever_unconfigured. exact Hv.
Qed.

(** A configuration with validity flag 0. *)
Lemma unconfigured_device_idles_witness :
  let env := demo_env ticking box_sensor true in
  let w := set_settings (set_validConfig 0 (demo_conf 60))
             (demo_world 60 (demo_rtc 0 false)) in
  wake_cycle env 10 w = Timeout.
Proof.
  intros env w.
  apply (unconfigured_device_idles env 10%nat w); [discriminate | reflexivity].
Defined.

(** X11 ([initSettings], [initializeSettings], [saveSettings]).  With
    [maxdistance <= 0] in EEPROM the device writes the factory defaults, marked
    valid, and restarts before anything else happens; the next start finds
    them valid and does not restart again. *)
Theorem first_powerup_resets_once (env : Env) (fuel : nat) (w : World) :
  maxdistance (settings w) <= 0 ->
  exists w1 w2,
    wake_cycle env fuel w = Stopped w1 /\
    trace w1 = trace w ++ [EvRestart] /\
    settings w1
    = set_validConfig VALID_SETTINGS_FLAG (initializeSettings (settings w)) /\
    rtcmem w1 = rtcmem w /\
    initSettings (power_on w1) = Done tt w2 /\
    settingsAreValid w2 = true /\
    settings w2 = settings w1 /\
    sleeptime (settings w2) = 0 /\
    mindistance (settings w2) = 0 /\
    maxdistance (settings w2) = 400.
Proof.
  intros Hmax.
  do 2 eexists. split.
  - unfold wake_cycle, arduino_main, setup, bind. rewrite initSettings_spec.
    change (maxdistance (settings (power_on w))) with (maxdistance (settings w)).
    destruct (Z.leb_spec (maxdistance (settings w)) 0) as [_ | Hgt]; [|lia].
    reflexivity.
  - split; [reflexivity|]. split; [reflexivity|]. split; [reflexivity|].
    split; [rewrite initSettings_spec; reflexivity|].
    repeat split.
Qed.

(** An EEPROM of zeros. *)
Lemma first_powerup_resets_once_witness :
  let env := demo_env ticking box_sensor true in
  let w := set_settings (mkConf 0 0 0 0 false false false 0 0 0 0 0 0 0 0 0 0)
             (demo_world 60 (demo_rtc 0 false)) in
  exists w1, wake_cycle env 10 w = Stopped w1 /\
             maxdistance (settings w1) = 400.
Proof.
  intros env w.
  destruct (first_powerup_resets_once env 10%nat w)
    as (w1 & w2 & Hc & _ & Hs & _); [discriminate|].
  exists w1. split; [exact Hc|]. rewrite Hs. reflexivity.
Defined.

(** X12 ([loop]).  With a sleep interval of 1 to 4294 seconds the sleep
    branch saves the clock and passes [secs * 1000000] microseconds to
    [ESP.deepSleep], where [secs] is the smaller of the interval and the whole
    seconds up to the heartbeat deadline: [secs] is at most the interval, the
    product does not wrap, and when the deadline lies ahead the duration asked
    for does not reach beyond it and is zero when the deadline is less than a
    second away.  (When the device wakes is up to [ESP.deepSleep].) *)
Theorem sleep_is_bounded (env : Env) (fuel : nat) (w : World) :
  settingsAreValid w = true ->
  0 < sleeptime (settings w) <= 4294 ->
  since_report env w > PUBLISH_DELAY ->
  let next := nextHealthReportTime (myRtc w) in
  let now := logical env w 1 (rtc (myRtc w)) in
  let secs := Z.min (sleeptime (settings w)) (wrap32 (next - now) / 1000) in
  exists w',
    loop env fuel w = Stopped w' /\
    trace w' = trace w ++ [EvSaveRTC (rtcmem w');
                           EvDeepSleep (secs * 1000000)] /\
    0 <= secs <= sleeptime (settings w) /\
    secs * 1000000 < 2 ^ 32 /\
    (now <= next < 2 ^ 32 ->
     secs * 1000 <= next - now /\ (next - now < 1000 -> secs = 0)).
Proof.
  intros Hv Hst Hd next now secs.
  exists (asleep env (set_nmillis (S (nmillis w)) w)).
  assert (Hnow : 0 <= now < 2 ^ 32) by (apply Z.mod_pos_bound; lia).
  assert (Hw : wrap32 (sleeptime (settings w)) = sleeptime (settings w))
    by (apply Z.mod_small; lia).
  assert (Hq : 0 <= wrap32 (next - now) / 1000).
  { apply Z.div_pos; [|lia]. apply Z.mod_pos_bound. lia. }
  assert (Hsecs : 0 <= secs <= sleeptime (settings w)) by (unfold secs; lia).
  split; [apply loop_sleeps; [assumption | lia | assumption]|].
  split; [|split; [exact Hsecs | split; [lia|]]].
  - assert (Hps : planned_sleep env (set_nmillis (S (nmillis w)) w) = secs).
    { unfold planned_sleep.
      change (sleeptime (settings (set_nmillis (S (nmillis w)) w)))
        with (sleeptime (settings w)).
      rewrite Hw. reflexivity. }
    unfold asleep. cbn [trace rtcmem]. rewrite Hps.
    assert (Hm : wrap32 (secs * 1000000) = secs * 1000000)
      by (apply Z.mod_small; lia).
    rewrite Hm. reflexivity.
  - intros Hnext.
    assert (Ew : wrap32 (next - now) = next - now)
      by (apply Z.mod_small; lia).
    unfold secs. rewrite Ew. split.
    + pose proof (Z.mul_div_le (next - now) 1000 ltac:(lia)). lia.
    + intros Hlt. rewrite (Z.div_small (next - now) 1000) by lia. lia.
Qed.

(** A deadline 200 s ahead with a sleep interval of 300 s. *)
Lemma sleep_is_bounded_witness :
  let env := demo_env (steady 10000) box_sensor true in
  let w := demo_world 300 (demo_rtc 210000 false) in
  exists w',
    loop env 1 w = Stopped w' /\
    trace w' = [EvSaveRTC (rtcmem w'); EvDeepSleep 200000000].
Proof.
  intros env w.
  destruct (sleep_is_bounded env 1%nat w) as (w' & Hl & Ht & _);
    [reflexivity | split; [reflexivity | discriminate] | reflexivity |].
  exists w'. split; [exact Hl | exact Ht].
Defined.

(** Facts about strings. *)
Lemma append_empty_r (s : String.string) :
  String.append s String.EmptyString = s.
Proof. induction s as [|c s IH]; cbn; [reflexivity | now rewrite IH]. Qed.

Lemma append_snoc (a b : String.string) (c : Ascii.ascii) :
  String.append (String.append a (String.String c String.EmptyString)) b
  = String.append a (String.String c b).
Proof. induction a as [|x a IH]; cbn; [reflexivity | now rewrite IH]. Qed.

(** [incomingData] in closed form. *)
Lemma incomingData_spec (burst : list Ascii.ascii) (c : Console) :
  incomingData burst c
  = mkConsole
      (String.append (commandString c)
         (String.string_of_list_ascii
            (filter (fun x => negb (is_newline x)) burst)))
      (commandComplete c || existsb is_newline burst).
Proof.
  revert c. induction burst as [|ch rest IH]; intros [s b].
  - cbn. now rewrite append_empty_r, orb_false_r.
  - cbn [incomingData filter existsb].
    change (is_newline ch) with (Ascii.eqb ch "010"%char).
    destruct (Ascii.eqb ch "010"%char); rewrite IH;
      cbn [negb commandString commandComplete orb].
    + now destruct b.
    + cbn [String.string_of_list_ascii]. now rewrite append_snoc.
Qed.

(** Two bursts are one burst. *)
Lemma incomingData_app (b1 b2 : list Ascii.ascii) (c : Console) :
  incomingData (b1 ++ b2) c = incomingData b2 (incomingData b1 c).
Proof.
  revert c. induction b1 as [|x b1 IH]; intros c; [reflexivity|].
  cbn [app incomingData]. apply IH.
Qed.

Lemma filter_no_newline (l : list Ascii.ascii) :
  existsb is_newline l = false ->
  filter (fun x => negb (is_newline x)) l = l.
Proof.
  induction l as [|x l IH]; cbn; [reflexivity|].
  intros H. apply orb_false_elim in H as [Hx Hl].
  rewrite Hx. cbn. now rewrite IH.
Qed.

(** Facts about [strtok]. *)
Lemma skip_delims_head (d c : Ascii.ascii) (r : String.string) :
  Ascii.eqb c d = false ->
  skip_delims d (String.String c r) = String.String c r.
Proof. intros H. cbn. now rewrite H. Qed.

Lemma take_token_plain (d : Ascii.ascii) (s : String.string) :
  mentions d s = false -> take_token d s = (s, None).
Proof.
  induction s as [|c s IH]; cbn; [reflexivity|].
  intros H. apply orb_false_elim in H as [Hc Hs].
  rewrite Hc, (IH Hs). reflexivity.
Qed.

Lemma take_token_app (d : Ascii.ascii) (a r : String.string) :
  mentions d a = false ->
  take_token d (String.append a (String.String d r)) = (a, Some r).
Proof.
  induction a as [|c a IH]; cbn.
  - now rewrite Ascii.eqb_refl.
  - intros H. apply orb_false_elim in H as [Hc Hs].
    rewrite Hc, (IH Hs). reflexivity.
Qed.

Lemma strtok_plain (d : Ascii.ascii) (a : String.string) :
  a <> String.EmptyString -> mentions d a = false ->
  strtok d (Some a) = (Some a, None).
Proof.
  intros Ha Hm. destruct a as [|c a]; [contradiction|].
  pose proof Hm as Hm'. cbn in Hm'. apply orb_false_elim in Hm' as [Hc _].
  unfold strtok. rewrite (skip_delims_head _ _ _ Hc).
  rewrite (take_token_plain _ _ Hm). reflexivity.
Qed.

Lemma strtok_app (d : Ascii.ascii) (a r : String.string) :
  a <> String.EmptyString -> mentions d a = false ->
  strtok d (Some (String.append a (String.String d r))) = (Some a, Some r).
Proof.
  intros Ha Hm. destruct a as [|c a]; [contradiction|].
  pose proof Hm as Hm'. cbn in Hm'. apply orb_false_elim in Hm' as [Hc _].
  unfold strtok. cbn [String.append]. rewrite (skip_delims_head _ _ _ Hc).
  change (String.String c (String.append a (String.String d r)))
    with (String.append (String.String c a) (String.String d r)).
  rewrite (take_token_app _ _ _ Hm). reflexivity.
Qed.

Lemma skip_delims_plain (d : Ascii.ascii) (s : String.string) :
  skip_delims d (String.String d s) = skip_delims d s.
Proof. cbn. now rewrite Ascii.eqb_refl. Qed.

Lemma strtok_lead (d : Ascii.ascii) (s : String.string) :
  strtok d (Some (String.String d s)) = strtok d (Some s).
Proof. unfold strtok. now rewrite skip_delims_plain. Qed.

(** What the two boolean conditions say. *)
Lemma wellformed_name_inv (name : String.string) :
  wellformed_name name = true ->
  name <> String.EmptyString /\ mentions "="%char name = false.
Proof.
  unfold wellformed_name. intros H. apply andb_prop in H as [H1 H2].
  split.
  - intros ->. discriminate.
  - now destruct (mentions "="%char name).
Qed.

Lemma strip_cr_nonempty (val : String.string) :
  strip_cr val <> String.EmptyString -> val <> String.EmptyString.
Proof. intros H ->. now apply H. Qed.

Lemma usable_inv (val : String.string) :
  usable val = true ->
  val <> String.EmptyString /\ mentions "="%char val = false /\
  strip_cr val <> String.EmptyString /\ strip_cr val <> "NULL"%string.
Proof.
  unfold usable. intros H. apply andb_prop in H as [H H3].
  apply andb_prop in H as [H1 H2].
  assert (Hs : strip_cr val <> String.EmptyString).
  { intros E. rewrite E in H2. discriminate. }
  split; [now apply strip_cr_nonempty|]. split; [now destruct (mentions _ val)|].
  split; [exact Hs|].
  intros E. rewrite E in H3. discriminate.
Qed.

(** The tokens of [name=val] and of [name=val=rest]. *)
Lemma command_tokens_pair (name val : String.string) :
  wellformed_name name = true ->
  val <> String.EmptyString -> mentions "="%char val = false ->
  command_tokens (assignment name val) = (Some name, Some (strip_cr val)).
Proof.
  intros Hn Hv Hm. apply wellformed_name_inv in Hn as [Hn1 Hn2].
  unfold command_tokens, assignment.
  rewrite (strtok_app _ _ _ Hn1 Hn2), (strtok_plain _ _ Hv Hm). reflexivity.
Qed.

Lemma command_tokens_more (name val rest : String.string) :
  wellformed_name name = true ->
  val <> String.EmptyString -> mentions "="%char val = false ->
  command_tokens (assignment name (assignment val rest))
  = (Some name, Some (strip_cr val)).
Proof.
  intros Hn Hv Hm. apply wellformed_name_inv in Hn as [Hn1 Hn2].
  unfold command_tokens, assignment.
  rewrite (strtok_app _ _ _ Hn1 Hn2), (strtok_app _ _ _ Hv Hm). reflexivity.
Qed.

(** A carriage return at the end is cut off. *)
Lemma strip_cr_snoc (val : String.string) :
  strip_cr (String.append val (String.String "013"%char String.EmptyString))
  = val.
Proof.
  induction val as [|c val IH]; [reflexivity|].
  cbn [String.append]. 
  destruct val as [|c' val'].
  - reflexivity.
  - change (strip_cr (String.String c (String.append (String.String c' val')
              (String.String "013"%char String.EmptyString))))
      with (String.String c (strip_cr (String.append (String.String c' val')
              (String.String "013"%char String.EmptyString)))).
    now rewrite IH.
Qed.

Lemma mentions_app (d : Ascii.ascii) (a b : String.string) :
  mentions d (String.append a b) = mentions d a || mentions d b.
Proof.
  induction a as [|c a IH]; cbn; [reflexivity|].
  now rewrite IH, orb_assoc.
Qed.

Lemma length_nonempty (s : String.string) :
  s <> String.EmptyString -> (String.length s =? 0)%nat = false.
Proof. destruct s; [contradiction | reflexivity]. Qed.

(** [processCommand] sees a line only through its two tokens. *)
Lemma processCommand_congr (atoi : String.string -> Z) (a b : String.string) :
  command_tokens a = command_tokens b ->
  processCommand atoi a = processCommand atoi b.
Proof. intros H. unfold processCommand. now rewrite H. Qed.

(** A line without second token is rejected. *)
Lemma processCommand_no_value (atoi : String.string -> Z)
      (cmd : String.string) (nme : option String.string) :
  command_tokens cmd = (nme, None) -> processCommand atoi cmd = ret false.
Proof.
  intros H. unfold processCommand. rewrite H. now destruct nme.
Qed.

(** X13 ([incomingData], [getConfigCommand]).  After a burst the buffer holds
    what it held plus the characters of the burst that are not newlines (those
    behind a newline included), and the line is complete if it was or the
    burst had a newline; bursts concatenate; a line is handed over once. *)
Theorem console_line_assembly (burst : list Ascii.ascii) (c : Console) :
  let c1 := incomingData burst c in
  commandString c1
  = String.append (commandString c)
      (String.string_of_list_ascii
         (filter (fun x => negb (is_newline x)) burst)) /\
  commandComplete c1 = commandComplete c || existsb is_newline burst /\
  (forall more, incomingData more c1 = incomingData (burst ++ more) c) /\
  getConfigCommand (snd (getConfigCommand c1))
  = (String.EmptyString, snd (getConfigCommand c1)).
Proof.
  intros c1. unfold c1. rewrite incomingData_spec. cbn [commandString commandComplete].
  split; [reflexivity|]. split; [reflexivity|]. split.
  - intros more. rewrite <- incomingData_spec. symmetry. apply incomingData_app.
  - unfold getConfigCommand. cbn [commandComplete commandString].
    destruct (commandComplete c || existsb is_newline burst); reflexivity.
Qed.

(** A string with a first character is not empty. *)
Lemma cons_nonempty (c : Ascii.ascii) (s : String.string) :
  String.String c s <> String.EmptyString.
Proof. discriminate. Qed.

(** Lines that yield no value. *)
Lemma command_tokens_single (s : String.string) :
  mentions "="%char s = false ->
  exists nme, command_tokens s = (nme, None).
Proof.
  intros Hm. destruct s as [|c s].
  - exists None. reflexivity.
  - exists (Some (String.String c s)). unfold command_tokens.
    rewrite (strtok_plain _ _ (cons_nonempty c s) Hm). reflexivity.
Qed.

Lemma command_tokens_open (s : String.string) :
  mentions "="%char s = false ->
  exists nme,
    command_tokens (String.append s (String.String "="%char String.EmptyString))
    = (nme, None).
Proof.
  intros Hm. destruct s as [|c s].
  - exists None. reflexivity.
  - exists (Some (String.String c s)). unfold command_tokens.
    rewrite (strtok_app _ _ _ (cons_nonempty c s) Hm). reflexivity.
Qed.

Lemma command_tokens_lead (s : String.string) :
  command_tokens (String.String "="%char s) = command_tokens s.
Proof. unfold command_tokens. now rewrite strtok_lead. Qed.

(** X15 ([processCommand]).  A line without [=], with nothing behind the [=]
    or with nothing in front of it is rejected and changes nothing. *)
Theorem command_without_value_rejected (atoi : String.string -> Z)
        (s : String.string) (w : World) :
  mentions "="%char s = false ->
  processCommand atoi s w = Done false w /\
  processCommand atoi
    (String.append s (String.String "="%char String.EmptyString)) w
  = Done false w /\
  processCommand atoi (String.String "="%char s) w = Done false w.
Proof.
  intros Hm.
  destruct (command_tokens_single s Hm) as [n1 H1].
  destruct (command_tokens_open s Hm) as [n2 H2].
  split; [|split].
  - now rewrite (processCommand_no_value atoi s n1 H1).
  - now rewrite (processCommand_no_value atoi _ n2 H2).
  - rewrite (processCommand_congr atoi _ s (command_tokens_lead s)).
    now rewrite (processCommand_no_value atoi s n1 H1).
Qed.

(** [sleeptime] and [sleeptime=]. *)
Lemma command_without_value_rejected_witness :
  let w := demo_world 60 (demo_rtc 0 false) in
  processCommand decimal "sleeptime"%string w = Done false w /\
  processCommand decimal "sleeptime="%string w = Done false w.
Proof.
  intros w.
  destruct (command_without_value_rejected decimal "sleeptime"%string w)
    as (H1 & H2 & _); [reflexivity|].
  split; [exact H1 | exact H2].
Defined.

(** X16 ([processCommand]).  The value [NULL] is accepted for every name, known
    or not, and changes nothing. *)
Theorem NULL_value_changes_nothing (atoi : String.string -> Z)
        (name : String.string) (w : World) :
  wellformed_name name = true ->
  processCommand atoi (assignment name "NULL"%string) w = Done true w.
Proof.
  intros Hn. unfold processCommand.
  rewrite (command_tokens_pair name "NULL"%string Hn (cons_nonempty _ _) eq_refl).
  apply wellformed_name_inv in Hn as [Hn _].
  rewrite (length_nonempty _ Hn). reflexivity.
Qed.

(** [maxdistance=NULL]. *)
Lemma NULL_value_changes_nothing_witness :
  let w := demo_world 60 (demo_rtc 0 false) in
  processCommand decimal "maxdistance=NULL"%string w = Done true w.
Proof.
  intros w. apply (NULL_value_changes_nothing decimal "maxdistance"%string w).
  reflexivity.
Defined.

(** X17 ([processCommand], [saveSettings]).  Each of the sixteen setting
    commands stores [atoi] of the value (without a final carriage return),
    narrowed to the type of its field, in that field alone, marks the
    configuration valid and is accepted. *)
Theorem setting_commands_store (atoi : String.string -> Z)
        (val : String.string) (w : World) :
  usable val = true ->
  let v := atoi (strip_cr val) in
  let run name := processCommand atoi (assignment name val) w in
  run "mindistance"%string = Done true (saved (set_mindistance v) w) /\
  run "maxdistance"%string = Done true (saved (set_maxdistance v) w) /\
  run "sleeptime"%string = Done true (saved (set_sleeptime v) w) /\
  run "loRaTargetAddress"%string
  = Done true (saved (set_loRaTargetAddress (v mod 2 ^ 16)) w) /\
  run "loRaAddress"%string = Done true (saved (set_loRaAddress v) w) /\
  run "loRaBand"%string = Done true (saved (set_loRaBand (v mod 2 ^ 32)) w) /\
  run "loRaBandwidth"%string
  = Done true (saved (set_loRaBandwidth (v mod 256)) w) /\
  run "loRaCodingRate"%string
  = Done true (saved (set_loRaCodingRate (v mod 256)) w) /\
  run "loRaNetworkID"%string = Done true (saved (set_loRaNetworkID v) w) /\
  run "loRaSpreadingFactor"%string
  = Done true (saved (set_loRaSpreadingFactor (v mod 256)) w) /\
  run "loRaPreamble"%string
  = Done true (saved (set_loRaPreamble (v mod 256)) w) /\
  run "loRaBaudRate"%string
  = Done true (saved (set_loRaBaudRate (v mod 2 ^ 32)) w) /\
  run "loRaPower"%string = Done true (saved (set_loRaPower (v mod 256)) w) /\
  run "debug"%string = Done true (saved (set_debug (v =? 1)) w) /\
  run "displayenabled"%string
  = Done true (saved (set_displayenabled (v =? 1)) w) /\
  run "invertdisplay"%string
  = Done true (saved (set_invertdisplay (v =? 1)) w).
Proof.
  intros Hu v run. apply usable_inv in Hu as (Hv & Hm & Hs & Hnull).
  unfold run, v.
  repeat split;
    match goal with
    | |- processCommand _ (assignment ?n _) _ = _ =>
        unfold processCommand;
        rewrite (command_tokens_pair n _ eq_refl Hv Hm);
        rewrite (length_nonempty _ Hs);
        rewrite (proj2 (String.eqb_neq _ _) Hnull);
        reflexivity
    end.
Qed.

(** [sleeptime=300], and [loRaPower=300], which stores 44. *)
Lemma setting_commands_store_witness :
  let w := demo_world 60 (demo_rtc 0 false) in
  processCommand decimal "sleeptime=300"%string w
  = Done true (saved (set_sleeptime 300) w) /\
  processCommand decimal "loRaPower=300"%string w
  = Done true (saved (set_loRaPower 44) w).
Proof.
  intros w.
  destruct (setting_commands_store decimal "300"%string w eq_refl)
    as (_ & _ & H3 & _ & _ & _ & _ & _ & _ & _ & _ & _ & H13 & _).
  split; [exact H3 | exact H13].
Defined.

(** The four ways [processCommand] can end. *)
Lemma processCommand_cases (atoi : String.string -> Z) (cmd : String.string)
      (w : World) :
  processCommand atoi cmd w = Done false w \/
  processCommand atoi cmd w = Done true w \/
  (exists f, processCommand atoi cmd w = Done true (saved f w)) \/
  (command_tokens cmd = (Some "factorydefaults"%string, Some "yes"%string) /\
   processCommand atoi cmd w
   = Stopped (emit EvRestart (saved initializeSettings w))).
Proof.
  unfold processCommand.
  destruct (command_tokens cmd) as [[nme|] [val|]];
    try (left; reflexivity).
  destruct ((String.length nme =? 0)%nat || (String.length val =? 0)%nat);
    [left; reflexivity|].
  destruct (String.eqb val "NULL"%string); [right; left; reflexivity|].
  destruct (String.eqb_spec nme "factorydefaults"%string) as [En | En];
    destruct (String.eqb_spec val "yes"%string) as [Ev | Ev];
    cbn [andb];
    try (subst nme val; right; right; right; split; reflexivity);
    split_chain;
    first [ left; reflexivity
          | right; right; left; eexists; reflexivity ].
Qed.

(** X20 ([processCommand]).  Whatever the line: a rejected command changes
    nothing; an accepted one changes nothing or only the settings, which are
    then marked valid; the only other end is the restart after a factory
    reset.  Sensor, modem, clock and RTC memory are never touched. *)
Theorem processCommand_outcome (atoi : String.string -> Z)
        (cmd : String.string) (w : World) :
  match processCommand atoi cmd w with
  | Done false w' => w' = w
  | Done true w' => w' = w \/ exists f, w' = saved f w
  | Stopped w' => w' = emit EvRestart (saved initializeSettings w)
  | Timeout => False
  end.
Proof.
  destruct (processCommand_cases atoi cmd w)
    as [H | [H | [[f H] | [_ H]]]]; rewrite H.
  - reflexivity.
  - now left.
  - right. now exists f.
  - reflexivity.
Qed.

(** X21 ([processCommand], [initializeSettings]).  [processCommand] stops
    the processor exactly when the tokens are [factorydefaults] and [yes], and
    the world it stops in is the one with the defaults written, marked valid,
    and the restart as last event: [debug] and RTC memory are as before, and
    the next start loads these settings as valid. *)
Theorem restart_only_on_factory_reset (atoi : String.string -> Z)
        (cmd : String.string) (w : World) :
  (forall w',
      processCommand atoi cmd w = Stopped w' <->
      command_tokens cmd = (Some "factorydefaults"%string, Some "yes"%string)
      /\ w' = emit EvRestart (saved initializeSettings w)) /\
  (forall w',
      processCommand atoi cmd w = Stopped w' ->
      settings w'
      = set_validConfig VALID_SETTINGS_FLAG (initializeSettings (settings w)) /\
      debug (settings w') = debug (settings w) /\
      trace w' = trace w ++ [EvRestart] /\
      rtcmem w' = rtcmem w /\
      exists w2, initSettings (power_on w') = Done tt w2 /\
                 settingsAreValid w2 = true /\ settings w2 = settings w').
Proof.
  assert (Hiff : forall w',
             processCommand atoi cmd w = Stopped w' <->
             command_tokens cmd
             = (Some "factorydefaults"%string, Some "yes"%string)
             /\ w' = emit EvRestart (saved initializeSettings w)).
  { intros w'. split.
    - intros H.
      destruct (processCommand_cases atoi cmd w)
        as [E | [E | [[f E] | [T E]]]];
        try (rewrite E in H; discriminate).
      rewrite E in H. inversion H. split; [exact T | reflexivity].
    - intros [T ->]. unfold processCommand. rewrite T. reflexivity. }
  split; [exact Hiff|].
  intros w' H. apply Hiff in H as [_ ->].
  repeat (split; [reflexivity|]).
  eexists. split; [rewrite initSettings_spec; reflexivity|].
  split; reflexivity.
Qed.

(** [factorydefaults=yes]. *)
Lemma restart_only_on_factory_reset_witness :
  let w := demo_world 60 (demo_rtc 0 false) in
  exists w',
    processCommand decimal "factorydefaults=yes"%string w = Stopped w' /\
    maxdistance (settings w') = 400 /\
    validConfig (settings w') = VALID_SETTINGS_FLAG /\
    trace w' = [EvRestart].
Proof.
  intros w.
  destruct (restart_only_on_factory_reset decimal "factorydefaults=yes"%string w)
    as [Hiff Hworld].
  exists (emit EvRestart (saved initializeSettings w)).
  assert (Hs : processCommand decimal "factorydefaults=yes"%string w
               = Stopped (emit EvRestart (saved initializeSettings w)))
    by (apply Hiff; split; reflexivity).
  split; [exact Hs|].
  destruct (Hworld _ Hs) as (Hset & _ & Ht & _).
  rewrite Hset, Ht. repeat split.
Defined.

(** X18 ([processCommand]).  A name that is no setting is rejected and changes
    nothing; [factorydefaults] with a value other than [yes] is such a name. *)
Theorem unknown_command_rejected (atoi : String.string -> Z)
        (name val : String.string) (w : World) :
  wellformed_name name = true ->
  usable val = true ->
  ~ In name setting_names ->
  (name = "factorydefaults"%string -> strip_cr val <> "yes"%string) ->
  processCommand atoi (assignment name val) w = Done false w.
Proof.
  intros Hn Hu Hnot Hfd.
  apply usable_inv in Hu as (Hv & Hm & Hs & Hnull).
  unfold processCommand. rewrite (command_tokens_pair _ _ Hn Hv Hm).
  apply wellformed_name_inv in Hn as [Hn _].
  rewrite (length_nonempty _ Hn), (length_nonempty _ Hs).
  rewrite (proj2 (String.eqb_neq _ _) Hnull).
  assert (Hk : forall s, In s setting_names -> String.eqb name s = false).
  { intros s Hin. apply String.eqb_neq. intros ->. contradiction. }
  assert (Hy : String.eqb name "factorydefaults"%string
               && String.eqb (strip_cr val) "yes"%string = false).
  { destruct (String.eqb_spec name "factorydefaults"%string) as [E|_];
      [|reflexivity].
    apply Hfd in E. apply String.eqb_neq in E. now rewrite E. }
  rewrite Hy.
  rewrite !Hk by (cbn; tauto).
  reflexivity.
Qed.

(** [factorydefaults=no]. *)
Lemma unknown_command_rejected_witness :
  let w := demo_world 60 (demo_rtc 0 false) in
  processCommand decimal "factorydefaults=no"%string w = Done false w.
Proof.
  intros w.
  apply (unknown_command_rejected decimal "factorydefaults"%string
           "no"%string w).
  - reflexivity.
  - reflexivity.
  - cbn. intuition discriminate.
  - intros _. discriminate.
Defined.

(** X19 ([processCommand]).  A carriage return at the end of the line, and
    everything from a second [=] on, make no difference. *)
Theorem line_endings_ignored (atoi : String.string -> Z)
        (name val rest : String.string) :
  wellformed_name name = true ->
  val <> String.EmptyString ->
  mentions "="%char val = false ->
  strip_cr val = val ->
  processCommand atoi
    (assignment name
       (String.append val (String.String "013"%char String.EmptyString)))
  = processCommand atoi (assignment name val) /\
  processCommand atoi (assignment name (assignment val rest))
  = processCommand atoi (assignment name val).
Proof.
  intros Hn Hv Hm Hs. split; apply processCommand_congr.
  - rewrite (command_tokens_pair _ _ Hn Hv Hm).
    rewrite command_tokens_pair; [|exact Hn| |].
    + now rewrite strip_cr_snoc, Hs.
    + destruct val; [contradiction | discriminate].
    + rewrite mentions_app, Hm. reflexivity.
  - rewrite (command_tokens_pair _ _ Hn Hv Hm).
    apply command_tokens_more; assumption.
Qed.

(** [sleeptime=300] followed by a carriage return. *)
Lemma line_endings_ignored_witness :
  let w := demo_world 60 (demo_rtc 0 false) in
  processCommand decimal
    (assignment "sleeptime"%string
       (String.append "300"%string (String.String "013"%char String.EmptyString))) w
  = Done true (saved (set_sleeptime 300) w).
Proof.
  intros w.
  destruct (line_endings_ignored decimal "sleeptime"%string "300"%string
              String.EmptyString) as [H _];
    [reflexivity | discriminate | reflexivity | reflexivity |].
  rewrite H. reflexivity.
Defined.

(** [checkForCommand] with input available. *)
Lemma checkForCommand_serial_busy (atoi : String.string -> Z)
      (burst : list Ascii.ascii) (c : Console) :
  burst <> [] ->
  checkForCommand_serial atoi burst c
  = (snd (getConfigCommand (incomingData burst c)),
     if (0 <? String.length (fst (getConfigCommand (incomingData burst c))))%nat
     then bind (processCommand atoi
                  (fst (getConfigCommand (incomingData burst c))))
               (fun _ => ret tt)
     else ret tt).
Proof.
  intros Hb. destruct burst as [|x l]; [contradiction|].
  unfold checkForCommand_serial.
  destruct (getConfigCommand (incomingData (x :: l) c)). reflexivity.
Qed.

(** A burst that ends in a newline. *)
Lemma existsb_snoc_newline (chars : list Ascii.ascii) :
  existsb is_newline (chars ++ ["010"%char]) = true.
Proof. rewrite existsb_app. cbn. now rewrite orb_true_r. Qed.

Lemma filter_snoc_newline (chars : list Ascii.ascii) :
  existsb is_newline chars = false ->
  filter (fun x => negb (is_newline x)) (chars ++ ["010"%char]) = chars.
Proof.
  intros H. rewrite filter_app, (filter_no_newline _ H). cbn.
  apply app_nil_r.
Qed.

(** X14 ([checkForCommand], [incomingData], [getConfigCommand]).  With no
    input [checkForCommand] does nothing; input without a newline is only
    buffered; input that ends the line hands the whole line, with what was
    buffered before, to [processCommand] and leaves the console empty. *)
Theorem serial_command_line (atoi : String.string -> Z)
        (chars : list Ascii.ascii) (pending : String.string) :
  existsb is_newline chars = false ->
  let idle := mkConsole String.EmptyString false in
  let text := String.append pending (String.string_of_list_ascii chars) in
  checkForCommand_serial atoi [] (mkConsole pending false)
  = (mkConsole pending false, checkForCommand) /\
  (chars <> [] ->
   checkForCommand_serial atoi chars (mkConsole pending false)
   = (mkConsole text false, ret tt)) /\
  checkForCommand_serial atoi (chars ++ ["010"%char]) (mkConsole pending false)
  = (idle, if (0 <? String.length text)%nat
           then bind (processCommand atoi text) (fun _ => ret tt)
           else ret tt).
Proof.
  intros Hc idle text. split; [reflexivity|]. split.
  - intros Hne. rewrite (checkForCommand_serial_busy _ _ _ Hne).
    rewrite incomingData_spec. cbn [commandString commandComplete orb].
    rewrite Hc, (filter_no_newline _ Hc). reflexivity.
  - rewrite checkForCommand_serial_busy by (now destruct chars).
    rewrite incomingData_spec. cbn [commandString commandComplete orb].
    rewrite existsb_snoc_newline, (filter_snoc_newline _ Hc). reflexivity.
Qed.

(** [sleeptime=300] arriving in two pieces. *)
Lemma serial_command_line_witness :
  let w := demo_world 60 (demo_rtc 0 false) in
  let burst := String.list_ascii_of_string "time=300"%string in
  exists act,
    checkForCommand_serial decimal (burst ++ ["010"%char])
      (mkConsole "sleep"%string false)
    = (mkConsole String.EmptyString false, act) /\
    act w = Done tt (saved (set_sleeptime 300) w).
Proof.
  intros w burst.
  destruct (serial_command_line decimal burst "sleep"%string eq_refl)
    as (_ & _ & H).
  eexists. split; [exact H | reflexivity].
Defined.
